(** * ValleOrtiz-Youtube: a shallow embedding of the Django application

    The development follows the layout of the repository:

    - [Py]        the fragment of Python's dynamic semantics the views rely on
                  (JSON values, truthiness, [str], [int], [format], exceptions);
    - [Re]        a backtracking matcher for the regular expressions used by
                  the two duration formatters;
    - [OsPath]    [os.path.splitext];
    - one module per model class of [videos/models.py], [Db] and
                  [Biblioteca] for the tables;
    - [Filters]   [videos/templatetags/video_filters.py];
    - [Views]     the views and helpers of [videos/views.py];
    - [Spec]      the vocabulary of the statements, [Ejemplos] sample data;
    - the properties: those of the specification (C1 to C10), then those
                  read off the code (their comments carry an X).

    Conventions.  A Python [str] is a [string] whose characters are the code
    points 0..255; on that range the regex class [\d] is exactly [0-9].
    Integers are unbounded ([Z]), and the conversions between integers
    and decimal numerals have the interpreter's limit of 4300 digits; JSON
    numbers are integers (floats are left out).  A [datetime] is a point in time, a number of microseconds
    counted from 0001-01-01T00:00:00; naive and aware values are not told
    apart.  Everything the code obtains from outside (the clock, HTTP
    responses, database faults) is an explicit argument of the embedded
    function. *)

From Stdlib Require Import ZArith NArith List String Ascii Bool Lia.
From Stdlib Require Import DecimalString DecimalPos.
Import ListNotations.

Open Scope string_scope.
Open Scope Z_scope.

(* ================================================================== *)
(** * Python values and builtins *)
(* ================================================================== *)

Module Py.

(** Values produced by [json.loads] / [response.json()].  A [PDict] lists
    the items of the dictionary in insertion order; lookups take the first
    item with the key. *)
Unset Elimination Schemes.
Inductive pyval : Type :=
| PNone
| PBool (b : bool)
| PInt (z : Z)
| PStr (s : string)
| PList (l : list pyval)
| PDict (d : list (string * pyval)).
Set Elimination Schemes.

Definition pydict := list (string * pyval).

(** Exception classes that the code distinguishes or that the modelled
    builtins raise.  [Timeout] is a subclass of [RequestException]; every
    class is a subclass of [Exception]. *)
Inductive exn_class : Type :=
| Timeout
| RequestException
| ValueError
| TypeError
| ZeroDivisionError
| OverflowError
| AttributeError
| KeyError
| IndexError
| IntegrityError
| OtherError.

Record exn : Type := mkExn { exn_cls : exn_class; exn_msg : string }.

(** Result of an expression or call that may raise. *)
Inductive res (A : Type) : Type :=
| Ok (a : A)
| Raise (e : exn).
Arguments Ok {A} a.
Arguments Raise {A} e.

Definition bind {A B} (r : res A) (k : A -> res B) : res B :=
  match r with
  | Ok a => k a
  | Raise e => Raise e
  end.

Definition exn_class_eqb (a b : exn_class) : bool :=
  match a, b with
  | Timeout, Timeout | RequestException, RequestException
  | ValueError, ValueError | TypeError, TypeError
  | ZeroDivisionError, ZeroDivisionError | OverflowError, OverflowError
  | AttributeError, AttributeError | KeyError, KeyError
  | IndexError, IndexError | IntegrityError, IntegrityError
  | OtherError, OtherError => true
  | _, _ => false
  end.

(** [isinstance(e, C)] for the two [requests] classes. *)
Definition is_timeout (e : exn) : bool := exn_class_eqb (exn_cls e) Timeout.
Definition is_request_exception (e : exn) : bool :=
  exn_class_eqb (exn_cls e) Timeout || exn_class_eqb (exn_cls e) RequestException.

(** ** Strings *)

Definition str_empty (s : string) : bool :=
  match s with EmptyString => true | String _ _ => false end.

Fixpoint str_mem (c : ascii) (s : string) : bool :=
  match s with
  | EmptyString => false
  | String c' s' => Ascii.eqb c c' || str_mem c s'
  end.

Fixpoint str_map (f : ascii -> ascii) (s : string) : string :=
  match s with
  | EmptyString => EmptyString
  | String c s' => String (f c) (str_map f s')
  end.

Fixpoint str_rev_onto (s acc : string) : string :=
  match s with
  | EmptyString => acc
  | String c s' => str_rev_onto s' (String c acc)
  end.

Definition str_rev (s : string) : string := str_rev_onto s EmptyString.

Fixpoint str_repeat (c : ascii) (n : nat) : string :=
  match n with
  | O => EmptyString
  | S n' => String c (str_repeat c n')
  end.

Definition code (c : ascii) : N := N_of_ascii c.

Definition is_digit (c : ascii) : bool := (48 <=? code c)%N && (code c <=? 57)%N.

(** [str.lower()] on the code points 0..255: A-Z, and the Latin-1 capitals
    U+00C0..U+00DE except the multiplication sign U+00D7. *)
Definition lower_char (c : ascii) : ascii :=
  let n := code c in
  if ((65 <=? n) && (n <=? 90))%N then ascii_of_N (n + 32)
  else if ((192 <=? n) && (n <=? 222) && negb (n =? 215))%N then ascii_of_N (n + 32)
  else c.

Definition lower (s : string) : string := str_map lower_char s.

(** Whitespace as [str.split()] and [str.strip()] see it. *)
Definition is_space (c : ascii) : bool :=
  let n := code c in
  ((9 <=? n) && (n <=? 13) || (28 <=? n) && (n <=? 32) || (n =? 133) || (n =? 160))%N.

Fixpoint lstrip (s : string) : string :=
  match s with
  | EmptyString => EmptyString
  | String c s' => if is_space c then lstrip s' else s
  end.

Definition strip (s : string) : string := str_rev (lstrip (str_rev (lstrip s))).

(** ** Decimal numerals *)

Definition digit_char (d : Z) : ascii := ascii_of_N (48 + Z.to_N d).

Definition digit_val (c : ascii) : Z := Z.of_N (code c) - 48.

(** [str(n)] for an integer. *)
Definition str_of_int (z : Z) : string := NilEmpty.string_of_int (Z.to_int z).

(** [int(s)] for a string of decimal digits, most significant first. *)
Fixpoint int_of_digits_from (acc : Z) (s : string) : Z :=
  match s with
  | EmptyString => acc
  | String c s' => int_of_digits_from (10 * acc + digit_val c) s'
  end.

Definition int_of_digits (s : string) : Z := int_of_digits_from 0 s.

(** [s.zfill(w)] for an unsigned numeral. *)
Definition zfill (w : nat) (s : string) : string :=
  str_repeat "0"%char (w - String.length s) ++ s.

(** The limit of [sys.get_int_max_str_digits()]: a conversion between [int]
    and [str] in base 10 raises [ValueError] when the numeral has more
    digits than this. *)
Definition max_str_digits : Z := 4300.

Definition exceeds_max_str_digits : exn :=
  mkExn ValueError "Exceeds the limit (4300 digits) for integer string conversion".

(** The least number whose numeral is too long, [10 ^ max_str_digits],
    kept as a numeral. *)
Definition first_too_long : Z := Eval vm_compute in 10 ^ max_str_digits.

(** The numeral of [z] has more than [max_str_digits] digits. *)
Definition too_long_to_print (z : Z) : bool := first_too_long <=? Z.abs z.

(** Sign-aware zero padding to a minimum width of two characters. *)
Definition pad_02d (z : Z) : string :=
  if z <? 0 then String "-"%char (zfill 1 (str_of_int (- z)))
  else zfill 2 (str_of_int z).

(** The format specification [:02d], as [format(z, '02d')] and a field
    [{z:02d}] of an f-string evaluate it. *)
Definition format_02d (z : Z) : res string :=
  if too_long_to_print z then Raise exceeds_max_str_digits
  else Ok (pad_02d z).

(** [f"{h:02d}:{m:02d}:{s:02d}"] and [f"{m:02d}:{s:02d}"]: the fields are
    formatted from left to right. *)
Definition format_hms (h m s : Z) : res string :=
  bind (format_02d h) (fun hh =>
  bind (format_02d m) (fun mm =>
  bind (format_02d s) (fun ss =>
  Ok (hh ++ ":" ++ mm ++ ":" ++ ss)))).

Definition format_ms (m s : Z) : res string :=
  bind (format_02d m) (fun mm =>
  bind (format_02d s) (fun ss =>
  Ok (mm ++ ":" ++ ss))).

(** ** Truthiness, [str] and [repr] *)

Definition truthy (v : pyval) : bool :=
  match v with
  | PNone => false
  | PBool b => b
  | PInt z => negb (z =? 0)
  | PStr s => negb (str_empty s)
  | PList l => match l with [] => false | _ => true end
  | PDict d => match d with [] => false | _ => true end
  end.

Definition hex_char (d : N) : ascii :=
  if (d <? 10)%N then ascii_of_N (48 + d) else ascii_of_N (87 + d).

Definition hex2 (n : N) : string :=
  String (hex_char (n / 16)) (String (hex_char (n mod 16)) EmptyString).

Definition is_printable (c : ascii) : bool :=
  let n := code c in
  ((32 <=? n) && (n <? 127) || (161 <=? n) && negb (n =? 173))%N.

Definition quote1 : ascii := "'"%char.
Definition quote2 : ascii := "034"%char.
Definition backslash : ascii := "092"%char.

Definition repr_char (q c : ascii) : string :=
  if Ascii.eqb c q || Ascii.eqb c backslash then String backslash (String c EmptyString)
  else if (code c =? 9)%N then String backslash "t"
  else if (code c =? 10)%N then String backslash "n"
  else if (code c =? 13)%N then String backslash "r"
  else if is_printable c then String c EmptyString
  else String backslash (String "x"%char (hex2 (code c))).

Fixpoint repr_chars (q : ascii) (s : string) : string :=
  match s with
  | EmptyString => EmptyString
  | String c s' => repr_char q c ++ repr_chars q s'
  end.

(** [repr(s)] of a string: single quotes unless the text has a single quote
    and no double quote. *)
Definition repr_str (s : string) : string :=
  let q := if str_mem quote1 s && negb (str_mem quote2 s) then quote2 else quote1 in
  String q (repr_chars q s ++ String q EmptyString).

Fixpoint repr (v : pyval) : string :=
  match v with
  | PNone => "None"
  | PBool true => "True"
  | PBool false => "False"
  | PInt z => str_of_int z
  | PStr s => repr_str s
  | PList l =>
      "[" ++ String.concat ", " (List.map repr l) ++ "]"
  | PDict d =>
      "{" ++ String.concat ", "
               (List.map (fun kv => repr_str (fst kv) ++ ": " ++ repr (snd kv)) d)
          ++ "}"
  end.

(** [str(v)], also what an f-string interpolates. *)
Definition str (v : pyval) : string :=
  match v with
  | PStr s => s
  | _ => repr v
  end.

(** ** Dictionaries *)

Fixpoint dict_lookup (k : string) (d : pydict) : option pyval :=
  match d with
  | [] => None
  | (k', v) :: d' => if String.eqb k k' then Some v else dict_lookup k d'
  end.

(** [k in d] *)
Definition dict_has (k : string) (d : pydict) : bool :=
  match dict_lookup k d with Some _ => true | None => false end.

(** [d.get(k)] and [d.get(k, default)] *)
Definition dict_get (k : string) (d : pydict) : pyval :=
  match dict_lookup k d with Some v => v | None => PNone end.

Definition dict_get_default (k : string) (default : pyval) (d : pydict) : pyval :=
  match dict_lookup k d with Some v => v | None => default end.

(** ** [int(x)]

    [int] of a string skips white space at both ends, reads an optional
    sign and a numeral, and refuses a numeral of more than
    [max_str_digits] digits, leading zeros counted.  The white space it
    skips is that of C's [isspace], and U+0085 and U+00A0; the separators
    U+001C..U+001F, which [str.strip()] removes, are not part of it. *)

Definition is_int_space (c : ascii) : bool :=
  let n := code c in
  ((9 <=? n) && (n <=? 13) || (n =? 32) || (n =? 133) || (n =? 160))%N.

Fixpoint int_lstrip (s : string) : string :=
  match s with
  | EmptyString => EmptyString
  | String c s' => if is_int_space c then int_lstrip s' else s
  end.

Definition int_strip (s : string) : string :=
  str_rev (int_lstrip (str_rev (int_lstrip s))).

Fixpoint digit_count (s : string) : Z :=
  match s with
  | EmptyString => 0
  | String c s' => (if is_digit c then 1 else 0) + digit_count s'
  end.

(** The numeral grammar of [int(str)] in base 10: digits, with single
    underscores allowed between digits. *)
Fixpoint int_body (prev_digit : bool) (acc : Z) (s : string) : option Z :=
  match s with
  | EmptyString => if prev_digit then Some acc else None
  | String c s' =>
      if is_digit c then int_body true (10 * acc + digit_val c) s'
      else if Ascii.eqb c "_"%char && prev_digit then int_body false acc s'
      else None
  end.

Definition int_of_str (s : string) : option Z :=
  match int_strip s with
  | EmptyString => None
  | String c s' =>
      if Ascii.eqb c "-"%char then option_map Z.opp (int_body false 0 s')
      else if Ascii.eqb c "+"%char then int_body false 0 s'
      else int_body false 0 (String c s')
  end.

Definition int (v : pyval) : res Z :=
  match v with
  | PBool b => Ok (if b then 1 else 0)
  | PInt z => Ok z
  | PStr s =>
      match int_of_str s with
      | Some z =>
          if max_str_digits <? digit_count s then Raise exceeds_max_str_digits
          else Ok z
      | None => Raise (mkExn ValueError "invalid literal for int() with base 10")
      end
  | PNone | PList _ | PDict _ =>
      Raise (mkExn TypeError "int() argument must be a string, a bytes-like object or a real number")
  end.

(** ** Operations on values of unknown type

    The views apply these to whatever [response.json()] returned; a value
    of the wrong type raises.  The message texts of interpreter-raised
    exceptions are indicative, they vary between Python versions. *)

Definition type_name (v : pyval) : string :=
  match v with
  | PNone => "NoneType"
  | PBool _ => "bool"
  | PInt _ => "int"
  | PStr _ => "str"
  | PList _ => "list"
  | PDict _ => "dict"
  end.

Definition is_pstr (k : string) (v : pyval) : bool :=
  match v with
  | PStr s => String.eqb s k
  | _ => false
  end.

Fixpoint str_contains (k s : string) : bool :=
  String.prefix k s ||
  match s with
  | EmptyString => false
  | String _ s' => str_contains k s'
  end.

(** [k in v] for a string [k] *)
Definition contains (k : string) (v : pyval) : res bool :=
  match v with
  | PDict d => Ok (dict_has k d)
  | PList l => Ok (existsb (is_pstr k) l)
  | PStr s => Ok (str_contains k s)
  | _ => Raise (mkExn TypeError ("argument of type '" ++ type_name v ++ "' is not iterable"))
  end.

(** [v.get(k, default)] *)
Definition get (v : pyval) (k : string) (default : pyval) : res pyval :=
  match v with
  | PDict d => Ok (dict_get_default k default d)
  | _ => Raise (mkExn AttributeError ("'" ++ type_name v ++ "' object has no attribute 'get'"))
  end.

(** [v[k]] for a string [k] *)
Definition getitem (v : pyval) (k : string) : res pyval :=
  match v with
  | PDict d =>
      match dict_lookup k d with
      | Some x => Ok x
      | None => Raise (mkExn KeyError (repr_str k))
      end
  | PList _ => Raise (mkExn TypeError "list indices must be integers or slices, not str")
  | PStr _ => Raise (mkExn TypeError "string indices must be integers, not 'str'")
  | _ => Raise (mkExn TypeError ("'" ++ type_name v ++ "' object is not subscriptable"))
  end.

(** [v[0]]; the keys of a dictionary read from JSON are strings, so [0] is
    never one of them. *)
Definition getitem0 (v : pyval) : res pyval :=
  match v with
  | PList (x :: _) => Ok x
  | PList [] => Raise (mkExn IndexError "list index out of range")
  | PStr (String c _) => Ok (PStr (String c EmptyString))
  | PStr EmptyString => Raise (mkExn IndexError "string index out of range")
  | PDict _ => Raise (mkExn KeyError "0")
  | _ => Raise (mkExn TypeError ("'" ++ type_name v ++ "' object is not subscriptable"))
  end.

(** [v[:20]], evaluated by the debug prints for its effect only. *)
Definition slice20 (v : pyval) : res unit :=
  match v with
  | PStr _ | PList _ => Ok tt
  | PDict _ => Raise (mkExn TypeError "unhashable type: 'slice'")
  | _ => Raise (mkExn TypeError ("'" ++ type_name v ++ "' object is not subscriptable"))
  end.

(** [v == k] for a string [k] *)
Definition eq_str (v : pyval) (k : string) : bool := is_pstr k v.

(** [s.split()[0]] *)
Fixpoint until_space (s : string) : string :=
  match s with
  | EmptyString => EmptyString
  | String c s' => if is_space c then EmptyString else String c (until_space s')
  end.

Definition first_word (s : string) : res string :=
  match lstrip s with
  | EmptyString => Raise (mkExn IndexError "list index out of range")
  | w => Ok (until_space w)
  end.

(** [try: int(v) / except (ValueError, TypeError): 0] *)
Definition int_or_zero (v : pyval) : Z :=
  match int v with
  | Ok z => z
  | Raise _ => 0
  end.

(** ** True division of integers

    [a / b] on two [int]s yields the float nearest to the exact quotient and
    raises [OverflowError] when that float would not be finite, that is when
    the quotient reaches [2^1024 - 2^970], half an ulp above the largest
    double.  The float itself is kept as the pair it is the rounding of. *)
Inductive pyfloat : Type :=
| FloatOfQuotient (a b : Z).

Definition float_overflows (a b : Z) : bool :=
  (2 ^ 1024 - 2 ^ 970) * Z.abs b <=? Z.abs a.

Definition truediv (a b : Z) : res pyfloat :=
  if b =? 0 then Raise (mkExn ZeroDivisionError "division by zero")
  else if float_overflows a b
       then Raise (mkExn OverflowError "integer division result too large for a float")
  else Ok (FloatOfQuotient a b).

(** ** [datetime] and [timedelta] *)

Definition datetime := Z.

Definition usec_per_day : Z := 86400 * 1000000.

(** [datetime.max] is 9999-12-31T23:59:59.999999, day 3652059 of the
    proleptic Gregorian calendar. *)
Definition datetime_max : datetime := 3652059 * usec_per_day - 1.

(** [timedelta(seconds=v)] in microseconds. *)
Definition timedelta_seconds (v : pyval) : res Z :=
  let of_int (n : Z) :=
    if (n / 86400 <? -999999999) || (999999999 <? n / 86400)
    then Raise (mkExn OverflowError "days out of range for timedelta")
    else Ok (n * 1000000) in
  match v with
  | PInt n => of_int n
  | PBool b => of_int (if b then 1 else 0)
  | _ => Raise (mkExn TypeError "unsupported type for timedelta seconds component")
  end.

(** [t + d] for a datetime [t] and a timedelta [d]. *)
Definition datetime_add (t : datetime) (d : Z) : res datetime :=
  if (t + d <? 0) || (datetime_max <? t + d)
  then Raise (mkExn OverflowError "date value out of range")
  else Ok (t + d).

(** ** [str.split] and iteration *)

(** [s.split(sep)] for a separator of one character: the pieces between
    the occurrences of [sep], the empty ones included. *)
Fixpoint split_char (sep : ascii) (s : string) : list string :=
  match s with
  | EmptyString => [EmptyString]
  | String c s' =>
      if Ascii.eqb c sep then EmptyString :: split_char sep s'
      else
        match split_char sep s' with
        | piece :: rest => String c piece :: rest
        | [] => [String c EmptyString]
        end
  end.

Fixpoint chars (s : string) : list pyval :=
  match s with
  | EmptyString => []
  | String c s' => PStr (String c EmptyString) :: chars s'
  end.

(** [for x in v]: the values the loop variable takes. *)
Definition iter (v : pyval) : res (list pyval) :=
  match v with
  | PList l => Ok l
  | PStr s => Ok (chars s)
  | PDict d => Ok (List.map (fun kv => PStr (fst kv)) d)
  | _ => Raise (mkExn TypeError ("'" ++ type_name v ++ "' object is not iterable"))
  end.

End Py.

(* ================================================================== *)
(** * Regular expressions ([re]) *)
(* ================================================================== *)

Module Re.

(** The constructs the patterns of [views.py] are built from.  Matching is
    the backtracking, leftmost, greedy discipline of Python's [re]. *)
Inductive regex : Type :=
| Lit (c : ascii)                  (* a literal character *)
| Plus (cls : ascii -> bool)       (* [x+] for a character class [x], greedy *)
| Cat (r1 r2 : regex)              (* concatenation *)
| Opt (r : regex)                  (* [(?:r)?], greedy *)
| Group (i : nat) (r : regex).     (* capturing group number [i] *)

(** Captures: the most recent binding of a group comes first. *)
Definition captures := list (nat * string).

Fixpoint take (n : nat) (s : string) : string :=
  match n, s with
  | S n', String c s' => String c (take n' s')
  | _, _ => EmptyString
  end.

(** One or more characters of a class, then the continuation; the longest
    run is tried first and shortened on failure. *)
Fixpoint plus_class {A} (cls : ascii -> bool) (s : string)
         (k : string -> option A) : option A :=
  match s with
  | EmptyString => None
  | String c s' =>
      if cls c then
        match plus_class cls s' k with
        | Some x => Some x
        | None => k s'
        end
      else None
  end.

Fixpoint run (r : regex) (s : string) (g : captures)
         (k : string -> captures -> option captures) : option captures :=
  match r with
  | Lit c =>
      match s with
      | String c' s' => if Ascii.eqb c c' then k s' g else None
      | EmptyString => None
      end
  | Plus cls => plus_class cls s (fun s' => k s' g)
  | Cat r1 r2 => run r1 s g (fun s' g' => run r2 s' g' k)
  | Opt r1 =>
      match run r1 s g k with
      | Some x => Some x
      | None => k s g
      end
  | Group i r1 =>
      run r1 s g
          (fun s' g' => k s' ((i, take (String.length s - String.length s') s) :: g'))
  end.

(** [re.match(r, s)]: anchored at the start of [s] only. *)
Definition re_match (r : regex) (s : string) : option captures :=
  run r s [] (fun _ g => Some g).

(** [re.search(r, s)]: the first position of [s] where [r] matches. *)
Fixpoint re_search (r : regex) (s : string) : option captures :=
  match re_match r s with
  | Some g => Some g
  | None =>
      match s with
      | EmptyString => None
      | String _ s' => re_search r s'
      end
  end.

(** [m.group(i)]; [None] when the group took no part in the match. *)
Fixpoint group (i : nat) (g : captures) : option string :=
  match g with
  | [] => None
  | (j, t) :: g' => if Nat.eqb i j then Some t else group i g'
  end.

(** [\d+] *)
Definition digits : regex := Plus Py.is_digit.

End Re.

(* ================================================================== *)
(** * [os.path] *)
(* ================================================================== *)

Module OsPath.

(** [s.rfind(c)]: index of the last occurrence, [-1] when there is none. *)
Fixpoint rfind_from (c : ascii) (s : string) (i : Z) (last : Z) : Z :=
  match s with
  | EmptyString => last
  | String c' s' => rfind_from c s' (i + 1) (if Ascii.eqb c c' then i else last)
  end.

Definition rfind (c : ascii) (s : string) : Z := rfind_from c s 0 (-1).

(** [p[:i]] and [p[i:]] for [0 <= i]. *)
Definition slice_to (i : Z) (p : string) : string := Re.take (Z.to_nat i) p.

Fixpoint drop (n : nat) (s : string) : string :=
  match n, s with
  | S n', String _ s' => drop n' s'
  | _, _ => s
  end.

Definition slice_from (i : Z) (p : string) : string := drop (Z.to_nat i) p.

(** The [while] loop of [genericpath._splitext]: is there a character other
    than the dot in [p[filenameIndex:dotIndex]]? *)
Fixpoint has_name_before_dot (fuel : nat) (p : string) (filenameIndex dotIndex : Z) : bool :=
  match fuel with
  | O => false
  | S fuel' =>
      if filenameIndex <? dotIndex then
        match String.get (Z.to_nat filenameIndex) p with
        | Some c =>
            if negb (Ascii.eqb c "."%char) then true
            else has_name_before_dot fuel' p (filenameIndex + 1) dotIndex
        | None => true
        end
      else false
  end.

(** [posixpath.splitext(p)] *)
Definition splitext (p : string) : string * string :=
  let sepIndex := rfind "/"%char p in
  let dotIndex := rfind "."%char p in
  if (sepIndex <? dotIndex)
     && has_name_before_dot (String.length p) p (sepIndex + 1) dotIndex
  then (slice_to dotIndex p, slice_from dotIndex p)
  else (p, EmptyString).

(** [posixpath.join(a, b)] *)
Definition ends_with_slash (s : string) : bool :=
  match Py.str_rev s with
  | String c _ => Ascii.eqb c "/"%char
  | EmptyString => false
  end.

Definition join (a b : string) : string :=
  if String.prefix "/" b then b
  else if Py.str_empty a || ends_with_slash a then a ++ b
  else a ++ "/" ++ b.

End OsPath.

(* ================================================================== *)
(** * [videos/models.py] *)
(* ================================================================== *)

(** Rows hold the column values as the database stores them.  Columns that
    no modelled view writes, and the [auto_now]/[auto_now_add] timestamps,
    are left out.  The length limits of the text columns are not enforced:
    [save()] runs no validation, and the database backend is not part of
    the sources. *)

(** [django.contrib.auth.models.User] *)
Module User.

Record t : Type := mk {
  id : Z;
  username : string;
  email : string;
  first_name : string
}.

End User.

Module YouTubeAccount.

Record t : Type := mk {
  id : Z;
  user : Z;                          (* OneToOneField(User) *)
  youtube_id : string;               (* unique *)
  nombre_canal : string;
  email : string;
  foto_perfil : string;
  access_token : string;
  refresh_token : string;
  token_expira : option Py.datetime; (* null=True *)
  suscriptores : Z;
  videos_publicados : Z;
  vistas_totales : Z;
  url_canal : string
}.

(** [def esta_autenticado(self)], with [now] the value of [timezone.now()]. *)
Definition esta_autenticado (now : Py.datetime) (self : t) : bool :=
  match token_expira self with
  | None => false
  | Some expira => now <? expira
  end.

(** [def get_channel_url(self)] *)
Definition get_channel_url (self : t) : string :=
  if negb (Py.str_empty (url_canal self)) then url_canal self
  else "https://www.youtube.com/channel/" ++ youtube_id self.

End YouTubeAccount.

Module YouTubeVideo.

(** [def duracion_formateada(self)], as a function of [self.duracion_segundos];
    [//] and [%] are floor division and its remainder, as [Z.div] and
    [Z.modulo] are for a positive divisor. *)
Definition duracion_formateada (duracion_segundos : Z) : Py.res string :=
  let horas := duracion_segundos / 3600 in
  let minutos := (duracion_segundos mod 3600) / 60 in
  let segundos := duracion_segundos mod 60 in
  if 0 <? horas
  then Py.format_hms horas minutos segundos
  else Py.format_ms minutos segundos.

End YouTubeVideo.

Module VideoSubido.

Definition ESTADO_UPLOAD : list (string * string) :=
  [ ("pending", "Pendiente");
    ("uploading", "Subiendo");
    ("processing", "Procesando");
    ("published", "Publicado");
    ("failed", "Fallido") ].

(** The in-memory instance; [youtube_video_id] holds whatever Python value
    was assigned to the attribute. *)
Record t : Type := mk {
  id : Z;
  youtube_account : Z;
  youtube_video_id : Py.pyval;
  titulo : string;
  estado : string;
  archivo_path : string;
  archivo_size : Z;
  descripcion : string;
  etiquetas : string;
  categoria_id : string;
  privacidad : string;
  inicio_subida : option Py.datetime;
  fin_subida : option Py.datetime;
  mensaje_error : string
}.

Definition set_estado (v : string) (j : t) : t :=
  mk (id j) (youtube_account j) (youtube_video_id j) (titulo j) v
     (archivo_path j) (archivo_size j) (descripcion j) (etiquetas j)
     (categoria_id j) (privacidad j) (inicio_subida j) (fin_subida j)
     (mensaje_error j).

Definition set_inicio_subida (v : Py.datetime) (j : t) : t :=
  mk (id j) (youtube_account j) (youtube_video_id j) (titulo j) (estado j)
     (archivo_path j) (archivo_size j) (descripcion j) (etiquetas j)
     (categoria_id j) (privacidad j) (Some v) (fin_subida j)
     (mensaje_error j).

Definition set_fin_subida (v : Py.datetime) (j : t) : t :=
  mk (id j) (youtube_account j) (youtube_video_id j) (titulo j) (estado j)
     (archivo_path j) (archivo_size j) (descripcion j) (etiquetas j)
     (categoria_id j) (privacidad j) (inicio_subida j) (Some v)
     (mensaje_error j).

Definition set_mensaje_error (v : string) (j : t) : t :=
  mk (id j) (youtube_account j) (youtube_video_id j) (titulo j) (estado j)
     (archivo_path j) (archivo_size j) (descripcion j) (etiquetas j)
     (categoria_id j) (privacidad j) (inicio_subida j) (fin_subida j) v.

Definition set_youtube_video_id (v : Py.pyval) (j : t) : t :=
  mk (id j) (youtube_account j) v (titulo j) (estado j)
     (archivo_path j) (archivo_size j) (descripcion j) (etiquetas j)
     (categoria_id j) (privacidad j) (inicio_subida j) (fin_subida j)
     (mensaje_error j).

Definition set_archivo_path (v : string) (j : t) : t :=
  mk (id j) (youtube_account j) (youtube_video_id j) (titulo j) (estado j)
     v (archivo_size j) (descripcion j) (etiquetas j)
     (categoria_id j) (privacidad j) (inicio_subida j) (fin_subida j)
     (mensaje_error j).

(** [get_estado_display()] *)
Definition get_estado_display (j : t) : string :=
  match Py.dict_lookup (estado j)
          (List.map (fun kv => (fst kv, Py.PStr (snd kv))) ESTADO_UPLOAD) with
  | Some v => Py.str v
  | None => estado j
  end.

End VideoSubido.

Module VideoGuardado.

(** [unique_together = ['video_id', 'usuario']] *)
Record t : Type := mk {
  id : Z;
  video_id : string;
  usuario : Z;
  titulo : string;                       (* NOT NULL *)
  descripcion : option string;
  canal_nombre : option string;
  canal_id : option string;
  url_thumbnail : option string;
  fecha_publicacion : option Py.datetime;
  vistas : Z;
  likes : Z;
  comentarios : Z;
  duracion : option string;
  categoria : option string;
  etiquetas : option string
}.

End VideoGuardado.

(** The tables of the database. *)
Module Db.

Record t : Type := mk {
  users : list User.t;
  youtube_accounts : list YouTubeAccount.t;
  videos_subidos : list VideoSubido.t;
  videos_guardados : list VideoGuardado.t
}.

Definition set_users (v : list User.t) (db : t) : t :=
  mk v (youtube_accounts db) (videos_subidos db) (videos_guardados db).
Definition set_youtube_accounts (v : list YouTubeAccount.t) (db : t) : t :=
  mk (users db) v (videos_subidos db) (videos_guardados db).
Definition set_videos_subidos (v : list VideoSubido.t) (db : t) : t :=
  mk (users db) (youtube_accounts db) v (videos_guardados db).
Definition set_videos_guardados (v : list VideoGuardado.t) (db : t) : t :=
  mk (users db) (youtube_accounts db) (videos_subidos db) v.

(** The value of an auto-increment primary key for a new row: a key that
    no row of the table has.  The tables are lists of rows and keep no
    key sequence, so the key is one more than the largest key in use; the
    database never hands a key out twice, also not the key of a row that
    has been deleted since.  The two agree as long as the row with the
    largest key is not deleted. *)
Definition next_id (ids : list Z) : Z := 1 + fold_right Z.max 0 ids.

(** [Model.objects.get(...)] *)
Inductive got (A : Type) : Type :=
| Found (a : A)
| DoesNotExist
| MultipleObjectsReturned.
Arguments Found {A} a.
Arguments DoesNotExist {A}.
Arguments MultipleObjectsReturned {A}.

Definition get {A} (p : A -> bool) (rows : list A) : got A :=
  match List.filter p rows with
  | [] => DoesNotExist
  | [a] => Found a
  | _ => MultipleObjectsReturned
  end.

(** [Model.objects.filter(...).exists()] *)
Definition exists_ {A} (p : A -> bool) (rows : list A) : bool :=
  existsb p rows.

(** [UPDATE ... WHERE id = ...] of one row. *)
Definition update {A} (same : A -> bool) (row : A) (rows : list A) : list A :=
  List.map (fun r => if same r then row else r) rows.

End Db.

(** [class Video]: the columns the library views read or write. *)
Module Video.

Record t : Type := mk {
  id : Z;
  youtube_id : string;               (* unique *)
  agregado_por : option Z            (* ForeignKey(User), null=True *)
}.

Definition set_agregado_por (v : option Z) (x : t) : t :=
  mk (id x) (youtube_id x) v.

End Video.

Module VideoManager.

Record t : Type := mk {
  id : Z;
  video : Z;                         (* OneToOneField(Video) *)
  usuario_propietario : Z;
  visible : bool;
  favorito : bool;
  notas : string
}.

Definition set_favorito (v : bool) (m : t) : t :=
  mk (id m) (video m) (usuario_propietario m) (visible m) v (notas m).

Definition set_notas (v : string) (m : t) : t :=
  mk (id m) (video m) (usuario_propietario m) (visible m) (favorito m) v.

End VideoManager.

(** The tables of the personal library. *)
Module Biblioteca.

Record t : Type := mk {
  videos : list Video.t;
  managers : list VideoManager.t
}.

Definition set_videos (v : list Video.t) (lib : t) : t := mk v (managers lib).
Definition set_managers (v : list VideoManager.t) (lib : t) : t := mk (videos lib) v.

End Biblioteca.

(* ================================================================== *)
(** * [videos/templatetags/video_filters.py] *)
(* ================================================================== *)

Module Filters.

(** What [divide] returns: the float of a true division, or the integer of
    the [except] branch. *)
Inductive number : Type :=
| NFloat (f : Py.pyfloat)
| NInt (z : Z).

Definition caught_by_divide (e : Py.exn) : bool :=
  match Py.exn_cls e with
  | Py.ValueError | Py.ZeroDivisionError | Py.TypeError => true
  | _ => false
  end.

(** [def divide(value, arg)] *)
Definition divide (value arg : Py.pyval) : Py.res number :=
  match Py.bind (Py.int value) (fun a =>
        Py.bind (Py.int arg) (fun b => Py.truediv a b)) with
  | Py.Ok f => Py.Ok (NFloat f)
  | Py.Raise e => if caught_by_divide e then Py.Ok (NInt 0) else Py.Raise e
  end.

(** [def split_by_comma(value)]; the result is a list of strings. *)
Definition split_by_comma (value : Py.pyval) : list string :=
  if negb (Py.truthy value) then []
  else
    match value with
    | Py.PStr s =>
        List.map Py.strip
          (List.filter (fun item => negb (Py.str_empty (Py.strip item)))
                       (Py.split_char "," s))
    | _ => []
    end.

(** [def trim_filter(value)], registered as [trim] *)
Definition trim_filter (value : Py.pyval) : Py.pyval :=
  match value with
  | Py.PStr s => Py.PStr (Py.strip s)
  | _ => value
  end.

End Filters.

(* ================================================================== *)
(** * [videos/views.py] *)
(* ================================================================== *)

Module Views.

Import Py.

(** ** Requests and responses *)

Record UploadedFile : Type := mkFile { name : string; size : Z }.

Record request : Type := mkRequest {
  method : string;
  GET : list (string * string);
  POST : list (string * string);
  FILES : list (string * UploadedFile);
  user : option User.t;              (* [None] is the anonymous user *)
  body_json : res pyval              (* [json.loads(request.body)] *)
}.

(** [QueryDict.get(k)] and [QueryDict.get(k, default)]; [q] lists the
    fields in the order they were sent, and a key sent more than once
    gives its last value. *)
Fixpoint query_get (k : string) (q : list (string * string)) : option string :=
  match q with
  | [] => None
  | (k', v) :: q' =>
      match query_get k q' with
      | Some last => Some last
      | None => if String.eqb k k' then Some v else None
      end
  end.

Definition query_get_default (k default : string) (q : list (string * string)) : string :=
  match query_get k q with Some v => v | None => default end.

(** [request.FILES.get(k)] and [request.FILES[k]], with the same rule. *)
Fixpoint files_get (k : string) (q : list (string * UploadedFile)) : option UploadedFile :=
  match q with
  | [] => None
  | (k', v) :: q' =>
      match files_get k q' with
      | Some last => Some last
      | None => if String.eqb k k' then Some v else None
      end
  end.

(** A value placed in a template context or a JSON body: a Python value,
    or a datetime rendered by [strftime]. *)
Inductive jval : Type :=
| JV (v : pyval)
| JStrftime (format : string) (t : datetime).

Inductive response : Type :=
| Render (template : string) (context : list (string * jval))
| JsonResponse (data : list (string * jval)) (status : Z)
| Redirect (to : string).

Definition Str (s : string) : jval := JV (PStr s).

(** Where [@login_required] sends the anonymous user. *)
Definition login_redirect : response := Redirect "settings.LOGIN_URL".

(** Letters outside ASCII in the messages of the views. *)
Definition a_acute : string := String "225"%char EmptyString.
Definition e_acute : string := String "233"%char EmptyString.
Definition i_acute : string := String "237"%char EmptyString.
Definition o_acute : string := String "243"%char EmptyString.

(** ** Duration formatters *)

(** [r'(\d+)H'], [r'(\d+)M'], [r'(\d+)S'] *)
Definition pattern_unit (u : ascii) : Re.regex :=
  Re.Cat (Re.Group 1 Re.digits) (Re.Lit u).

(** [int(m.group(1)) if m else 0] *)
Definition int_group1_if (m : option Re.captures) : res Z :=
  match m with
  | Some g =>
      match Re.group 1 g with
      | Some t => int (PStr t)
      | None => int PNone
      end
  | None => Ok 0
  end.

(** [def _formatear_duracion(duracion_iso)] *)
Definition _formatear_duracion (duracion_iso : string) : res string :=
  if str_empty duracion_iso then Ok "N/A"
  else
    let horas := Re.re_search (pattern_unit "H") duracion_iso in
    let minutos := Re.re_search (pattern_unit "M") duracion_iso in
    let segundos := Re.re_search (pattern_unit "S") duracion_iso in
    bind (int_group1_if horas) (fun h =>
    bind (int_group1_if minutos) (fun m =>
    bind (int_group1_if segundos) (fun s =>
    if 0 <? h
    then format_hms h m s
    else format_ms m s))).

(** [r'PT(?:(\d+)H)?(?:(\d+)M)?(?:(\d+)S)?'] *)
Definition pattern_iso : Re.regex :=
  Re.Cat (Re.Lit "P")
 (Re.Cat (Re.Lit "T")
 (Re.Cat (Re.Opt (Re.Cat (Re.Group 1 Re.digits) (Re.Lit "H")))
 (Re.Cat (Re.Opt (Re.Cat (Re.Group 2 Re.digits) (Re.Lit "M")))
         (Re.Opt (Re.Cat (Re.Group 3 Re.digits) (Re.Lit "S")))))).

(** [int(match.group(i) or 0)] *)
Definition int_group_or_0 (i : nat) (g : Re.captures) : res Z :=
  match Re.group i g with
  | Some t => if str_empty t then int (PInt 0) else int (PStr t)
  | None => int (PInt 0)
  end.

(** [def _formatear_duracion_iso(duracion_iso)] *)
Definition _formatear_duracion_iso (duracion_iso : string) : res string :=
  if str_empty duracion_iso then Ok EmptyString
  else
    match Re.re_match pattern_iso duracion_iso with
    | None => Ok duracion_iso
    | Some g =>
        bind (int_group_or_0 1 g) (fun horas =>
        bind (int_group_or_0 2 g) (fun minutos =>
        bind (int_group_or_0 3 g) (fun segundos =>
        if 0 <? horas
        then format_hms horas minutos segundos
        else format_ms minutos segundos)))
    end.

(** ** Upload validation *)

Definition allowed_extensions : list string :=
  [".mp4"; ".mov"; ".avi"; ".wmv"; ".flv"; ".webm"].

(** [def _validar_archivo_video(video_file)] *)
Definition _validar_archivo_video (video_file : UploadedFile) : bool :=
  let max_size := 128 * 1024 * 1024 in
  if max_size <? size video_file then false
  else
    let ext := lower (snd (OsPath.splitext (name video_file))) in
    if negb (existsb (String.eqb ext) allowed_extensions) then false
    else true.

(** ** Uploads *)

(** A fault reported by the environment (database, file system, network
    client) at one call: [None] when the call succeeds. *)
Definition fault := option exn.

Definition check (f : fault) : res unit :=
  match f with
  | Some e => Raise e
  | None => Ok tt
  end.

Definition same_video (j r : VideoSubido.t) : bool :=
  VideoSubido.id r =? VideoSubido.id j.

(** [video_subido.save()]: update the row with the primary key of the
    instance, insert it when there is none. *)
Definition save_video (j : VideoSubido.t) (db : Db.t) : Db.t :=
  if Db.exists_ (same_video j) (Db.videos_subidos db)
  then Db.set_videos_subidos (Db.update (same_video j) j (Db.videos_subidos db)) db
  else Db.set_videos_subidos (Db.videos_subidos db ++ [j]) db.

(** What the environment contributes to one call of [procesar_subida_ajax]. *)
Record ajax_world : Type := mkAjaxWorld {
  ajax_now : datetime;               (* [timezone.now()] *)
  media_root : string;               (* [settings.MEDIA_ROOT] *)
  create_fault : fault;              (* [VideoSubido.objects.create] *)
  makedirs_fault : fault;            (* [os.makedirs] *)
  write_fault : fault;               (* [open] and the chunk loop *)
  save_fault : fault                 (* [video_subido.save()] *)
}.

Record ajax_result : Type := mkAjaxResult {
  ajax_response : res response;      (* [Raise]: the view let an exception out *)
  ajax_db : Db.t;
  ajax_thread : option (VideoSubido.t * string)
                                     (* arguments of the started thread *)
}.

Definition account_of_user (u : User.t) (a : YouTubeAccount.t) : bool :=
  YouTubeAccount.user a =? User.id u.

(** [VideoSubido.objects.create(...)] of [procesar_subida_ajax]; the unique
    column [youtube_video_id] takes its default, the empty string. *)
Definition create_video_subido (w_fault : fault) (req : request)
           (youtube_account : YouTubeAccount.t) (video_file : UploadedFile)
           (db : Db.t) : res (VideoSubido.t * Db.t) :=
  bind (check w_fault) (fun _ =>
  if Db.exists_ (fun r => str_empty (str (VideoSubido.youtube_video_id r)))
                (Db.videos_subidos db)
  then Raise (mkExn IntegrityError "UNIQUE constraint failed: youtube_video_id")
  else
    let j := VideoSubido.mk
               (Db.next_id (List.map VideoSubido.id (Db.videos_subidos db)))
               (YouTubeAccount.id youtube_account)
               (PStr EmptyString)
               (query_get_default "titulo" (name video_file) (POST req))
               "pending"
               (name video_file)
               (size video_file)
               (query_get_default "descripcion" EmptyString (POST req))
               (query_get_default "etiquetas" EmptyString (POST req))
               (query_get_default "categoria" "22" (POST req))
               (query_get_default "privacidad" "private" (POST req))
               None None EmptyString in
    Ok (j, Db.set_videos_subidos (Db.videos_subidos db ++ [j]) db)).

(** [def procesar_subida_ajax(request)], under [@login_required] *)
Definition procesar_subida_ajax (w : ajax_world) (req : request) (db : Db.t)
  : ajax_result :=
  match user req with
  | None => mkAjaxResult (Ok login_redirect) db None
  | Some u =>
  if negb (String.eqb (method req) "POST")
  then mkAjaxResult
         (Ok (JsonResponse [("error", Str ("M" ++ e_acute ++ "todo no permitido"))] 405))
         db None
  else
  match Db.get (account_of_user u) (Db.youtube_accounts db) with
  | Db.DoesNotExist =>
      mkAjaxResult (Ok (JsonResponse [("error", Str "Cuenta no vinculada")] 400)) db None
  | Db.MultipleObjectsReturned =>
      mkAjaxResult (Raise (mkExn OtherError "get() returned more than one YouTubeAccount"))
                   db None
  | Db.Found youtube_account =>
  if negb (YouTubeAccount.esta_autenticado (ajax_now w) youtube_account)
  then mkAjaxResult
         (Ok (JsonResponse [("error", Str "Token expirado");
                            ("needs_reauth", JV (PBool true))] 401))
         db None
  else
  match files_get "video_file" (FILES req) with
  | None =>
      mkAjaxResult
        (Ok (JsonResponse [("error", Str ("No se envi" ++ o_acute ++ " archivo"))] 400))
        db None
  | Some video_file =>
  if negb (_validar_archivo_video video_file)
  then mkAjaxResult
         (Ok (JsonResponse [("error", Str ("Archivo no v" ++ a_acute ++ "lido"))] 400))
         db None
  else
  match create_video_subido (create_fault w) req youtube_account video_file db with
  | Raise e => mkAjaxResult (Raise e) db None
  | Ok (video_subido, db1) =>
      let upload_dir :=
        OsPath.join (OsPath.join (media_root w) "uploads") (str_of_int (User.id u)) in
      match check (makedirs_fault w) with
      | Raise e => mkAjaxResult (Raise e) db1 None
      | Ok _ =>
      let file_path :=
        OsPath.join upload_dir
          (str_of_int (VideoSubido.id video_subido) ++ "_" ++ name video_file) in
      match check (write_fault w) with
      | Raise e => mkAjaxResult (Raise e) db1 None
      | Ok _ =>
      let video_subido := VideoSubido.set_archivo_path file_path video_subido in
      match check (save_fault w) with
      | Raise e => mkAjaxResult (Raise e) db1 None
      | Ok _ =>
      let db2 := save_video video_subido db1 in
      mkAjaxResult
        (Ok (JsonResponse
               [("success", JV (PBool true));
                ("video_id", JV (PInt (VideoSubido.id video_subido)));
                ("message", Str "Video en cola para subida");
                ("estado", Str (VideoSubido.get_estado_display video_subido))]
               200))
        db2
        (Some (video_subido, YouTubeAccount.access_token youtube_account))
      end end end
  end end end end.

(** *** The background upload *)

(** What the environment contributes to one run of [_subir_video_youtube]. *)
Record upload_world : Type := mkUploadWorld {
  now_inicio : datetime;
  save_uploading : fault;
  client_setup : fault;       (* [Credentials], [build], [MediaFileUpload], [insert] *)
  insert_execute : res pyval; (* [request.execute()] *)
  save_processing : fault;
  list_execute : nat -> res pyval;  (* the i-th [videos().list(...).execute()] *)
  now_fin : datetime;
  save_final : fault;
  now_fallo : datetime;       (* [datetime.now()] in the handler *)
  save_fallo : fault
}.

(** The state a run threads: the instance, the database, and two records
    kept for the statements about the run: the values assigned to
    [estado] and the values of [estado] written by a [save()], in order. *)
Record upload_state : Type := mkUploadState {
  video_subido : VideoSubido.t;
  upload_db : Db.t;
  asignados : list string;
  guardados : list string
}.

Definition M (A : Type) : Type := upload_state -> res A * upload_state.

Definition ret {A} (a : A) : M A := fun st => (Ok a, st).

Definition seq {A B} (m : M A) (k : A -> M B) : M B :=
  fun st =>
    match m st with
    | (Ok a, st') => k a st'
    | (Raise e, st') => (Raise e, st')
    end.

Notation "x <- m ;; k" := (seq m (fun x => k))
  (at level 61, m at next level, right associativity).
Notation "m ;;; k" := (seq m (fun _ => k))
  (at level 61, right associativity).

Definition lift {A} (r : res A) : M A := fun st => (r, st).

(** [try: body / except Exception as e: handler(e)] *)
Definition try_except {A} (body : M A) (handler : exn -> M A) : M A :=
  fun st =>
    match body st with
    | (Ok a, st') => (Ok a, st')
    | (Raise e, st') => handler e st'
    end.

Definition modify (f : VideoSubido.t -> VideoSubido.t) : M unit :=
  fun st => (Ok tt, mkUploadState (f (video_subido st)) (upload_db st)
                                  (asignados st) (guardados st)).

(** [video_subido.estado = v] *)
Definition assign_estado (v : string) : M unit :=
  fun st => (Ok tt, mkUploadState (VideoSubido.set_estado v (video_subido st))
                                  (upload_db st)
                                  (asignados st ++ [v]) (guardados st)).

(** [video_subido.save()] *)
Definition save (f : fault) : M unit :=
  fun st =>
    match f with
    | Some e => (Raise e, st)
    | None =>
        (Ok tt, mkUploadState (video_subido st)
                              (save_video (video_subido st) (upload_db st))
                              (asignados st)
                              (guardados st ++ [VideoSubido.estado (video_subido st)]))
    end.

(** [video_response['items'][0]['status']['uploadStatus']] *)
Definition upload_status (video_response : pyval) : res pyval :=
  bind (getitem video_response "items") (fun items =>
  bind (getitem0 items) (fun item =>
  bind (getitem item "status") (fun status =>
  getitem status "uploadStatus"))).

(** [for i in range(30): ...], with [n] iterations left and [i] done. *)
Fixpoint poll (w : upload_world) (n i : nat) : M unit :=
  match n with
  | O => ret tt
  | Datatypes.S n' =>
      video_response <- lift (list_execute w i) ;;
      status <- lift (upload_status video_response) ;;
      if eq_str status "processed" then
        assign_estado "published"
      else if eq_str status "failed" then
        assign_estado "failed" ;;;
        modify (VideoSubido.set_mensaje_error
                  ("Fall" ++ o_acute ++ " el procesamiento en YouTube"))
      else poll w n' (Datatypes.S i)
  end.

(** The [try] block of [_subir_video_youtube]. *)
Definition subir_try (w : upload_world) : M unit :=
  assign_estado "uploading" ;;;
  modify (VideoSubido.set_inicio_subida (now_inicio w)) ;;;
  save (save_uploading w) ;;;
  lift (check (client_setup w)) ;;;
  response <- lift (insert_execute w) ;;
  id <- lift (getitem response "id") ;;
  modify (VideoSubido.set_youtube_video_id id) ;;;
  assign_estado "processing" ;;;
  save (save_processing w) ;;;
  poll w 30 0 ;;;
  modify (VideoSubido.set_fin_subida (now_fin w)) ;;;
  save (save_final w).

(** Its [except Exception as e] handler. *)
Definition subir_except (w : upload_world) (e : exn) : M unit :=
  assign_estado "failed" ;;;
  modify (VideoSubido.set_mensaje_error (exn_msg e)) ;;;
  modify (VideoSubido.set_fin_subida (now_fallo w)) ;;;
  save (save_fallo w).

(** [def _subir_video_youtube(video_subido, access_token)]; the module
    imports that precede the [try] are taken to succeed. *)
Definition _subir_video_youtube (w : upload_world) (access_token : string)
  : M unit :=
  try_except (subir_try w) (subir_except w).

(** A run on an instance, from a database. *)
Definition run_upload (w : upload_world) (access_token : string)
           (j : VideoSubido.t) (db : Db.t) : res unit * upload_state :=
  _subir_video_youtube w access_token (mkUploadState j db [] []).

(** ** OAuth 2.0: token exchange and refresh *)

Definition error_page (error detalle : jval) : response :=
  Render "error.html" [("error", error); ("detalle", detalle)].

(** A text column that is [NOT NULL]: [None] violates the constraint, any
    other value is stored as [str(v)]. *)
Definition to_text (v : pyval) : res string :=
  match v with
  | PNone => Raise (mkExn IntegrityError "NOT NULL constraint failed")
  | _ => Ok (str v)
  end.

(** A text column with [null=True]. *)
Definition to_text_null (v : pyval) : option string :=
  match v with
  | PNone => None
  | _ => Some (str v)
  end.

Definition same_account (a r : YouTubeAccount.t) : bool :=
  YouTubeAccount.id r =? YouTubeAccount.id a.

(** [youtube_account.save()] *)
Definition save_account (a : YouTubeAccount.t) (db : Db.t) : Db.t :=
  if Db.exists_ (same_account a) (Db.youtube_accounts db)
  then Db.set_youtube_accounts (Db.update (same_account a) a (Db.youtube_accounts db)) db
  else Db.set_youtube_accounts (Db.youtube_accounts db ++ [a]) db.

(** The two assignments of the refresh flows:
    [access_token = token_response.get('access_token')] and
    [token_expira = datetime.now() + timedelta(seconds=expires_in)]. *)
Definition with_tokens (access_token : string) (token_expira : datetime)
           (a : YouTubeAccount.t) : YouTubeAccount.t :=
  YouTubeAccount.mk
    (YouTubeAccount.id a) (YouTubeAccount.user a) (YouTubeAccount.youtube_id a)
    (YouTubeAccount.nombre_canal a) (YouTubeAccount.email a)
    (YouTubeAccount.foto_perfil a)
    access_token (YouTubeAccount.refresh_token a) (Some token_expira)
    (YouTubeAccount.suscriptores a) (YouTubeAccount.videos_publicados a)
    (YouTubeAccount.vistas_totales a) (YouTubeAccount.url_canal a).

(** What the environment contributes to a refresh.  A fault of a write
    stands for whatever makes the database refuse it: a lock, a lost
    connection, a value that its column cannot hold. *)
Record refresh_world : Type := mkRefreshWorld {
  refresh_post : res pyval;    (* [requests.post(token_url, ...).json()] *)
  refresh_now : datetime;      (* [datetime.now()] *)
  refresh_save : fault         (* [youtube_account.save()] *)
}.

(** The statements both refresh functions run between the POST and the
    end of [save()]; they are guarded by [if 'error' in token_response]. *)
Definition refresh_update (w : refresh_world) (token_response : pyval)
           (youtube_account : YouTubeAccount.t) (db : Db.t)
  : res (YouTubeAccount.t * Db.t) :=
  bind (get token_response "access_token" PNone) (fun access_token =>
  bind (get token_response "expires_in" (PInt 3600)) (fun expires_in =>
  bind (timedelta_seconds expires_in) (fun delta =>
  bind (datetime_add (refresh_now w) delta) (fun token_expira =>
  bind (to_text access_token) (fun access_token_text =>
  bind (check (refresh_save w)) (fun _ =>
  let a := with_tokens access_token_text token_expira youtube_account in
  Ok (a, save_account a db))))))).

Definition strftime_format : string := "%d/%m/%Y %H:%M:%S".

(** [def refresh_youtube_token(request)], under [@login_required] *)
Definition refresh_youtube_token (w : refresh_world) (req : request) (db : Db.t)
  : response * Db.t :=
  match user req with
  | None => (login_redirect, db)
  | Some u =>
  let unexpected (e : exn) :=
    (JsonResponse [("error", Str ("Error inesperado: " ++ exn_msg e));
                   ("success", JV (PBool false))] 500, db) in
  match Db.get (account_of_user u) (Db.youtube_accounts db) with
  | Db.DoesNotExist =>
      (JsonResponse [("error", Str "No hay cuenta YouTube vinculada");
                     ("success", JV (PBool false))] 400, db)
  | Db.MultipleObjectsReturned =>
      unexpected (mkExn OtherError "get() returned more than one YouTubeAccount")
  | Db.Found youtube_account =>
  if str_empty (YouTubeAccount.refresh_token youtube_account)
  then (JsonResponse
          [("error", Str "No se puede refrescar el token. Reautentica con YouTube.");
           ("success", JV (PBool false));
           ("needs_reauth", JV (PBool true))] 401, db)
  else
  match refresh_post w with
  | Raise e => unexpected e
  | Ok token_response =>
  match contains "error" token_response with
  | Raise e => unexpected e
  | Ok true =>
      match get token_response "error_description" PNone with
      | Raise e => unexpected e
      | Ok _ =>
          (JsonResponse
             [("error", Str "Error al refrescar token. Reautentica con YouTube.");
              ("success", JV (PBool false));
              ("needs_reauth", JV (PBool true))] 401, db)
      end
  | Ok false =>
      match refresh_update w token_response youtube_account db with
      | Raise e => unexpected e
      | Ok (a, db') =>
          (JsonResponse
             [("success", JV (PBool true));
              ("message", Str "Token refrescado exitosamente");
              ("expira_en",
               match YouTubeAccount.token_expira a with
               | Some t => JStrftime strftime_format t
               | None => JV PNone
               end)] 200, db')
      end
  end end end end.

(** [def _refresh_youtube_token_internal(youtube_account)]: the returned
    dictionary, the instance when it was saved, and the database. *)
Definition _refresh_youtube_token_internal (w : refresh_world)
           (youtube_account : YouTubeAccount.t) (db : Db.t)
  : pydict * option YouTubeAccount.t * Db.t :=
  let failed (error : pyval) :=
    ([("success", PBool false); ("error", error)], None, db) in
  if str_empty (YouTubeAccount.refresh_token youtube_account)
  then failed (PStr "No hay refresh token")
  else
  match refresh_post w with
  | Raise e => failed (PStr (exn_msg e))
  | Ok token_response =>
  match contains "error" token_response with
  | Raise e => failed (PStr (exn_msg e))
  | Ok true =>
      match get token_response "error_description" PNone with
      | Raise e => failed (PStr (exn_msg e))
      | Ok error_description => failed error_description
      end
  | Ok false =>
      match refresh_update w token_response youtube_account db with
      | Raise e => failed (PStr (exn_msg e))
      | Ok (a, db') => ([("success", PBool true)], Some a, db')
      end
  end end.

(** *** The callback *)

Record callback_world : Type := mkCallbackWorld {
  token_post : res pyval;      (* [requests.post(token_url, ...).json()] *)
  callback_now : datetime;     (* [datetime.now()] of the expiry computation *)
  userinfo_get : res pyval;    (* [requests.get(userinfo_url, ...).json()] *)
  channels_get : res pyval;    (* [requests.get(channels_url, ...).json()] *)
  username_stamp : string;     (* [datetime.now().strftime('%Y%m%d%H%M%S')] *)
  create_user_fault : fault;   (* [User.objects.create_user] *)
  account_fault : fault;       (* [youtube_account.save()] / [objects.create],
                                  the unique constraints apart *)
  signal_fault : fault         (* the [save] of the [post_save] receiver *)
}.

Record callback_result : Type := mkCallbackResult {
  callback_response : response;
  callback_db : Db.t;
  callback_login : option Z;       (* the user [login()] was called with *)
  callback_session_account : option Z  (* [session['youtube_account_id']] *)
}.

(** What a block of the view hands on: a response to return at once, or
    the values it bound. *)
Inductive step (A : Type) : Type :=
| Return (r : response)
| Next (a : A).
Arguments Return {A} r.
Arguments Next {A} a.

Record tokens : Type := mkTokens {
  access_token : pyval;
  refresh_token : pyval;
  token_expira : datetime
}.

(** PASO 2: exchange the code for tokens. *)
Definition paso2 (w : callback_world) : step tokens :=
  let body : res (step tokens) :=
    bind (token_post w) (fun token_response =>
    bind (contains "error" token_response) (fun has_error =>
    if has_error then
      bind (get token_response "error_description"
                (PStr "Error desconocido al obtener tokens")) (fun error_msg =>
      Ok (Return (error_page (Str "Error al obtener tokens de acceso") (JV error_msg))))
    else
      bind (get token_response "access_token" PNone) (fun access_token =>
      bind (get token_response "refresh_token" (PStr EmptyString)) (fun refresh_token =>
      bind (get token_response "expires_in" (PInt 3600)) (fun expires_in =>
      if negb (truthy access_token) then
        Ok (Return (error_page (Str "Error en la respuesta de Google")
                      (Str ("No se recibi" ++ o_acute ++ " token de acceso v"
                            ++ a_acute ++ "lido."))))
      else
        bind (slice20 access_token) (fun _ =>
        bind (if truthy refresh_token then slice20 refresh_token else Ok tt) (fun _ =>
        bind (timedelta_seconds expires_in) (fun delta =>
        bind (datetime_add (callback_now w) delta) (fun token_expira =>
        Ok (Next (mkTokens access_token refresh_token token_expira))))))))))) in
  match body with
  | Ok r => r
  | Raise e =>
      if is_timeout e then
        Return (error_page (Str ("Timeout de conexi" ++ o_acute ++ "n"))
                  (Str ("Google no respondi" ++ o_acute
                        ++ " a tiempo. Intenta nuevamente.")))
      else if is_request_exception e then
        Return (error_page (Str ("Error de conexi" ++ o_acute ++ "n"))
                  (Str ("No se pudo conectar con Google: " ++ exn_msg e)))
      else
        Return (error_page (Str "Error inesperado")
                  (Str ("Ocurri" ++ o_acute ++ " un error: " ++ exn_msg e)))
  end.

(** PASO 3.1: the e-mail of the user, [''] when it cannot be had. *)
Definition paso3_email (w : callback_world) : pyval :=
  let body : res pyval :=
    bind (userinfo_get w) (fun user_data =>
    bind (contains "error" user_data) (fun has_error =>
    if negb has_error then get user_data "email" (PStr EmptyString)
    else bind (get user_data "error" (PDict [])) (fun _ => Ok (PStr EmptyString)))) in
  match body with
  | Ok v => v
  | Raise _ => PStr EmptyString
  end.

Record channel_info : Type := mkChannel {
  channel_id : pyval;
  channel_name : pyval;
  channel_thumbnail : pyval;
  subscribers : Z;
  video_count : Z;
  view_count : Z
}.

(** [snippet.get('thumbnails', {}).get(size, {}).get('url', default)],
    where [default] is evaluated after the receiver of the last [get]. *)
Definition thumbnail_url (snippet : pyval) (size : string) (default : res pyval)
  : res pyval :=
  bind (get snippet "thumbnails" (PDict [])) (fun thumbnails =>
  bind (get thumbnails size (PDict [])) (fun entry =>
  bind (get entry "url" PNone) (fun _ =>
  bind default (fun d => get entry "url" d)))).

(** PASO 3.2: the channel of the authenticated user. *)
Definition paso3_canal (w : callback_world) : step channel_info :=
  let body : res (step channel_info) :=
    bind (channels_get w) (fun channels_data =>
    bind (contains "error" channels_data) (fun has_error =>
    if has_error then
      bind (get channels_data "error" (PDict [])) (fun err =>
      bind (get err "message" (PStr "Error desconocido al obtener canal")) (fun error_msg =>
      Ok (Return (error_page (Str "Error al obtener datos del canal de YouTube")
                             (JV error_msg)))))
    else
      bind (get channels_data "items" PNone) (fun items =>
      if negb (truthy items) then
        Ok (Return (error_page (Str ("No se encontr" ++ o_acute ++ " canal de YouTube"))
                      (Str "Esta cuenta de Google no tiene un canal de YouTube asociado.")))
      else
        bind (getitem channels_data "items") (fun items =>
        bind (getitem0 items) (fun channel =>
        bind (getitem channel "id") (fun channel_id =>
        bind (get channel "snippet" (PDict [])) (fun snippet =>
        bind (get channel "statistics" (PDict [])) (fun stats =>
        bind (get snippet "title" (PStr "Mi Canal de YouTube")) (fun channel_name =>
        bind (thumbnail_url snippet "high"
                (thumbnail_url snippet "medium"
                   (thumbnail_url snippet "default" (Ok (PStr EmptyString)))))
             (fun channel_thumbnail =>
        bind (get snippet "description" (PStr EmptyString)) (fun _ =>
        bind (get stats "subscriberCount" (PInt 0)) (fun subscriberCount =>
        bind (get stats "videoCount" (PInt 0)) (fun videoCount =>
        bind (get stats "viewCount" (PInt 0)) (fun viewCount =>
        Ok (Next (mkChannel channel_id channel_name channel_thumbnail
                            (int_or_zero subscriberCount)
                            (int_or_zero videoCount)
                            (int_or_zero viewCount))))))))))))))))) in
  match body with
  | Ok r => r
  | Raise e =>
      if is_timeout e then
        Return (error_page (Str ("Timeout de conexi" ++ o_acute ++ "n"))
                  (Str ("YouTube no respondi" ++ o_acute
                        ++ " a tiempo al solicitar informaci" ++ o_acute
                        ++ "n del canal.")))
      else
        Return (error_page (Str ("Error al procesar informaci" ++ o_acute ++ "n del canal"))
                  (Str ("Ocurri" ++ o_acute ++ " un error inesperado: " ++ exn_msg e)))
  end.

(** [UserManager.normalize_email]: the domain part is lower-cased. *)
Fixpoint rsplit_at (s : string) : option (string * string) :=
  match s with
  | EmptyString => None
  | String c s' =>
      match rsplit_at s' with
      | Some (a, b) => Some (String c a, b)
      | None => if Ascii.eqb c "@"%char then Some (EmptyString, s') else None
      end
  end.

Definition normalize_email (email : pyval) : res string :=
  if negb (truthy email) then Ok EmptyString
  else
    match email with
    | PStr s =>
        match rsplit_at (strip s) with
        | Some (email_name, domain_part) => Ok (email_name ++ "@" ++ lower domain_part)
        | None => Ok s
        end
    | _ => Raise (mkExn AttributeError
                    ("'" ++ type_name email ++ "' object has no attribute 'strip'"))
    end.

(** The [while] loop that looks for a free username; it runs at most 100
    times because of [if counter > 100: break]. *)
Fixpoint pick_username (n : nat) (users : list User.t)
         (original_username username : string) (counter : Z) (stamp : string)
  : string :=
  if Db.exists_ (fun u => String.eqb (User.username u) username) users then
    match n with
    | O => username
    | Datatypes.S n' =>
        let username := original_username ++ "_" ++ str_of_int counter in
        let counter := counter + 1 in
        if 100 <? counter then "youtube_user_" ++ stamp
        else pick_username n' users original_username username counter stamp
    end
  else username.

(** [channel_name.split()[0] if channel_name else ''] *)
Definition first_name_of (channel_name : pyval) : res string :=
  if negb (truthy channel_name) then Ok EmptyString
  else
    match channel_name with
    | PStr s => first_word s
    | _ => Raise (mkExn AttributeError
                    ("'" ++ type_name channel_name ++ "' object has no attribute 'split'"))
    end.

(** [User.objects.create_user(username=..., email=..., first_name=...,
    password=None)].  The username is stored as it is passed: Django
    normalises it to NFKC first, which changes nothing in a name made of
    ASCII characters, as the names are that the view builds from the
    channel ids YouTube hands out.  For a name that NFKC changes, the
    uniqueness check of the database is on the normalised name. *)
Definition create_user (f : fault) (username : string) (email : pyval)
           (first_name : string) (db : Db.t) : res (User.t * Db.t) :=
  bind (normalize_email email) (fun email =>
  bind (check f) (fun _ =>
  if Db.exists_ (fun u => String.eqb (User.username u) username) (Db.users db)
  then Raise (mkExn IntegrityError "UNIQUE constraint failed: auth_user.username")
  else
    let u := User.mk (Db.next_id (List.map User.id (Db.users db)))
                     username email first_name in
    Ok (u, Db.set_users (Db.users db ++ [u]) db))).

(** [YouTubeAccount.objects.get(youtube_id=channel_id)] *)
Definition has_youtube_id (channel_id : pyval) (a : YouTubeAccount.t) : bool :=
  match channel_id with
  | PNone => false
  | _ => String.eqb (YouTubeAccount.youtube_id a) (str channel_id)
  end.

(** The branch that updates an existing account. *)
Definition update_account (w : callback_world) (t : tokens) (user_email : pyval)
           (c : channel_info) (youtube_account : YouTubeAccount.t) (db : Db.t)
  : res (YouTubeAccount.t * Db.t) :=
  bind (to_text (access_token t)) (fun access_token =>
  bind (if truthy (refresh_token t) then to_text (refresh_token t)
        else Ok (YouTubeAccount.refresh_token youtube_account)) (fun refresh_token =>
  bind (to_text (channel_name c)) (fun nombre_canal =>
  bind (to_text (if truthy user_email then user_email
                 else PStr (YouTubeAccount.email youtube_account))) (fun email =>
  bind (to_text (channel_thumbnail c)) (fun foto_perfil =>
  bind (check (account_fault w)) (fun _ =>
  let a := YouTubeAccount.mk
             (YouTubeAccount.id youtube_account)
             (YouTubeAccount.user youtube_account)
             (YouTubeAccount.youtube_id youtube_account)
             nombre_canal email foto_perfil
             access_token refresh_token (Some (token_expira t))
             (subscribers c) (video_count c) (view_count c)
             (YouTubeAccount.url_canal youtube_account) in
  Ok (a, save_account a db))))))).

Definition with_url_canal (v : string) (a : YouTubeAccount.t) : YouTubeAccount.t :=
  YouTubeAccount.mk
    (YouTubeAccount.id a) (YouTubeAccount.user a) (YouTubeAccount.youtube_id a)
    (YouTubeAccount.nombre_canal a) (YouTubeAccount.email a)
    (YouTubeAccount.foto_perfil a) (YouTubeAccount.access_token a)
    (YouTubeAccount.refresh_token a) (YouTubeAccount.token_expira a)
    (YouTubeAccount.suscriptores a) (YouTubeAccount.videos_publicados a)
    (YouTubeAccount.vistas_totales a) v.

(** [YouTubeAccount.objects.create(...)], then the [post_save] receiver
    [crear_url_canal].  The database is returned with the result because a
    failing receiver leaves the inserted row behind. *)
Definition create_account (w : callback_world) (django_user : Z) (t : tokens)
           (user_email : pyval) (c : channel_info) (db : Db.t)
  : res YouTubeAccount.t * Db.t :=
  let insert : res YouTubeAccount.t :=
    bind (to_text (channel_id c)) (fun youtube_id =>
    bind (to_text (access_token t)) (fun access_token =>
    bind (to_text (refresh_token t)) (fun refresh_token =>
    bind (to_text (channel_name c)) (fun nombre_canal =>
    bind (to_text user_email) (fun email =>
    bind (to_text (channel_thumbnail c)) (fun foto_perfil =>
    bind (check (account_fault w)) (fun _ =>
    if Db.exists_ (fun a => String.eqb (YouTubeAccount.youtube_id a) youtube_id)
                  (Db.youtube_accounts db)
    then Raise (mkExn IntegrityError "UNIQUE constraint failed: youtube_id")
    else if Db.exists_ (fun a => YouTubeAccount.user a =? django_user)
                       (Db.youtube_accounts db)
    then Raise (mkExn IntegrityError "UNIQUE constraint failed: user_id")
    else
      Ok (YouTubeAccount.mk
            (Db.next_id (List.map YouTubeAccount.id (Db.youtube_accounts db)))
            django_user youtube_id nombre_canal email foto_perfil
            access_token refresh_token (Some (token_expira t))
            (subscribers c) (video_count c) (view_count c) EmptyString)))))))) in
  match insert with
  | Raise e => (Raise e, db)
  | Ok a =>
      let db1 := Db.set_youtube_accounts (Db.youtube_accounts db ++ [a]) db in
      match check (signal_fault w) with
      | Raise e => (Raise e, db1)
      | Ok _ =>
          let a' := with_url_canal
                      ("https://www.youtube.com/channel/" ++ YouTubeAccount.youtube_id a) a in
          (Ok a', save_account a' db1)
      end
  end.

(** PASO 4: create or update the user and the account; the body of the
    last [try]. *)
Definition paso4 (w : callback_world) (req : request) (t : tokens)
           (user_email : pyval) (c : channel_info) (db : Db.t)
  : res YouTubeAccount.t * Db.t :=
  match Db.get (has_youtube_id (channel_id c)) (Db.youtube_accounts db) with
  | Db.MultipleObjectsReturned =>
      (Raise (mkExn OtherError "get() returned more than one YouTubeAccount"), db)
  | Db.Found youtube_account =>
      match update_account w t user_email c youtube_account db with
      | Raise e => (Raise e, db)
      | Ok (a, db') => (Ok a, db')
      end
  | Db.DoesNotExist =>
      match user req with
      | Some u => create_account w (User.id u) t user_email c db
      | None =>
          let base_username := "youtube_" ++ str (channel_id c) in
          let username := Re.take 30 base_username in
          let username :=
            pick_username 100 (Db.users db) username username 1 (username_stamp w) in
          match bind (first_name_of (channel_name c)) (fun first_name =>
                create_user (create_user_fault w) username user_email first_name db) with
          | Raise e => (Raise e, db)
          | Ok (django_user, db1) =>
              create_account w (User.id django_user) t user_email c db1
          end
      end
  end.

(** [def youtube_callback(request)] *)
Definition youtube_callback (w : callback_world) (req : request) (db : Db.t)
  : callback_result :=
  let stop (r : response) := mkCallbackResult r db None None in
  let code := query_get "code" (GET req) in
  let error := query_get_default "error" EmptyString (GET req) in
  if negb (str_empty error) then
    stop (error_page (Str ("Error de autorizaci" ++ o_acute ++ "n: " ++ error))
            (Str (query_get_default "error_description" "Error desconocido" (GET req))))
  else if str_empty (match code with Some c => c | None => EmptyString end) then
    stop (error_page (Str ("No se recibi" ++ o_acute ++ " c" ++ o_acute
                           ++ "digo de autorizaci" ++ o_acute ++ "n"))
            (Str ("El usuario cancel" ++ o_acute ++ " la autorizaci" ++ o_acute
                  ++ "n o hubo un error en el proceso.")))
  else
  match paso2 w with
  | Return r => stop r
  | Next t =>
  let user_email := paso3_email w in
  match paso3_canal w with
  | Return r => stop r
  | Next c =>
  match paso4 w req t user_email c db with
  | (Raise e, db') =>
      mkCallbackResult
        (error_page (Str ("Error al guardar informaci" ++ o_acute ++ "n"))
           (Str ("Ocurri" ++ o_acute ++ " un error al guardar los datos: " ++ exn_msg e)))
        db' None None
  | (Ok youtube_account, db') =>
      mkCallbackResult
        (Redirect "youtube_dashboard")
        db'
        (match user req with
         | Some _ => None
         | None => Some (YouTubeAccount.user youtube_account)
         end)
        (Some (YouTubeAccount.id youtube_account))
  end end end.

(** ** Saved videos *)

(** The dictionary [_obtener_info_video_youtube] returns. *)
Record video_info : Type := mkInfo {
  info_titulo : pyval;
  info_descripcion : pyval;
  info_canal_nombre : pyval;
  info_canal_id : pyval;
  info_url_thumbnail : pyval;
  info_fecha_publicacion : option datetime;
  info_vistas : Z;
  info_likes : Z;
  info_comentarios : Z;
  info_duracion : pyval;
  info_categoria : pyval;
  info_etiquetas : pyval
}.

Record guardar_world : Type := mkGuardarWorld {
  guardar_now : datetime;      (* [timezone.now()] *)
  videos_api : res (option video_info);
      (* the request to the videos endpoint and the reading of its answer:
         an exception, no item, or the dictionary built from the item *)
  insert_fault : fault         (* [VideoGuardado.objects.create] *)
}.

(** [def _obtener_info_video_youtube(video_id, user)] *)
Definition _obtener_info_video_youtube (w : guardar_world) (video_id : pyval)
           (u : User.t) (db : Db.t) : res video_info :=
  let minimal :=
    mkInfo (PStr EmptyString) (PStr EmptyString) (PStr EmptyString) (PStr EmptyString)
           (PStr ("https://img.youtube.com/vi/" ++ str video_id ++ "/hqdefault.jpg"))
           None 0 0 0
           (PStr EmptyString) (PStr EmptyString) (PStr EmptyString) in
  match Db.get (account_of_user u) (Db.youtube_accounts db) with
  | Db.DoesNotExist => Ok minimal
  | Db.MultipleObjectsReturned =>
      Raise (mkExn OtherError "get() returned more than one YouTubeAccount")
  | Db.Found youtube_account =>
      if YouTubeAccount.esta_autenticado (guardar_now w) youtube_account then
        match videos_api w with
        | Raise e => Raise e
        | Ok (Some info) => Ok info
        | Ok None => Ok minimal
        end
      else Ok minimal
  end.

(** [VideoGuardado.objects.filter(video_id=video_id, usuario=request.user)] *)
Definition is_saved (video_id : pyval) (u : User.t) (r : VideoGuardado.t) : bool :=
  String.eqb (VideoGuardado.video_id r) (str video_id)
  && (VideoGuardado.usuario r =? User.id u).

(** [VideoGuardado.objects.create(...)]; [unique_together] is enforced by
    the database. *)
Definition create_video_guardado (f : fault) (video_id : pyval) (u : User.t)
           (info : video_info) (db : Db.t) : res (VideoGuardado.t * Db.t) :=
  bind (to_text video_id) (fun video_id_text =>
  bind (to_text (info_titulo info)) (fun titulo =>
  bind (check f) (fun _ =>
  if Db.exists_ (is_saved video_id u) (Db.videos_guardados db)
  then Raise (mkExn IntegrityError "UNIQUE constraint failed: video_id, usuario_id")
  else
    let v := VideoGuardado.mk
               (Db.next_id (List.map VideoGuardado.id (Db.videos_guardados db)))
               video_id_text (User.id u) titulo
               (to_text_null (info_descripcion info))
               (to_text_null (info_canal_nombre info))
               (to_text_null (info_canal_id info))
               (to_text_null (info_url_thumbnail info))
               (info_fecha_publicacion info)
               (info_vistas info) (info_likes info) (info_comentarios info)
               (to_text_null (info_duracion info))
               (to_text_null (info_categoria info))
               (to_text_null (info_etiquetas info)) in
    Ok (v, Db.set_videos_guardados (Db.videos_guardados db ++ [v]) db)))).

(** [def guardar_video_busqueda(request)], under [@login_required] *)
Definition guardar_video_busqueda (w : guardar_world) (req : request) (db : Db.t)
  : response * Db.t :=
  match user req with
  | None => (login_redirect, db)
  | Some u =>
  if negb (String.eqb (method req) "POST")
  then (JsonResponse [("success", JV (PBool false));
                      ("error", Str ("M" ++ e_acute ++ "todo no permitido"))] 405, db)
  else
  let body : res (response * Db.t) :=
    bind (body_json req) (fun data =>
    bind (get data "video_id" PNone) (fun video_id =>
    bind (get data "titulo" (PStr EmptyString)) (fun titulo =>
    if negb (truthy video_id) then
      Ok (JsonResponse [("success", JV (PBool false));
                        ("error", Str "ID de video requerido")] 200, db)
    else if Db.exists_ (is_saved video_id u) (Db.videos_guardados db) then
      Ok (JsonResponse [("success", JV (PBool false));
                        ("error", Str "Ya tienes este video guardado");
                        ("video_id", JV video_id)] 200, db)
    else
      bind (_obtener_info_video_youtube w video_id u db) (fun video_info =>
      bind (create_video_guardado (insert_fault w) video_id u video_info db)
           (fun created =>
      let (video_guardado, db') := created in
      Ok (JsonResponse [("success", JV (PBool true));
                        ("id", JV (PInt (VideoGuardado.id video_guardado)));
                        ("titulo", JV (info_titulo video_info));
                        ("message", Str "Video guardado exitosamente")] 200, db')))))) in
  match body with
  | Ok r => r
  | Raise e =>
      (JsonResponse [("success", JV (PBool false));
                     ("error", Str ("Error al guardar video: " ++ exn_msg e))] 500, db)
  end
  end.

(** ** Status of the link with YouTube *)

(** [def check_auth_status(request)], under [@login_required]; [now] is the
    value of [timezone.now()]. *)
Definition check_auth_status (now : datetime) (req : request) (db : Db.t)
  : res response :=
  match user req with
  | None => Ok login_redirect
  | Some u =>
      match Db.get (account_of_user u) (Db.youtube_accounts db) with
      | Db.Found youtube_account =>
          Ok (JsonResponse
                [("autenticado", JV (PBool true));
                 ("nombre_canal", Str (YouTubeAccount.nombre_canal youtube_account));
                 ("token_valido",
                  JV (PBool (YouTubeAccount.esta_autenticado now youtube_account)));
                 ("token_expira",
                  match YouTubeAccount.token_expira youtube_account with
                  | Some t => JStrftime strftime_format t
                  | None => JV PNone
                  end);
                 ("tiene_refresh_token",
                  JV (PBool (negb (str_empty (YouTubeAccount.refresh_token youtube_account)))));
                 ("suscriptores", JV (PInt (YouTubeAccount.suscriptores youtube_account)));
                 ("videos", JV (PInt (YouTubeAccount.videos_publicados youtube_account)))]
                200)
      | Db.DoesNotExist =>
          Ok (JsonResponse
                [("autenticado", JV (PBool false));
                 ("message", Str "No hay cuenta YouTube vinculada")] 200)
      | Db.MultipleObjectsReturned =>
          Raise (mkExn OtherError "get() returned more than one YouTubeAccount")
      end
  end.

(** ** Channel statistics *)

Record stats_world : Type := mkStatsWorld {
  stats_now : datetime;        (* [timezone.now()] of [esta_autenticado] *)
  stats_get : res pyval;       (* [requests.get(channels_url, ...).json()] *)
  stats_save : fault;          (* [youtube_account.save()] *)
  stats_ahora : datetime       (* [datetime.now()] of the answer *)
}.

(** [except (ValueError, TypeError)] *)
Definition caught_by_estadisticas (e : exn) : bool :=
  match exn_cls e with
  | ValueError | TypeError => true
  | _ => false
  end.

(** [def youtube_estadisticas(request)], under [@login_required] *)
Definition youtube_estadisticas (w : stats_world) (req : request) (db : Db.t)
  : res response * Db.t :=
  match user req with
  | None => (Ok login_redirect, db)
  | Some u =>
  let failed (error : string) (status : Z) :=
    JsonResponse [("error", Str error); ("success", JV (PBool false))] status in
  match Db.get (account_of_user u) (Db.youtube_accounts db) with
  | Db.DoesNotExist => (Ok (failed "No hay cuenta de YouTube vinculada" 400), db)
  | Db.MultipleObjectsReturned =>
      (Raise (mkExn OtherError "get() returned more than one YouTubeAccount"), db)
  | Db.Found youtube_account =>
  if negb (YouTubeAccount.esta_autenticado (stats_now w) youtube_account) then
    (Ok (JsonResponse
           [("error", Str ("La sesi" ++ o_acute
                           ++ "n ha expirado. Por favor, reconecta con YouTube."));
            ("success", JV (PBool false));
            ("token_expirado", JV (PBool true))] 401), db)
  else
  (* the inner [try] *)
  let actualizar (stats snippet : pyval) : res (response * Db.t) :=
    bind (bind (get stats "subscriberCount" (PInt 0)) int) (fun suscriptores =>
    bind (bind (get stats "videoCount" (PInt 0)) int) (fun videos_publicados =>
    bind (bind (get stats "viewCount" (PInt 0)) int) (fun vistas_totales =>
    bind (get snippet "title" (PStr (YouTubeAccount.nombre_canal youtube_account)))
         (fun nombre_canal =>
    bind (thumbnail_url snippet "high"
            (thumbnail_url snippet "medium"
               (thumbnail_url snippet "default"
                  (Ok (PStr (YouTubeAccount.foto_perfil youtube_account))))))
         (fun foto_perfil =>
    bind (to_text nombre_canal) (fun nombre_canal_text =>
    bind (to_text foto_perfil) (fun foto_perfil_text =>
    bind (check (stats_save w)) (fun _ =>
    let a := YouTubeAccount.mk
               (YouTubeAccount.id youtube_account)
               (YouTubeAccount.user youtube_account)
               (YouTubeAccount.youtube_id youtube_account)
               nombre_canal_text
               (YouTubeAccount.email youtube_account)
               foto_perfil_text
               (YouTubeAccount.access_token youtube_account)
               (YouTubeAccount.refresh_token youtube_account)
               (YouTubeAccount.token_expira youtube_account)
               suscriptores videos_publicados vistas_totales
               (YouTubeAccount.url_canal youtube_account) in
    Ok (JsonResponse
          [("success", JV (PBool true));
           ("suscriptores", JV (PInt suscriptores));
           ("videos", JV (PInt videos_publicados));
           ("vistas", JV (PInt vistas_totales));
           ("nombre_canal", JV nombre_canal);
           ("actualizado", JStrftime strftime_format (stats_ahora w));
           ("token_expirado", JV (PBool false))] 200,
        save_account a db))))))))) in
  (* the outer [try] *)
  let body : res (response * Db.t) :=
    bind (stats_get w) (fun data =>
    bind (contains "error" data) (fun has_error =>
    if has_error then
      bind (get data "error" (PDict [])) (fun err =>
      bind (get err "message" (PStr "Error desconocido")) (fun error_msg =>
      Ok (failed ("Error de YouTube API: " ++ str error_msg) 500, db)))
    else
      bind (contains "items" data) (fun has_items =>
      bind (if has_items
            then bind (getitem data "items") (fun items => Ok (truthy items))
            else Ok false) (fun found =>
      if found then
        bind (getitem data "items") (fun items =>
        bind (getitem0 items) (fun channel_data =>
        bind (get channel_data "statistics" (PDict [])) (fun stats =>
        bind (get channel_data "snippet" (PDict [])) (fun snippet =>
        match actualizar stats snippet with
        | Ok r => Ok r
        | Raise e =>
            if caught_by_estadisticas e
            then Ok (failed "Error en el formato de datos recibidos" 500, db)
            else Raise e
        end))))
      else Ok (failed "No se encontraron datos del canal" 404, db))))) in
  match body with
  | Ok (r, db') => (Ok r, db')
  | Raise e =>
      if is_timeout e
      then (Ok (failed ("Timeout de conexi" ++ o_acute ++ "n con YouTube") 504), db)
      else (Ok (failed ("Error inesperado: " ++ exn_msg e) 500), db)
  end
  end end.

(** ** Unlinking *)

Record logout_world : Type := mkLogoutWorld {
  revoke_post : res unit;      (* [requests.post(revoke_url, ...)] *)
  delete_fault : fault         (* [youtube_account.delete()] *)
}.

Record logout_result : Type := mkLogoutResult {
  logout_response : res response;
  logout_db : Db.t;
  logout_called : bool         (* whether [logout(request)] was reached *)
}.

(** [try: ... except Exception: print(...)] around a call made for its
    effect. *)
Definition try_pass {A} (r : res A) : res unit :=
  match r with
  | Ok _ => Ok tt
  | Raise _ => Ok tt
  end.

(** [youtube_account.delete()]: the row, and with it the uploads that
    reference it ([on_delete=models.CASCADE]).  The tables of monitored
    videos and of analytics, which cascade in the same way, are not among
    the tables of [Db]. *)
Definition delete_account (a : YouTubeAccount.t) (db : Db.t) : Db.t :=
  Db.set_videos_subidos
    (List.filter (fun j => negb (VideoSubido.youtube_account j =? YouTubeAccount.id a))
                 (Db.videos_subidos db))
    (Db.set_youtube_accounts
       (List.filter (fun r => negb (same_account a r)) (Db.youtube_accounts db)) db).

(** [def youtube_logout(request)], under [@login_required].  The session
    is not modelled: [logout(request)] flushes it, with the key the view
    deletes before. *)
Definition youtube_logout (w : logout_world) (req : request) (db : Db.t)
  : logout_result :=
  match user req with
  | None => mkLogoutResult (Ok login_redirect) db false
  | Some u =>
      match Db.get (account_of_user u) (Db.youtube_accounts db) with
      | Db.Found youtube_account =>
          match bind (try_pass (revoke_post w)) (fun _ => check (delete_fault w)) with
          | Raise e => mkLogoutResult (Raise e) db false
          | Ok _ =>
              mkLogoutResult (Ok (Redirect "inicio"))
                             (delete_account youtube_account db) true
          end
      | Db.DoesNotExist => mkLogoutResult (Ok (Redirect "inicio")) db true
      | Db.MultipleObjectsReturned =>
          mkLogoutResult
            (Raise (mkExn OtherError "get() returned more than one YouTubeAccount"))
            db false
      end
  end.

(** ** The upload form *)

Definition n_tilde : string := String "241"%char EmptyString.
Definition u_acute : string := String "250"%char EmptyString.

(** A value of a template context that may be a model instance. *)
Inductive cval : Type :=
| CV (v : jval)
| CAccount (a : YouTubeAccount.t).

(** The answers of the views that render model instances or redirect to
    the page of one object. *)
Inductive page : Type :=
| RenderPage (template : string) (context : list (string * cval))
| RedirectTo (to : string) (video_id : Z)
| Plain (r : response).

Record form_result : Type := mkFormResult {
  form_response : res page;
  form_db : Db.t;
  form_thread : option (VideoSubido.t * string)
}.

(** [str(request.user.id)]; the anonymous user has [id = None]. *)
Definition user_id_str (req : request) : string :=
  match user req with
  | Some u => str_of_int (User.id u)
  | None => "None"
  end.

(** [def _procesar_subida_video(request, youtube_account)] *)
Definition _procesar_subida_video (w : ajax_world) (req : request)
           (youtube_account : YouTubeAccount.t) (db : Db.t) : form_result :=
  let rejected (error : string) :=
    mkFormResult
      (Ok (RenderPage "subir_video.html"
             [("youtube_account", CAccount youtube_account);
              ("error", CV (Str error))]))
      db None in
  match files_get "video_file" (FILES req) with
  | None => rejected "Debes seleccionar un archivo de video"
  | Some video_file =>
  if negb (_validar_archivo_video video_file)
  then rejected ("Archivo no v" ++ a_acute ++ "lido. Verifica formato y tama"
                 ++ n_tilde ++ "o (<128MB)")
  else
  match create_video_subido (create_fault w) req youtube_account video_file db with
  | Raise e => mkFormResult (Raise e) db None
  | Ok (video_subido, db1) =>
      let upload_dir :=
        OsPath.join (OsPath.join (media_root w) "uploads") (user_id_str req) in
      match check (makedirs_fault w) with
      | Raise e => mkFormResult (Raise e) db1 None
      | Ok _ =>
      let file_path :=
        OsPath.join upload_dir
          (str_of_int (VideoSubido.id video_subido) ++ "_" ++ name video_file) in
      match check (write_fault w) with
      | Raise e => mkFormResult (Raise e) db1 None
      | Ok _ =>
      let video_subido := VideoSubido.set_archivo_path file_path video_subido in
      match check (save_fault w) with
      | Raise e => mkFormResult (Raise e) db1 None
      | Ok _ =>
      let db2 := save_video video_subido db1 in
      mkFormResult
        (Ok (RedirectTo "estado_subida" (VideoSubido.id video_subido)))
        db2
        (Some (video_subido, YouTubeAccount.access_token youtube_account))
      end end end
  end end.

(** ** Categories of the upload form *)

Definition categoria (id title : pyval) : pyval :=
  PDict [("id", id); ("title", title)].

Definition categorias_por_defecto : list pyval :=
  [ categoria (PStr "22") (PStr "Personas y blogs");
    categoria (PStr "20") (PStr "Gaming");
    categoria (PStr "10") (PStr ("M" ++ u_acute ++ "sica"));
    categoria (PStr "1") (PStr ("Pel" ++ i_acute ++ "culas y animaci" ++ o_acute ++ "n")) ].

(** The dictionary appended for one [item]; [item["id"]] is read again for
    the default title. *)
Definition categoria_de (item : pyval) : res pyval :=
  bind (getitem item "id") (fun id =>
  bind (getitem item "snippet") (fun snippet =>
  bind (getitem item "id") (fun id' =>
  bind (get snippet "title" (PStr ("Categor" ++ i_acute ++ "a " ++ str id')))
       (fun title =>
  Ok (categoria id title))))).

(** The [for] loop. *)
Fixpoint categorias_de (items : list pyval) : res (list pyval) :=
  match items with
  | [] => Ok []
  | item :: items' =>
      bind (categoria_de item) (fun c =>
      bind (categorias_de items') (fun cs => Ok (c :: cs)))
  end.

(** [def _obtener_categorias_youtube(access_token)]; [api] is
    [requests.get(url, ...).json()]. *)
Definition _obtener_categorias_youtube (api : res pyval) : list pyval :=
  let body : res (list pyval) :=
    bind api (fun data =>
    bind (contains "items" data) (fun has_items =>
    if has_items then
      bind (getitem data "items") (fun items =>
      bind (iter items) categorias_de)
    else Ok [])) in
  match body with
  | Ok categorias => categorias
  | Raise _ => categorias_por_defecto
  end.

(** ** Removing a saved video *)

(** [VideoGuardado.objects.get(id=video_id, usuario=request.user)] *)
Definition owned_saved (video_id : Z) (u : User.t) (r : VideoGuardado.t) : bool :=
  (VideoGuardado.id r =? video_id) && (VideoGuardado.usuario r =? User.id u).

(** [def eliminar_video_guardado(request, video_id)], under
    [@login_required]; [f] is the fault of [video.delete()]. *)
Definition eliminar_video_guardado (f : fault) (req : request) (video_id : Z)
           (db : Db.t) : res response * Db.t :=
  match user req with
  | None => (Ok login_redirect, db)
  | Some u =>
      match Db.get (owned_saved video_id u) (Db.videos_guardados db) with
      | Db.Found video =>
          match check f with
          | Raise e => (Raise e, db)
          | Ok _ =>
              (Ok (JsonResponse [("success", JV (PBool true));
                                 ("message", Str "Video eliminado exitosamente")] 200),
               Db.set_videos_guardados
                 (List.filter
                    (fun r => negb (VideoGuardado.id r =? VideoGuardado.id video))
                    (Db.videos_guardados db))
                 db)
          end
      | Db.DoesNotExist =>
          (Ok (JsonResponse [("error", Str "Video no encontrado");
                             ("success", JV (PBool false))] 404), db)
      | Db.MultipleObjectsReturned =>
          (Raise (mkExn OtherError "get() returned more than one VideoGuardado"), db)
      end
  end.

(** ** The personal library *)

Record library_world : Type := mkLibraryWorld {
  manager_create_fault : fault;   (* [VideoManager.objects.create] *)
  manager_save_fault : fault;     (* [video_manager.save()] *)
  manager_delete_fault : fault;   (* [VideoManager.objects.filter(...).delete()] *)
  video_delete_fault : fault;     (* [video.delete()] *)
  video_save_fault : fault        (* [video.save()] *)
}.

(** [Video.objects.get(id=video_id, agregado_por=request.user)] *)
Definition owned_video (video_id : Z) (u : User.t) (v : Video.t) : bool :=
  (Video.id v =? video_id)
  && match Video.agregado_por v with
     | Some x => x =? User.id u
     | None => false
     end.

(** [VideoManager.objects.filter(video=video, usuario_propietario=request.user)] *)
Definition manager_of (video : Video.t) (u : User.t) (m : VideoManager.t) : bool :=
  (VideoManager.video m =? Video.id video)
  && (VideoManager.usuario_propietario m =? User.id u).

Definition same_manager (m r : VideoManager.t) : bool :=
  VideoManager.id r =? VideoManager.id m.

(** [video_manager.save()] *)
Definition save_manager (m : VideoManager.t) (lib : Biblioteca.t) : Biblioteca.t :=
  if Db.exists_ (same_manager m) (Biblioteca.managers lib)
  then Biblioteca.set_managers
         (Db.update (same_manager m) m (Biblioteca.managers lib)) lib
  else Biblioteca.set_managers (Biblioteca.managers lib ++ [m]) lib.

(** The inner [try]: the manager of the video, created with the defaults
    of the model when there is none.  The one-to-one column [video] is
    unique. *)
Definition get_or_create_manager (f : fault) (video : Video.t) (u : User.t)
           (lib : Biblioteca.t) : res (VideoManager.t * Biblioteca.t) :=
  match Db.get (manager_of video u) (Biblioteca.managers lib) with
  | Db.Found video_manager => Ok (video_manager, lib)
  | Db.MultipleObjectsReturned =>
      Raise (mkExn OtherError "get() returned more than one VideoManager")
  | Db.DoesNotExist =>
      bind (check f) (fun _ =>
      if Db.exists_ (fun m => VideoManager.video m =? Video.id video)
                    (Biblioteca.managers lib)
      then Raise (mkExn IntegrityError "UNIQUE constraint failed: video_id")
      else
        let m := VideoManager.mk
                   (Db.next_id (List.map VideoManager.id (Biblioteca.managers lib)))
                   (Video.id video) (User.id u) true false EmptyString in
        Ok (m, Biblioteca.set_managers (Biblioteca.managers lib ++ [m]) lib))
  end.

Definition video_no_encontrado : response :=
  JsonResponse [("error", Str "Video no encontrado");
                ("success", JV (PBool false))] 404.

(** [def toggle_favorito_video(request, video_id)], under [@login_required] *)
Definition toggle_favorito_video (w : library_world) (req : request)
           (video_id : Z) (lib : Biblioteca.t) : res response * Biblioteca.t :=
  match user req with
  | None => (Ok login_redirect, lib)
  | Some u =>
      match Db.get (owned_video video_id u) (Biblioteca.videos lib) with
      | Db.Found video =>
          match get_or_create_manager (manager_create_fault w) video u lib with
          | Raise e => (Raise e, lib)
          | Ok (video_manager, lib1) =>
              let video_manager :=
                VideoManager.set_favorito
                  (negb (VideoManager.favorito video_manager)) video_manager in
              match check (manager_save_fault w) with
              | Raise e => (Raise e, lib1)
              | Ok _ =>
                  (Ok (JsonResponse
                         [("success", JV (PBool true));
                          ("favorito", JV (PBool (VideoManager.favorito video_manager)));
                          ("message",
                           Str (if VideoManager.favorito video_manager
                                then "Video marcado como favorito"
                                else "Video eliminado de favoritos"))] 200),
                   save_manager video_manager lib1)
              end
          end
      | Db.DoesNotExist => (Ok video_no_encontrado, lib)
      | Db.MultipleObjectsReturned =>
          (Raise (mkExn OtherError "get() returned more than one Video"), lib)
      end
  end.

(** [def guardar_notas_video(request, video_id)], under [@login_required] *)
Definition guardar_notas_video (w : library_world) (req : request)
           (video_id : Z) (lib : Biblioteca.t) : res response * Biblioteca.t :=
  match user req with
  | None => (Ok login_redirect, lib)
  | Some u =>
      if negb (String.eqb (method req) "POST")
      then (Ok (JsonResponse [("error", Str ("M" ++ e_acute ++ "todo no permitido"))] 405),
            lib)
      else
      match Db.get (owned_video video_id u) (Biblioteca.videos lib) with
      | Db.Found video =>
          match get_or_create_manager (manager_create_fault w) video u lib with
          | Raise e => (Raise e, lib)
          | Ok (video_manager, lib1) =>
              let notas := query_get_default "notas" EmptyString (POST req) in
              let video_manager := VideoManager.set_notas notas video_manager in
              match check (manager_save_fault w) with
              | Raise e => (Raise e, lib1)
              | Ok _ =>
                  (Ok (JsonResponse
                         [("success", JV (PBool true));
                          ("message", Str "Notas guardadas exitosamente")] 200),
                   save_manager video_manager lib1)
              end
          end
      | Db.DoesNotExist => (Ok video_no_encontrado, lib)
      | Db.MultipleObjectsReturned =>
          (Raise (mkExn OtherError "get() returned more than one Video"), lib)
      end
  end.

Definition same_library_video (v r : Video.t) : bool := Video.id r =? Video.id v.

(** [video.delete()]: the row, and with it the managers that reference it
    ([on_delete=models.CASCADE]).  The daily statistics and the playlist
    links of the video, removed in the same way, are not among the tables
    of [Biblioteca]. *)
Definition delete_video (v : Video.t) (lib : Biblioteca.t) : Biblioteca.t :=
  Biblioteca.mk
    (List.filter (fun r => negb (same_library_video v r)) (Biblioteca.videos lib))
    (List.filter (fun m => negb (VideoManager.video m =? Video.id v))
                 (Biblioteca.managers lib)).

(** [video.save()] of a row that exists. *)
Definition save_library_video (v : Video.t) (lib : Biblioteca.t) : Biblioteca.t :=
  if Db.exists_ (same_library_video v) (Biblioteca.videos lib)
  then Biblioteca.set_videos
         (Db.update (same_library_video v) v (Biblioteca.videos lib)) lib
  else Biblioteca.set_videos (Biblioteca.videos lib ++ [v]) lib.

(** [def eliminar_video(request, video_id)], under [@login_required] *)
Definition eliminar_video (w : library_world) (req : request)
           (video_id : Z) (lib : Biblioteca.t) : res response * Biblioteca.t :=
  match user req with
  | None => (Ok login_redirect, lib)
  | Some u =>
      match Db.get (owned_video video_id u) (Biblioteca.videos lib) with
      | Db.Found video =>
          match check (manager_delete_fault w) with
          | Raise e => (Raise e, lib)
          | Ok _ =>
          let lib1 :=
            Biblioteca.set_managers
              (List.filter (fun m => negb (manager_of video u m))
                           (Biblioteca.managers lib)) lib in
          let eliminado :=
            JsonResponse [("success", JV (PBool true));
                          ("message", Str "Video eliminado exitosamente")] 200 in
          if negb (Db.exists_
                     (fun v => String.eqb (Video.youtube_id v) (Video.youtube_id video)
                               && negb (Video.id v =? video_id))
                     (Biblioteca.videos lib1))
          then
            match check (video_delete_fault w) with
            | Raise e => (Raise e, lib1)
            | Ok _ => (Ok eliminado, delete_video video lib1)
            end
          else
            let video := Video.set_agregado_por None video in
            match check (video_save_fault w) with
            | Raise e => (Raise e, lib1)
            | Ok _ => (Ok eliminado, save_library_video video lib1)
            end
          end
      | Db.DoesNotExist => (Ok video_no_encontrado, lib)
      | Db.MultipleObjectsReturned =>
          (Raise (mkExn OtherError "get() returned more than one Video"), lib)
      end
  end.

(** ** The start page and the dashboard *)

(** [def inicio(request)] *)
Definition inicio (req : request) (db : Db.t) : res response :=
  let login_page := Ok (Render "login.html" []) in
  match user req with
  | Some u =>
      match Db.get (account_of_user u) (Db.youtube_accounts db) with
      | Db.Found _ => Ok (Redirect "youtube_dashboard")
      | Db.DoesNotExist => login_page
      | Db.MultipleObjectsReturned =>
          Raise (mkExn OtherError "get() returned more than one YouTubeAccount")
      end
  | None => login_page
  end.

(** [len(v)] *)
Definition len (v : pyval) : res Z :=
  match v with
  | PList l => Ok (Z.of_nat (List.length l))
  | PStr s => Ok (Z.of_nat (String.length s))
  | PDict d => Ok (Z.of_nat (List.length d))
  | _ => Raise (mkExn TypeError ("object of type '" ++ type_name v ++ "' has no len()"))
  end.

(** [v[:5]] *)
Definition slice5 (v : pyval) : res pyval :=
  match v with
  | PList l => Ok (PList (List.firstn 5 l))
  | PStr s => Ok (PStr (Re.take 5 s))
  | PDict _ => Raise (mkExn TypeError "unhashable type: 'slice'")
  | _ => Raise (mkExn TypeError ("'" ++ type_name v ++ "' object is not subscriptable"))
  end.

Record dashboard_world : Type := mkDashboardWorld {
  dashboard_now1 : datetime;   (* [timezone.now()] of the first [esta_autenticado()] *)
  dashboard_now2 : datetime;   (* of the second, which guards the request *)
  dashboard_now3 : datetime;   (* of the third, for the context *)
  search_get : res pyval       (* [requests.get(search_url, ...).json()] *)
}.

(** The [try] block of [youtube_dashboard] and its handlers: the values of
    [videos] and [api_error] after it.  [videos] is assigned before the
    debug print takes its length. *)
Definition dashboard_search (w : dashboard_world) : pyval * pyval :=
  let on_error (videos : pyval) (e : exn) : pyval * pyval :=
    if is_timeout e then (videos, PStr "Timeout al obtener videos")
    else (videos, PStr ("Error: " ++ exn_msg e)) in
  match search_get w with
  | Raise e => on_error (PList []) e
  | Ok search_data =>
      match contains "error" search_data with
      | Raise e => on_error (PList []) e
      | Ok true =>
          match bind (get search_data "error" (PDict []))
                     (fun err => get err "message" (PStr "Error desconocido")) with
          | Raise e => on_error (PList []) e
          | Ok api_error => (PList [], api_error)
          end
      | Ok false =>
          match contains "items" search_data with
          | Raise e => on_error (PList []) e
          | Ok true =>
              match getitem search_data "items" with
              | Raise e => on_error (PList []) e
              | Ok videos =>
                  match len videos with
                  | Raise e => on_error videos e
                  | Ok _ => (videos, PNone)
                  end
              end
          | Ok false => (PList [], PNone)
          end
      end
  end.

(** [def youtube_dashboard(request)], under [@login_required] *)
Definition youtube_dashboard (w : dashboard_world) (req : request) (db : Db.t)
  : res page :=
  match user req with
  | None => Ok (Plain login_redirect)
  | Some u =>
      match Db.get (account_of_user u) (Db.youtube_accounts db) with
      | Db.DoesNotExist => Ok (Plain (Redirect "youtube_login"))
      | Db.MultipleObjectsReturned =>
          Raise (mkExn OtherError "get() returned more than one YouTubeAccount")
      | Db.Found youtube_account =>
          let '(videos, api_error) :=
            if YouTubeAccount.esta_autenticado (dashboard_now2 w) youtube_account
            then dashboard_search w
            else (PList [], PStr "Token expirado. Reconecta con YouTube.") in
          bind (slice5 videos) (fun shown =>
          bind (len videos) (fun total_videos =>
          Ok (RenderPage "youtube_dashboard.html"
                [("youtube_account", CAccount youtube_account);
                 ("videos", CV (JV shown));
                 ("total_videos", CV (JV (PInt total_videos)));
                 ("api_error", CV (JV api_error));
                 ("token_valido",
                  CV (JV (PBool (YouTubeAccount.esta_autenticado
                                   (dashboard_now3 w) youtube_account))))])))
      end
  end.

End Views.

(* ================================================================== *)
(** * Vocabulary of the statements *)
(* ================================================================== *)

Module Spec.

Import Py.

(** A field of exactly two decimal digits. *)
Definition two_digits (x : Z) : string :=
  String (digit_char (x / 10)) (String (digit_char (x mod 10)) EmptyString).

Fixpoint str_all (p : ascii -> bool) (s : string) : bool :=
  match s with
  | EmptyString => true
  | String c s' => p c && str_all p s'
  end.

(** A numeral: one or more decimal digits. *)
Definition is_numeral (ds : string) : bool :=
  negb (str_empty ds) && str_all is_digit ds.

(** The number a numeral denotes, most significant digit first. *)
Fixpoint decimal_from (acc : Z) (ds : string) : Z :=
  match ds with
  | EmptyString => acc
  | String c ds' => decimal_from (10 * acc + digit_val c) ds'
  end.

Definition decimal (ds : string) : Z := decimal_from 0 ds.

(** An optional component [<numeral><unit>] of a duration, its
    well-formedness and its value (zero when absent). *)
Definition component (d : option string) (unit : ascii) : string :=
  match d with
  | Some ds => ds ++ String unit EmptyString
  | None => EmptyString
  end.

Definition wf_component (d : option string) : bool :=
  match d with
  | Some ds => is_numeral ds
  | None => true
  end.

Definition value (d : option string) : Z :=
  match d with
  | Some ds => decimal ds
  | None => 0
  end.

(** The strings [PT[hH][mM][sS]]. *)
Definition iso_duration (h m s : option string) : string :=
  "PT" ++ component h "H" ++ component m "M" ++ component s "S".

(** [HH:MM:SS] when the hours are positive, [MM:SS] otherwise, every field
    written with [:02d]. *)
Definition clock (h m s : Z) : string :=
  if 0 <? h
  then pad_02d h ++ ":" ++ pad_02d m ++ ":" ++ pad_02d s
  else pad_02d m ++ ":" ++ pad_02d s.

(** The numeral of a component has no more digits than [int()] accepts. *)
Definition within_limit (d : option string) : bool :=
  match d with
  | Some ds => Z.of_nat (String.length ds) <=? max_str_digits
  | None => true
  end.

(** What both formatters compute from the numerals of the components:
    [int] of each numeral that is there, from the hours to the seconds,
    then the f-string. *)
Definition parsed (d : option string) : res Z :=
  match d with
  | Some ds => int (PStr ds)
  | None => Ok 0
  end.

Definition formatted (h m s : option string) : res string :=
  bind (parsed h) (fun horas =>
  bind (parsed m) (fun minutos =>
  bind (parsed s) (fun segundos =>
  if 0 <? horas then format_hms horas minutos segundos
  else format_ms minutos segundos))).

(** Auxiliary predicates on strings. *)
Definition starts_with (u : ascii) (s : string) : bool :=
  match s with
  | String c _ => Ascii.eqb u c
  | EmptyString => false
  end.

Fixpoint ends_with_nondigit (s : string) : bool :=
  match s with
  | EmptyString => true
  | String c EmptyString => negb (is_digit c)
  | String _ s' => ends_with_nondigit s'
  end.

(** The captures after an optional component took part, or not, in a match. *)
Definition bind_group (i : nat) (d : option string) (g : Re.captures) : Re.captures :=
  match d with
  | Some ds => (i, ds) :: g
  | None => g
  end.

(** A continuation that insists on the unit letter [u]. *)
Definition wants_unit {A} (u : ascii) (k : string -> option A) : Prop :=
  forall x, starts_with u x = false -> k x = None.

(** [(\d+)u] with the numeral captured as group [i]. *)
Definition piece (i : nat) (u : ascii) : Re.regex :=
  Re.Cat (Re.Group i Re.digits) (Re.Lit u).

(** Equality of strings up to the case of the letters A to Z: [c] is [d],
    or [d] is a small letter and [c] its capital. *)
Definition char_up_to_case (c d : ascii) : bool :=
  Ascii.eqb c d
  || ((97 <=? code d) && (code d <=? 122) && (code c + 32 =? code d))%N.

Fixpoint same_up_to_case (e a : string) : bool :=
  match e, a with
  | EmptyString, EmptyString => true
  | String c e', String d a' => char_up_to_case c d && same_up_to_case e' a'
  | _, _ => false
  end.

(** Characters of ASCII other than the capitals. *)
Definition plain_char (d : ascii) : bool :=
  ((code d <? 128) && negb ((65 <=? code d) && (code d <=? 90)))%N.



(** [unique_together = ['video_id', 'usuario']]: no two saved videos share
    the pair. *)
Definition key (r : VideoGuardado.t) : string * Z :=
  (VideoGuardado.video_id r, VideoGuardado.usuario r).

Definition unique_saved (rows : list VideoGuardado.t) : Prop :=
  NoDup (List.map key rows).

(** The upload life cycle: the chain of [ESTADO_UPLOAD]. *)
Definition chain_step (a b : string) : bool :=
  (String.eqb a "pending" && String.eqb b "uploading")
  || (String.eqb a "uploading" && String.eqb b "processing")
  || (String.eqb a "processing" && (String.eqb b "published" || String.eqb b "failed")).

(** A move of [estado]: a step of the chain, or the move to [failed] that an
    exception causes. *)
Definition legal (caught : bool) (a b : string) : bool :=
  chain_step a b || (caught && String.eqb b "failed").

(** A change of the stored [estado]: as above, or a [save()] that writes
    the value already stored. *)
Definition legal_saved (caught : bool) (a b : string) : bool :=
  legal caught a b || String.eqb a b.

Fixpoint follows (step : string -> string -> bool) (a : string) (l : list string) : bool :=
  match l with
  | [] => true
  | b :: l' => step a b && follows step b l'
  end.

(** [published] never comes before [processing]. *)
Fixpoint published_after_processing (seen : bool) (l : list string) : bool :=
  match l with
  | [] => true
  | x :: l' =>
      (negb (String.eqb x "published") || seen)
      && published_after_processing (seen || String.eqb x "processing") l'
  end.

Definition is_estado (x : string) : bool :=
  existsb (String.eqb x) (List.map fst VideoSubido.ESTADO_UPLOAD).

(** The exception the [try] block of a run raised, if any. *)
Definition caught (w : Views.upload_world) (j : VideoSubido.t) (db : Db.t)
  : option exn :=
  match Views.subir_try w (Views.mkUploadState j db [] []) with
  | (Raise e, _) => Some e
  | (Ok _, _) => None
  end.

Definition is_some {A} (o : option A) : bool :=
  match o with Some _ => true | None => false end.

Definition raised {A} (r : res A) : bool :=
  match r with Raise _ => true | Ok _ => false end.

(** A string without white space at its start; at either end. *)
Definition no_leading_space (s : string) : bool :=
  match s with
  | EmptyString => true
  | String c _ => negb (is_space c)
  end.

Definition trimmed (s : string) : bool :=
  no_leading_space s && no_leading_space (str_rev s).

(** A tag of the column [etiquetas]: not empty, without a comma, trimmed. *)
Definition is_tag (t : string) : bool :=
  negb (str_empty t) && negb (str_mem "," t) && trimmed t.

(** The constraints of the schema on the tables of users and accounts:
    primary keys, the unique [username] and [youtube_id], and the
    one-to-one link of an account with its user. *)
Definition consistent (db : Db.t) : Prop :=
  NoDup (List.map User.id (Db.users db))
  /\ NoDup (List.map User.username (Db.users db))
  /\ NoDup (List.map YouTubeAccount.id (Db.youtube_accounts db))
  /\ NoDup (List.map YouTubeAccount.youtube_id (Db.youtube_accounts db))
  /\ NoDup (List.map YouTubeAccount.user (Db.youtube_accounts db)).

(** The URL the [post_save] receiver gives a new account. *)
Definition channel_url (youtube_id : string) : string :=
  "https://www.youtube.com/channel/" ++ youtube_id.

(** What identifies an account and what gives access to the channel. *)
Definition credentials (a : YouTubeAccount.t)
  : Z * Z * string * string * string * string * option datetime * string :=
  (YouTubeAccount.id a, YouTubeAccount.user a, YouTubeAccount.youtube_id a,
   YouTubeAccount.email a, YouTubeAccount.access_token a,
   YouTubeAccount.refresh_token a, YouTubeAccount.token_expira a,
   YouTubeAccount.url_canal a).

(** The category an item of the answer of the categories endpoint stands
    for, when the item is a dictionary with an [id] and a dictionary under
    [snippet]: the item's id, with the title of the snippet or, when the
    snippet has none, a title made from the id. *)
Definition category_for (item : pyval) : option pyval :=
  match item with
  | PDict fields =>
      match dict_lookup "id" fields, dict_lookup "snippet" fields with
      | Some id, Some (PDict snippet) =>
          Some (PDict [("id", id);
                       ("title",
                        match dict_lookup "title" snippet with
                        | Some title => title
                        | None => PStr ("Categor" ++ Views.i_acute ++ "a " ++ str id)
                        end)])
      | _, _ => None
      end
  | _ => None
  end.

(** The categories of a list of items, when every item stands for one. *)
Fixpoint categories_for (items : list pyval) : option (list pyval) :=
  match items with
  | [] => Some []
  | item :: items' =>
      match category_for item, categories_for items' with
      | Some c, Some cs => Some (c :: cs)
      | _, _ => None
      end
  end.

End Spec.

(* ================================================================== *)
(** * Sample data *)
(* ================================================================== *)

Module Ejemplos.

Import Py Views.

Definition cuenta (expira : option datetime) : YouTubeAccount.t :=
  YouTubeAccount.mk 1 1 "UC123" "Canal" "a@b.c" EmptyString "tok" "ref" expira
                    0 0 0 EmptyString.

Definition usuario : User.t := User.mk 1 "ana" "a@b.c" "Ana".

Definition archivo_mp3 : UploadedFile := mkFile "clip.mp3" 1000.

Definition archivo_mayusculas : UploadedFile := mkFile "CLIP.MP4" 1000.

Definition mundo_ajax : ajax_world :=
  mkAjaxWorld 100 "/srv/media" None None None None.

Definition base : Db.t := Db.mk [usuario] [cuenta (Some 5000)] [] [].

Definition peticion_subida : request :=
  mkRequest "POST" [] [("titulo", "Mi clip")] [("video_file", archivo_mp3)]
            (Some usuario) (Raise (mkExn ValueError "Expecting value")).

(** A token-endpoint answer with an [error] field. *)
Definition respuesta_error : pydict :=
  [("error", PStr "invalid_grant"); ("error_description", PStr "Bad Request")].

(** A successful token-endpoint answer. *)
Definition respuesta_ok : pydict :=
  [("access_token", PStr "ya29.nuevo"); ("expires_in", PInt 3599);
   ("token_type", PStr "Bearer")].

Definition peticion_callback : request :=
  mkRequest "GET" [("code", "4/0AX4XfWh")] [] [] None
            (Raise (mkExn ValueError "Expecting value")).

Definition peticion_refresh : request :=
  mkRequest "GET" [] [] [] (Some usuario)
            (Raise (mkExn ValueError "Expecting value")).

Definition canal_ok : pyval :=
  PDict [("items",
          PList [PDict [("id", PStr "UC123");
                        ("snippet", PDict [("title", PStr "Canal")]);
                        ("statistics", PDict [("subscriberCount", PStr "10")])]])].


Definition mundo_callback (token : pydict) (canal : pyval) : callback_world :=
  mkCallbackWorld (Ok (PDict token)) 1000000
                  (Ok (PDict [("email", PStr "a@b.c")])) (Ok canal)
                  "20240101000000" None None None.

Definition mundo_refresh (token : pydict) : refresh_world :=
  mkRefreshWorld (Ok (PDict token)) 1000000 None.


Definition mundo_canal_ok : callback_world :=
  mundo_callback respuesta_ok canal_ok.








Definition peticion_guardar : request :=
  mkRequest "POST" [] [] [] (Some usuario)
            (Ok (PDict [("video_id", PStr "dQw4w9WgXcQ"); ("titulo", PStr "Video")])).

(** The request to the videos endpoint times out. *)
Definition mundo_guardar_timeout : guardar_world :=
  mkGuardarWorld 100 (Raise (mkExn Timeout "Read timed out.")) None.

Definition info_ok : video_info :=
  mkInfo (PStr "Never Gonna Give You Up") (PStr EmptyString) (PStr "Rick Astley")
         (PStr "UCuAXFkgsw1L7xaCfnd5JJOw") (PStr "https://i.ytimg.com/vi/x/hq.jpg")
         None 1000 10 1 (PStr "03:33") (PStr "10") (PStr "pop").

Definition mundo_guardar_ok : guardar_world :=
  mkGuardarWorld 100 (Ok (Some info_ok)) None.

Definition video_pendiente : VideoSubido.t :=
  VideoSubido.mk 1 1 (PStr EmptyString) "Mi clip" "pending" "/srv/media/uploads/1/1_clip.mp4"
                 1000 EmptyString "a,b" "22" "private" None None EmptyString.

Definition respuesta_estado (estado : string) : res pyval :=
  Ok (PDict [("items", PList [PDict [("status", PDict [("uploadStatus", PStr estado)])]])]).

(** YouTube accepts the upload and reports it processed at the third poll. *)
Definition mundo_subida : upload_world :=
  mkUploadWorld 100 None None (Ok (PDict [("id", PStr "abc123")])) None
                (fun i => if Nat.ltb i 2 then respuesta_estado "uploaded"
                          else respuesta_estado "processed")
                200 None 300 None.

Definition guardado (id : Z) (video_id : string) (usuario : Z) : VideoGuardado.t :=
  VideoGuardado.mk id video_id usuario "Video" None None None None None 0 0 0
                   None None None.

(** Saved videos of two users. *)
Definition base_guardados : Db.t :=
  Db.mk [usuario; User.mk 2 "luis" "l@b.c" "Luis"] [cuenta (Some 5000)] []
        [guardado 1 "aaaaaaaaaaa" 1; guardado 2 "bbbbbbbbbbb" 1; guardado 3 "aaaaaaaaaaa" 2].

(** A channel that has no account yet. *)
Definition canal_nuevo : pyval :=
  PDict [("items",
          PList [PDict [("id", PStr "UC999");
                        ("snippet", PDict [("title", PStr "Otro Canal")]);
                        ("statistics", PDict [("subscriberCount", PStr "3")])]])].

Definition mundo_canal_nuevo : callback_world :=
  mundo_callback respuesta_ok canal_nuevo.





(** The clock has passed the expiry of the token of [cuenta (Some 5000)]. *)
Definition mundo_ajax_tarde : ajax_world :=
  mkAjaxWorld 6000 "/srv/media" None None None None.

Definition mundo_estadisticas : stats_world :=
  mkStatsWorld 100 (Ok canal_ok) None 100.

Definition mundo_logout : logout_world :=
  mkLogoutWorld (Raise (mkExn Timeout "Read timed out.")) None.

(** [base] with an upload of the account and a saved video of the user. *)
Definition base_completa : Db.t :=
  Db.mk [usuario] [cuenta (Some 5000)] [video_pendiente] [guardado 1 "aaaaaaaaaaa" 1].

Definition peticion_subida_mp4 : request :=
  mkRequest "POST" [] [("titulo", "Mi clip")] [("video_file", mkFile "clip.mp4" 1000)]
            (Some usuario) (Raise (mkExn ValueError "Expecting value")).

(** YouTube accepts the upload and keeps reporting it as uploaded. *)
Definition mundo_subida_lenta : upload_world :=
  mkUploadWorld 100 None None (Ok (PDict [("id", PStr "abc123")])) None
                (fun _ => respuesta_estado "uploaded")
                200 None 300 None.

Definition categorias_ok : pyval :=
  PDict [("items",
          PList [PDict [("id", PStr "1"); ("snippet", PDict [("title", PStr "Film")])];
                 PDict [("id", PStr "2"); ("snippet", PDict [])]])].

Definition biblioteca : Biblioteca.t :=
  Biblioteca.mk [Video.mk 1 "aaaaaaaaaaa" (Some 1); Video.mk 2 "bbbbbbbbbbb" (Some 1)]
                [VideoManager.mk 1 1 1 true false "ver luego"].

Definition mundo_biblioteca : library_world :=
  mkLibraryWorld None None None None None.

Definition peticion_notas : request :=
  mkRequest "POST" [] [("notas", "repasar")] [] (Some usuario)
            (Raise (mkExn ValueError "Expecting value")).

(** YouTube lists six videos of the channel. *)
Definition mundo_dashboard : dashboard_world :=
  mkDashboardWorld 100 100 100
    (Ok (PDict [("items", PList [PInt 1; PInt 2; PInt 3; PInt 4; PInt 5; PInt 6])])).

(** YouTube refuses the upload. *)
Definition mundo_subida_rota : upload_world :=
  mkUploadWorld 100 None None (Raise (mkExn OtherError "quotaExceeded")) None
                (fun _ => respuesta_estado "uploaded")
                200 None 300 None.

End Ejemplos.

(* ================================================================== *)
(** * Properties *)
(* ================================================================== *)

Import Py Views.

(** Inversion of a chain of [bind]s that ended in [Ok]. *)
Ltac bind_inv H :=
  repeat match type of H with
         | bind ?r _ = Ok _ =>
             let E := fresh "E" in
             destruct r eqn:E; cbn [bind] in H; [ | discriminate H]
         end.

(** Keeping the threaded state in normal form, and closing a finished run. *)
Ltac tidy H :=
  cbv beta in H;
  cbn [video_subido upload_db asignados guardados List.app
       VideoSubido.estado VideoSubido.set_estado VideoSubido.set_inicio_subida
       VideoSubido.set_youtube_video_id VideoSubido.set_mensaje_error
       VideoSubido.set_fin_subida] in H.

Ltac leaf H :=
  injection H as <- <-;
  cbn [video_subido asignados guardados Spec.raised List.last List.app
       VideoSubido.estado VideoSubido.set_estado VideoSubido.set_inicio_subida
       VideoSubido.set_youtube_video_id VideoSubido.set_mensaje_error
       VideoSubido.set_fin_subida];
  split; [cbn [In]; auto 12 | reflexivity].

(** ** Strings *)

Lemma str_app_assoc (a b c : string) : ((a ++ b) ++ c = a ++ (b ++ c))%string.
Proof. induction a as [|x a IH]; cbn; [reflexivity | now rewrite IH]. Qed.

Lemma str_app_nil_r (a : string) : (a ++ EmptyString = a)%string.
Proof. induction a as [|x a IH]; cbn; [reflexivity | now rewrite IH]. Qed.

Lemma str_length_app (a b : string) :
  String.length (a ++ b) = (String.length a + String.length b)%nat.
Proof. induction a as [|x a IH]; cbn; [reflexivity | now rewrite IH]. Qed.

Lemma take_app (a b : string) : Re.take (String.length a) (a ++ b) = a.
Proof. induction a as [|x a IH]; cbn; [now destruct b | now rewrite IH]. Qed.

Lemma str_mem_app (u : ascii) (a b : string) :
  str_mem u (a ++ b) = str_mem u a || str_mem u b.
Proof.
  induction a as [|x a IH]; cbn; [reflexivity | ].
  rewrite IH. now rewrite orb_assoc.
Qed.

Lemma str_mem_digits (u : ascii) (ds : string) :
  is_digit u = false -> Spec.str_all is_digit ds = true -> str_mem u ds = false.
Proof.
  intros Hu. induction ds as [|c ds IH]; cbn; [reflexivity | ].
  intros H. apply andb_true_iff in H as [Hc Hds].
  rewrite (IH Hds), orb_false_r.
  destruct (Ascii.eqb_spec u c); [subst; congruence | reflexivity].
Qed.

Lemma str_mem_starts_with (u : ascii) (s : string) :
  str_mem u s = false -> Spec.starts_with u s = false.
Proof.
  destruct s as [|c s]; cbn; [reflexivity | ].
  intros H. now apply orb_false_iff in H.
Qed.

Lemma is_numeral_inv (ds : string) :
  Spec.is_numeral ds = true ->
  exists c ds', ds = String c ds' /\ is_digit c = true /\ Spec.str_all is_digit ds' = true.
Proof.
  unfold Spec.is_numeral. destruct ds as [|c ds']; cbn; [discriminate | ].
  intros H. apply andb_true_iff in H as [Hc Hds]. now exists c, ds'.
Qed.

Lemma is_numeral_all (ds : string) :
  Spec.is_numeral ds = true -> Spec.str_all is_digit ds = true.
Proof. unfold Spec.is_numeral. intros H. now apply andb_true_iff in H. Qed.

(** ** Formatting of numbers *)

Lemma pad_02d_two_digits (x : Z) :
  0 <= x < 100 -> pad_02d x = Spec.two_digits x.
Proof.
  intros Hx.
  assert (H : forallb (fun k => String.eqb (pad_02d (Z.of_nat k))
                                           (Spec.two_digits (Z.of_nat k)))
                      (List.seq 0 100) = true) by (vm_compute; reflexivity).
  rewrite forallb_forall in H.
  specialize (H (Z.to_nat x)).
  rewrite Z2Nat.id in H by lia.
  apply String.eqb_eq, H, in_seq. lia.
Qed.

(** Above 99 the format adds nothing to the numeral. *)
Lemma pad_02d_large (x : Z) : 10 <= x -> pad_02d x = str_of_int x.
Proof.
  intros Hx. unfold pad_02d.
  assert (H0 : (x <? 0) = false) by (apply Z.ltb_ge; lia). rewrite H0.
  destruct x as [|p|p]; try lia.
  unfold str_of_int, zfill. cbn [Z.to_int NilEmpty.string_of_int].
  pose proof (DecimalPos.Unsigned.of_to p) as Hp.
  destruct (Pos.to_uint p) as [|d|d|d|d|d|d|d|d|d|d]; [discriminate Hp | ..].
  all: destruct d; try reflexivity.
  all: cbn in Hp; first [discriminate Hp | injection Hp as Hp; lia].
Qed.

(** The limit on the length of a numeral, on the side of the numbers. *)
Lemma first_too_long_eq : first_too_long = 10 ^ max_str_digits.
Proof. vm_compute. reflexivity. Qed.

Lemma format_02d_ok (x : Z) :
  Z.abs x < 10 ^ max_str_digits -> format_02d x = Ok (pad_02d x).
Proof.
  intros Hx. unfold format_02d, too_long_to_print. rewrite first_too_long_eq.
  apply Z.leb_gt in Hx. now rewrite Hx.
Qed.

Lemma format_02d_raises (x : Z) :
  10 ^ max_str_digits <= Z.abs x -> format_02d x = Raise exceeds_max_str_digits.
Proof.
  intros Hx. unfold format_02d, too_long_to_print. rewrite first_too_long_eq.
  apply Z.leb_le in Hx. now rewrite Hx.
Qed.

Lemma hundred_within_limit : 100 < 10 ^ max_str_digits.
Proof. apply Z.ltb_lt. vm_compute. reflexivity. Qed.

Lemma format_02d_two_digits (x : Z) :
  0 <= x < 100 -> format_02d x = Ok (Spec.two_digits x).
Proof.
  intros Hx. rewrite format_02d_ok, pad_02d_two_digits by
      first [exact Hx | pose proof hundred_within_limit; lia].
  reflexivity.
Qed.

(** ** C3 *)

(** C3. [esta_autenticado()] is [True] exactly when [token_expira] is set and
    the current time is strictly before it; with a null [token_expira] it is
    [False]. *)
Theorem C3_esta_autenticado_iff (now : datetime) (a : YouTubeAccount.t) :
  (YouTubeAccount.esta_autenticado now a = true <->
   exists expira, YouTubeAccount.token_expira a = Some expira /\ now < expira)
  /\ (YouTubeAccount.token_expira a = None ->
      YouTubeAccount.esta_autenticado now a = false).
Proof.
  unfold YouTubeAccount.esta_autenticado.
  destruct (YouTubeAccount.token_expira a) as [expira|]; split.
  - split.
    + intros H. exists expira. split; [reflexivity | now apply Z.ltb_lt].
    + intros [e [He Hlt]]. inversion He; subst. now apply Z.ltb_lt.
  - discriminate.
  - split; [discriminate | intros [e [He _]]; discriminate].
  - reflexivity.
Qed.

Lemma C3_witness :
  YouTubeAccount.esta_autenticado 100 (Ejemplos.cuenta (Some 101)) = true
  /\ YouTubeAccount.esta_autenticado 100 (Ejemplos.cuenta None) = false.
Proof.
  split.
  - apply (proj1 (C3_esta_autenticado_iff 100 (Ejemplos.cuenta (Some 101)))).
    exists 101. split; [reflexivity | lia].
  - apply (proj2 (C3_esta_autenticado_iff 100 (Ejemplos.cuenta None))).
    reflexivity.
Defined.

(** ** C5 *)

(** C5 as stated fails from one hundred hours on: the hours field then has
    three digits or more, the result is not an eight-character [HH:MM:SS];
    and once the hours need more than 4300 digits no string is returned at
    all, the f-string raises [ValueError]. *)
Lemma C5_counterexample :
  0 <= 360000
  /\ YouTubeVideo.duracion_formateada 360000 = Ok "100:00:00"
  /\ String.length "100:00:00" <> 8%nat
  /\ YouTubeVideo.duracion_formateada 360000
     <> Ok (Spec.two_digits (360000 / 3600) ++ ":"
            ++ Spec.two_digits ((360000 mod 3600) / 60) ++ ":"
            ++ Spec.two_digits (360000 mod 60))
  /\ 0 <= 3600 * 10 ^ 4300
  /\ YouTubeVideo.duracion_formateada (3600 * 10 ^ 4300) = Raise exceeds_max_str_digits
  /\ exn_cls exceeds_max_str_digits = ValueError.
Proof.
  split; [vm_compute; discriminate | ].
  split; [vm_compute; reflexivity | ].
  split; [vm_compute; discriminate | ].
  split; [vm_compute; discriminate | ].
  split; [vm_compute; discriminate | ].
  split; vm_compute; reflexivity.
Qed.

(** C5, amended.  For a non-negative [duracion_segundos], with hours
    [duracion_segundos div 3600], minutes [(duracion_segundos mod 3600) div 60]
    and seconds [duracion_segundos mod 60]: when the numeral of the hours
    has at most 4300 digits, [duracion_formateada] is [HH:MM:SS] if the
    hours are positive and [MM:SS] otherwise; minutes and seconds are always
    two digits, and so are the hours below one hundred; from one hundred
    hours on the hours field is the plain numeral (the [:02d] format pads to
    two digits and never truncates).  When the numeral of the hours has more
    than 4300 digits the property raises [ValueError]. *)
Theorem C5_duracion_formateada (duracion_segundos : Z) :
  0 <= duracion_segundos ->
  let horas := duracion_segundos / 3600 in
  let minutos := (duracion_segundos mod 3600) / 60 in
  let segundos := duracion_segundos mod 60 in
  (0 < horas -> horas < 10 ^ max_str_digits ->
   YouTubeVideo.duracion_formateada duracion_segundos
   = Ok (pad_02d horas ++ ":" ++ Spec.two_digits minutos ++ ":"
         ++ Spec.two_digits segundos))
  /\ (horas = 0 ->
      YouTubeVideo.duracion_formateada duracion_segundos
      = Ok (Spec.two_digits minutos ++ ":" ++ Spec.two_digits segundos))
  /\ (10 ^ max_str_digits <= horas ->
      YouTubeVideo.duracion_formateada duracion_segundos
      = Raise exceeds_max_str_digits
      /\ exn_cls exceeds_max_str_digits = ValueError)
  /\ (horas < 100 -> pad_02d horas = Spec.two_digits horas)
  /\ (100 <= horas -> pad_02d horas = str_of_int horas).
Proof.
  intros Hn horas minutos segundos.
  assert (Hm : 0 <= minutos < 100).
  { unfold minutos.
    pose proof (Z.mod_pos_bound duracion_segundos 3600 ltac:(lia)).
    split; [apply Z.div_pos; lia | ].
    apply Z.div_lt_upper_bound; lia. }
  assert (Hs : 0 <= segundos < 100).
  { unfold segundos.
    pose proof (Z.mod_pos_bound duracion_segundos 60 ltac:(lia)). lia. }
  assert (Hh : 0 <= horas) by (apply Z.div_pos; lia).
  pose proof hundred_within_limit as Hlim.
  unfold YouTubeVideo.duracion_formateada.
  fold horas minutos segundos. unfold format_hms, format_ms.
  rewrite (format_02d_two_digits minutos Hm), (format_02d_two_digits segundos Hs).
  split; [ | split; [ | split; [ | split]]].
  - intros H Hb. apply Z.ltb_lt in H. rewrite H.
    rewrite format_02d_ok by (rewrite Z.abs_eq; assumption). reflexivity.
  - intros H. rewrite H. reflexivity.
  - intros H. split; [ | reflexivity].
    assert (H0 : (0 <? horas) = true) by (apply Z.ltb_lt; lia). rewrite H0.
    rewrite format_02d_raises by (rewrite Z.abs_eq; assumption). reflexivity.
  - intros H. apply pad_02d_two_digits. lia.
  - intros H. apply pad_02d_large. lia.
Qed.

Lemma C5_witness :
  YouTubeVideo.duracion_formateada 4530 = Ok "01:15:30"
  /\ YouTubeVideo.duracion_formateada 930 = Ok "15:30"
  /\ YouTubeVideo.duracion_formateada (3600 * 10 ^ 4300) = Raise exceeds_max_str_digits.
Proof.
  split; [ | split].
  - exact (proj1 (C5_duracion_formateada 4530 ltac:(lia))
                 ltac:(vm_compute; reflexivity) ltac:(vm_compute; reflexivity)).
  - exact (proj1 (proj2 (C5_duracion_formateada 930 ltac:(lia)))
                 ltac:(vm_compute; reflexivity)).
  - exact (proj1 (proj1 (proj2 (proj2 (C5_duracion_formateada (3600 * 10 ^ 4300)
                                         ltac:(vm_compute; discriminate))))
                        ltac:(vm_compute; discriminate))).
Defined.

(** ** C7 *)

Section Splitext.

Import OsPath.

Lemma rfind_from_absent (c : ascii) (s : string) (i last : Z) :
  str_mem c s = false -> rfind_from c s i last = last.
Proof.
  revert i last. induction s as [|x s IH]; intros i last H; cbn; [reflexivity | ].
  cbn in H. apply orb_false_iff in H as [Hx Hs]. rewrite Hx. now apply IH.
Qed.

Lemma rfind_from_last (c : ascii) (a b : string) (i last : Z) :
  str_mem c b = false ->
  rfind_from c (a ++ String c b) i last = i + Z.of_nat (String.length a).
Proof.
  intros Hb. revert i last. induction a as [|x a IH]; intros i last; cbn [append rfind_from String.length].
  - rewrite Ascii.eqb_refl, rfind_from_absent by exact Hb. cbn. lia.
  - rewrite IH. lia.
Qed.

Lemma get_app_here (pre rest : string) (c : ascii) :
  String.get (String.length pre) (pre ++ String c rest) = Some c.
Proof. induction pre as [|x pre IH]; cbn; [reflexivity | exact IH]. Qed.

Lemma drop_app (a b : string) : drop (String.length a) (a ++ b) = b.
Proof. induction a as [|x a IH]; cbn; [now destruct b | exact IH]. Qed.

Lemma has_name_before_dot_true (s pre rest : string) (fuel : nat) :
  Spec.str_all (Ascii.eqb "."%char) s = false ->
  (String.length s <= fuel)%nat ->
  has_name_before_dot fuel (pre ++ s ++ rest)
    (Z.of_nat (String.length pre))
    (Z.of_nat (String.length pre) + Z.of_nat (String.length s)) = true.
Proof.
  revert pre fuel. induction s as [|c s IH]; intros pre fuel Hs Hf; [discriminate Hs | ].
  destruct fuel as [|fuel]; [cbn in Hf; lia | ].
  cbn [has_name_before_dot].
  assert (Hlt : (Z.of_nat (String.length pre)
                 <? Z.of_nat (String.length pre) + Z.of_nat (String.length (String c s)))
                = true) by (apply Z.ltb_lt; cbn [String.length]; lia).
  rewrite Hlt, Nat2Z.id. cbn [append]. rewrite get_app_here.
  cbn [Spec.str_all] in Hs. rewrite (Ascii.eqb_sym c "."%char).
  destruct (Ascii.eqb "."%char c) eqn:Hc; [ | reflexivity]. cbn [negb andb] in *.
  specialize (IH (pre ++ String c EmptyString)%string fuel Hs ltac:(cbn in Hf; lia)).
  rewrite str_length_app in IH. cbn [String.length] in IH.
  rewrite str_app_assoc in IH. cbn [append] in IH.
  replace (Z.of_nat (String.length pre) + 1)
    with (Z.of_nat (String.length pre + 1)) by lia.
  replace (Z.of_nat (String.length pre) + Z.of_nat (String.length (String c s)))
    with (Z.of_nat (String.length pre + 1) + Z.of_nat (String.length s))
    by (cbn [String.length]; lia).
  exact IH.
Qed.

(** The extension of [stem.ext]: what follows the last dot, with the dot,
    when the stem is more than dots and neither part has a separator. *)
Lemma splitext_stem_ext (stem ext : string) :
  str_mem "/"%char stem = false -> str_mem "/"%char ext = false ->
  str_mem "."%char ext = false ->
  Spec.str_all (Ascii.eqb "."%char) stem = false ->
  splitext (stem ++ String "."%char ext) = (stem, String "."%char ext).
Proof.
  intros Hs1 Hs2 Hdot Hstem. unfold splitext, rfind.
  rewrite (rfind_from_absent "/"%char) by (rewrite str_mem_app, Hs1; cbn; exact Hs2).
  rewrite (rfind_from_last "."%char stem ext 0 (-1) Hdot).
  assert (Hlt : (-1 <? 0 + Z.of_nat (String.length stem)) = true) by (apply Z.ltb_lt; lia).
  rewrite Hlt. cbn [andb].
  pose proof (has_name_before_dot_true stem EmptyString (String "."%char ext)
                (String.length (stem ++ String "."%char ext)) Hstem
                ltac:(rewrite str_length_app; lia)) as H.
  cbn [String.length append Z.of_nat] in H.
  replace (-1 + 1) with 0 by lia. rewrite H.
  unfold slice_to, slice_from. rewrite Z.add_0_l, Nat2Z.id.
  now rewrite take_app, drop_app.
Qed.

End Splitext.


Lemma existsb_eqb_In (x : string) (l : list string) :
  existsb (String.eqb x) l = true <-> In x l.
Proof.
  rewrite existsb_exists. split.
  - intros [y [Hy He]]. apply String.eqb_eq in He. now subst.
  - intros H. exists x. split; [assumption | apply String.eqb_refl].
Qed.

(** [lower] folds exactly the case of the letters, as far as ASCII goes. *)
Lemma lower_char_up_to_case (c d : ascii) :
  Spec.plain_char d = true ->
  Ascii.eqb (lower_char c) d = Spec.char_up_to_case c d.
Proof.
  assert (H : forallb (fun n => forallb (fun m =>
                implb (Spec.plain_char (ascii_of_nat m))
                      (Bool.eqb (Ascii.eqb (lower_char (ascii_of_nat n)) (ascii_of_nat m))
                                (Spec.char_up_to_case (ascii_of_nat n) (ascii_of_nat m))))
                (List.seq 0 256)) (List.seq 0 256) = true)
    by (vm_compute; reflexivity).
  rewrite forallb_forall in H.
  specialize (H (nat_of_ascii c)). rewrite ascii_nat_embedding in H.
  assert (Hc : In (nat_of_ascii c) (List.seq 0 256))
    by (apply in_seq; pose proof (nat_ascii_bounded c); lia).
  specialize (H Hc). rewrite forallb_forall in H.
  specialize (H (nat_of_ascii d)). rewrite ascii_nat_embedding in H.
  assert (Hd : In (nat_of_ascii d) (List.seq 0 256))
    by (apply in_seq; pose proof (nat_ascii_bounded d); lia).
  specialize (H Hd). intros Hp. rewrite Hp in H. cbn [implb] in H.
  now apply Bool.eqb_prop in H.
Qed.

Lemma lower_same_up_to_case (e a : string) :
  Spec.str_all Spec.plain_char a = true ->
  (lower e = a <-> Spec.same_up_to_case e a = true).
Proof.
  revert a. induction e as [|c e IH]; intros [|d a] Ha; cbn;
    try (split; [discriminate | discriminate]); [tauto | ].
  cbn [Spec.str_all] in Ha. apply andb_true_iff in Ha as [Hd Ha].
  rewrite <- (lower_char_up_to_case c d Hd). split.
  - intros H. injection H as H1 H2. rewrite H1, Ascii.eqb_refl.
    now apply (IH a Ha).
  - intros H. apply andb_true_iff in H as [H1 H2].
    apply Ascii.eqb_eq in H1. apply (IH a Ha) in H2.
    unfold lower in H2. now rewrite H1, H2.
Qed.

Lemma allowed_extensions_plain (a : string) :
  In a [".mp4"; ".mov"; ".avi"; ".wmv"; ".flv"; ".webm"] ->
  Spec.str_all Spec.plain_char a = true.
Proof.
  intros H. repeat (destruct H as [<- | H]; [reflexivity | ]). destruct H.
Qed.

(** C7. [_validar_archivo_video] accepts a file exactly when its size is at
    most 128*1024*1024 bytes and the lower-cased extension of its name is
    one of .mp4, .mov, .avi, .wmv, .flv, .webm, that is when the extension
    is one of the six up to the case of its letters.  A request that reaches the
    validation with a rejected file gets [{'error': 'Archivo no válido'}]
    with status 400; and whatever else the request holds, a rejected file
    leaves the database as it was and starts no upload.  The extension is
    that of [os.path.splitext]: for a name [stem.ext] without separators
    whose stem is more than dots, the part from the last dot on. *)
Theorem C7_validar_archivo_video (video_file : UploadedFile) :
  (_validar_archivo_video video_file = true <->
   size video_file <= 128 * 1024 * 1024
   /\ In (lower (snd (OsPath.splitext (name video_file))))
         [".mp4"; ".mov"; ".avi"; ".wmv"; ".flv"; ".webm"])
  /\ (_validar_archivo_video video_file = false ->
      forall (w : ajax_world) (req : request) (db : Db.t),
        files_get "video_file" (FILES req) = Some video_file ->
        ajax_db (procesar_subida_ajax w req db) = db
        /\ ajax_thread (procesar_subida_ajax w req db) = None
        /\ forall u youtube_account,
            user req = Some u ->
            method req = "POST" ->
            Db.get (account_of_user u) (Db.youtube_accounts db) = Db.Found youtube_account ->
            YouTubeAccount.esta_autenticado (ajax_now w) youtube_account = true ->
            ajax_response (procesar_subida_ajax w req db)
            = Ok (JsonResponse
                    [("error", JV (PStr ("Archivo no v" ++ String "225"%char "lido")))]
                    400))
  /\ (forall stem ext,
         name video_file = stem ++ String "."%char ext ->
         str_mem "/"%char stem = false -> str_mem "/"%char ext = false ->
         str_mem "."%char ext = false ->
         Spec.str_all (Ascii.eqb "."%char) stem = false ->
         snd (OsPath.splitext (name video_file)) = String "."%char ext)
  /\ (_validar_archivo_video video_file = true <->
      size video_file <= 128 * 1024 * 1024
      /\ exists a,
          In a [".mp4"; ".mov"; ".avi"; ".wmv"; ".flv"; ".webm"]
          /\ Spec.same_up_to_case (snd (OsPath.splitext (name video_file))) a = true).
Proof.
  split; [ | split; [ | split]].
  3:{ intros stem ext -> H1 H2 H3 H4. now rewrite splitext_stem_ext. }
  3:{ unfold _validar_archivo_video, allowed_extensions.
      destruct (128 * 1024 * 1024 <? size video_file) eqn:Hs.
      - apply Z.ltb_lt in Hs. split; [discriminate | lia].
      - apply Z.ltb_ge in Hs.
        destruct (existsb _ _) eqn:He; cbn [negb].
        + apply existsb_eqb_In in He. split; [ | reflexivity].
          intros _. split; [lia | ]. eexists. split; [exact He | ].
          apply lower_same_up_to_case; [ | reflexivity].
          now apply (allowed_extensions_plain _ He).
        + split; [discriminate | ].
          intros [_ [a [HIn Ha]]].
          apply lower_same_up_to_case in Ha;
            [ | now apply (allowed_extensions_plain _ HIn)].
          rewrite <- Ha in HIn. apply existsb_eqb_In in HIn. congruence. }
  - unfold _validar_archivo_video, allowed_extensions.
    destruct (128 * 1024 * 1024 <? size video_file) eqn:Hs.
    + apply Z.ltb_lt in Hs. split; [discriminate | lia].
    + apply Z.ltb_ge in Hs.
      destruct (existsb _ _) eqn:He; cbn [negb].
      * apply existsb_eqb_In in He. split; [intros _; split; [lia | exact He] | reflexivity].
      * split; [discriminate | ].
        intros [_ HIn]. apply existsb_eqb_In in HIn. congruence.
  - intros Hrej w req db Hfile.
    unfold procesar_subida_ajax.
    destruct (user req) as [u|]; [ | now repeat split; intros; discriminate ].
    destruct (negb (method req =? "POST")%string) eqn:Hm.
    { repeat split. intros u0 a0 _ Hpost. rewrite Hpost in Hm. discriminate. }
    destruct (Db.get (account_of_user u) (Db.youtube_accounts db)) as [a| |] eqn:Hget;
      try (repeat split; intros u0 a0 Hu0 _ Hg; inversion Hu0; subst;
           rewrite Hget in Hg; discriminate).
    destruct (negb (YouTubeAccount.esta_autenticado (ajax_now w) a)) eqn:Hauth.
    { repeat split. intros u0 a0 Hu0 _ Hg Ha. inversion Hu0; subst.
      rewrite Hget in Hg. inversion Hg; subst. rewrite Ha in Hauth. discriminate. }
    rewrite Hfile, Hrej. cbn [negb ajax_db ajax_thread ajax_response].
    repeat split.
Qed.

Lemma C7_witness :
  ajax_db (procesar_subida_ajax Ejemplos.mundo_ajax Ejemplos.peticion_subida Ejemplos.base)
  = Ejemplos.base
  /\ ajax_response (procesar_subida_ajax Ejemplos.mundo_ajax Ejemplos.peticion_subida
                                         Ejemplos.base)
     = Ok (JsonResponse
             [("error", JV (PStr ("Archivo no v" ++ String "225"%char "lido")))] 400)
  /\ _validar_archivo_video Ejemplos.archivo_mayusculas = true
  /\ _validar_archivo_video (mkFile "Clip.MoV" 1000) = true
  /\ snd (OsPath.splitext "CLIP.MP4") = ".MP4".
Proof.
  pose proof (proj1 (proj2 (C7_validar_archivo_video Ejemplos.archivo_mp3))
                eq_refl Ejemplos.mundo_ajax Ejemplos.peticion_subida Ejemplos.base
                eq_refl) as [Hdb [_ Hresp]].
  split; [ | split; [ | split; [ | split]]].
  - exact Hdb.
  - exact (Hresp Ejemplos.usuario (Ejemplos.cuenta (Some 5000))
                 eq_refl eq_refl eq_refl eq_refl).
  - apply (proj1 (C7_validar_archivo_video Ejemplos.archivo_mayusculas)).
    split; [vm_compute; discriminate | left; reflexivity].
  - apply (proj2 (proj2 (proj2 (C7_validar_archivo_video (mkFile "Clip.MoV" 1000))))).
    split; [vm_compute; discriminate | ].
    exists ".mov". split; [right; left; reflexivity | reflexivity].
  - exact (proj1 (proj2 (proj2 (C7_validar_archivo_video Ejemplos.archivo_mayusculas)))
                 "CLIP" "MP4" eq_refl eq_refl eq_refl eq_refl eq_refl).
Defined.

(** ** C10 *)

(** C10, at the input [divide(10**400, 1)]: both arguments convert to [int]
    and the divisor is not zero, yet the filter raises [OverflowError]: the
    quotient is too large for a float and [except] does not list that class. *)
Theorem C10_divide_raises_overflow :
  Filters.divide (PInt (10 ^ 400)) (PInt 1)
  = Raise (mkExn OverflowError "integer division result too large for a float").
Proof.
  vm_compute. reflexivity.
Qed.

(** ** The matcher on numerals *)

Section Matcher.

Variable A : Type.
Variable u : ascii.
Hypothesis u_not_digit : is_digit u = false.

Lemma plus_class_hit (k : string -> option A) (ds rest : string) (x : A) :
  Spec.is_numeral ds = true ->
  k (String u rest) = Some x ->
  Re.plus_class is_digit (ds ++ String u rest) k = Some x.
Proof.
  intros Hds Hk.
  apply is_numeral_inv in Hds as (c & ds' & -> & Hc & Hall).
  revert c Hc. induction ds' as [|c' ds' IH]; intros c Hc; cbn.
  - rewrite Hc, u_not_digit. exact Hk.
  - rewrite Hc. cbn in Hall. apply andb_true_iff in Hall as [Hc' Hall].
    specialize (IH Hall c' Hc'). cbn in IH. now rewrite IH.
Qed.

Lemma plus_class_none (k : string -> option A) (t : string) :
  Spec.wants_unit u k -> str_mem u t = false -> Re.plus_class is_digit t k = None.
Proof.
  intros Hk. induction t as [|c t IH]; cbn; [reflexivity | ].
  intros H. apply orb_false_iff in H as [_ Ht].
  destruct (is_digit c); [ | reflexivity].
  rewrite (IH Ht). apply Hk. now apply str_mem_starts_with.
Qed.

Lemma plus_class_blocked (k : string -> option A) (t s : string) :
  Spec.wants_unit u k -> str_mem u t = false -> Spec.str_all is_digit t = false ->
  Re.plus_class is_digit (t ++ s) k = None.
Proof.
  intros Hk. induction t as [|c t IH]; cbn; [discriminate | ].
  intros H Hall. apply orb_false_iff in H as [_ Ht].
  destruct (is_digit c); [ | reflexivity].
  cbn in Hall. rewrite (IH Ht Hall). apply Hk.
  destruct t as [|c' t']; [discriminate | ].
  cbn in *. now apply orb_false_iff in Ht.
Qed.

End Matcher.

Section Unit.

Variable i : nat.
Variable u : ascii.
Hypothesis u_not_digit : is_digit u = false.

Lemma run_opt (r : Re.regex) (s : string) (g : Re.captures)
      (k : string -> Re.captures -> option Re.captures) :
  Re.run (Re.Opt r) s g k =
  match Re.run r s g k with
  | Some x => Some x
  | None => k s g
  end.
Proof. reflexivity. Qed.

Lemma piece_wants_unit (s : string) (g : Re.captures)
      (k : string -> Re.captures -> option Re.captures) :
  Spec.wants_unit u
    (fun s' => Re.run (Re.Lit u) s'
                 ((i, Re.take (String.length s - String.length s') s) :: g) k).
Proof.
  intros x Hx. destruct x as [|c x]; cbn in *; [reflexivity | now rewrite Hx].
Qed.

Lemma piece_hit (ds rest : string) (g : Re.captures)
      (k : string -> Re.captures -> option Re.captures) (x : Re.captures) :
  Spec.is_numeral ds = true ->
  k rest ((i, ds) :: g) = Some x ->
  Re.run (Spec.piece i u) (ds ++ String u rest) g k = Some x.
Proof.
  intros Hds Hk. unfold Spec.piece. cbn [Re.run Re.digits].
  apply plus_class_hit; [exact u_not_digit | exact Hds | ].
  cbn [Re.run]. rewrite Ascii.eqb_refl.
  replace (String.length (ds ++ String u rest) - String.length (String u rest))%nat
    with (String.length ds) by (rewrite str_length_app; lia).
  now rewrite take_app.
Qed.

Lemma piece_none (t : string) (g : Re.captures)
      (k : string -> Re.captures -> option Re.captures) :
  str_mem u t = false -> Re.run (Spec.piece i u) t g k = None.
Proof.
  intros Ht. unfold Spec.piece. cbn [Re.run Re.digits].
  apply (plus_class_none _ u); [apply piece_wants_unit | exact Ht].
Qed.

Lemma piece_blocked (t s : string) (g : Re.captures)
      (k : string -> Re.captures -> option Re.captures) :
  str_mem u t = false -> Spec.str_all is_digit t = false ->
  Re.run (Spec.piece i u) (t ++ s) g k = None.
Proof.
  intros Ht Hall. unfold Spec.piece. cbn [Re.run Re.digits].
  apply (plus_class_blocked _ u); [apply piece_wants_unit | exact Ht | exact Hall].
Qed.

(** The optional component of [pattern_iso]. *)
Lemma opt_component (d : option string) (rest : string) (g : Re.captures)
      (k : string -> Re.captures -> option Re.captures) (x : Re.captures) :
  Spec.wf_component d = true ->
  str_mem u rest = false ->
  k rest (Spec.bind_group i d g) = Some x ->
  Re.run (Re.Opt (Spec.piece i u)) (Spec.component d u ++ rest) g k = Some x.
Proof.
  intros Hd Hrest Hk. rewrite run_opt. destruct d as [ds|]; cbn [Spec.component].
  - rewrite str_app_assoc. cbn [append].
    now rewrite (piece_hit ds rest g k x Hd Hk).
  - cbn [append]. now rewrite (piece_none rest g k Hrest).
Qed.

End Unit.

Section Search.

Variable u : ascii.
Hypothesis u_not_digit : is_digit u = false.

(** [re.search] for one unit. *)
Lemma re_search_unfold (r : Re.regex) (s : string) :
  Re.re_search r s =
  match Re.re_match r s with
  | Some g => Some g
  | None => match s with
            | EmptyString => None
            | String _ s' => Re.re_search r s'
            end
  end.
Proof. destruct s; reflexivity. Qed.

Lemma search_none (s : string) :
  str_mem u s = false -> Re.re_search (pattern_unit u) s = None.
Proof.
  induction s as [|c s IH]; intros Hs; rewrite re_search_unfold;
    unfold Re.re_match; change (pattern_unit u) with (Spec.piece 1 u);
    rewrite (piece_none 1 u _ [] (fun _ g => Some g) Hs); [reflexivity | ].
  apply IH. cbn in Hs. now apply orb_false_iff in Hs.
Qed.

Lemma ends_with_nondigit_all (t : string) :
  t <> EmptyString -> Spec.ends_with_nondigit t = true ->
  Spec.str_all is_digit t = false.
Proof.
  induction t as [|c t IH]; [congruence | ].
  intros _ H. destruct t as [|c' t'].
  - cbn in *. destruct (is_digit c); [discriminate | reflexivity].
  - change (Spec.str_all is_digit (String c (String c' t')))
      with (is_digit c && Spec.str_all is_digit (String c' t')).
    rewrite IH; [apply andb_false_r | discriminate | exact H].
Qed.

Lemma search_skip (pre s : string) :
  str_mem u pre = false -> Spec.ends_with_nondigit pre = true ->
  Re.re_search (pattern_unit u) (pre ++ s) = Re.re_search (pattern_unit u) s.
Proof.
  induction pre as [|c pre IH]; intros Hmem Hend; [reflexivity | ].
  rewrite re_search_unfold. unfold Re.re_match.
  change (pattern_unit u) with (Spec.piece 1 u).
  rewrite (piece_blocked 1 u (String c pre) s [] (fun _ g => Some g) Hmem
             (ends_with_nondigit_all (String c pre) ltac:(discriminate) Hend)).
  cbn [append]. apply IH.
  - cbn in Hmem. now apply orb_false_iff in Hmem.
  - destruct pre; [reflexivity | exact Hend].
Qed.

Lemma search_hit (ds rest : string) :
  Spec.is_numeral ds = true ->
  Re.re_search (pattern_unit u) (ds ++ String u rest) = Some [(1%nat, ds)].
Proof.
  intros Hds. rewrite re_search_unfold. unfold Re.re_match.
  change (pattern_unit u) with (Spec.piece 1 u).
  now rewrite (piece_hit 1 u u_not_digit ds rest [] (fun _ g => Some g)
                 [(1%nat, ds)] Hds eq_refl).
Qed.

End Search.

(** ** [int] on numerals *)

Lemma digit_not_int_space (c : ascii) : is_digit c = true -> is_int_space c = false.
Proof.
  destruct c as [[] [] [] [] [] [] [] []]; vm_compute; intros H;
    first [reflexivity | discriminate H].
Qed.

Lemma digit_not_sign (c : ascii) :
  is_digit c = true -> Ascii.eqb c "-"%char = false /\ Ascii.eqb c "+"%char = false.
Proof.
  intros H. split.
  - destruct (Ascii.eqb_spec c "-"%char); [subst; discriminate H | reflexivity].
  - destruct (Ascii.eqb_spec c "+"%char); [subst; discriminate H | reflexivity].
Qed.

Lemma int_lstrip_digits (t : string) :
  Spec.str_all is_digit t = true -> int_lstrip t = t.
Proof.
  destruct t as [|c t]; cbn; [reflexivity | ].
  intros H. apply andb_true_iff in H as [Hc _].
  now rewrite (digit_not_int_space c Hc).
Qed.

Lemma str_rev_onto_twice (s a b : string) :
  str_rev_onto (str_rev_onto s a) b = str_rev_onto a (s ++ b).
Proof.
  revert a b. induction s as [|c s IH]; intros a b; cbn; [reflexivity | ].
  now rewrite IH.
Qed.

Lemma str_rev_involutive (s : string) : str_rev (str_rev s) = s.
Proof.
  unfold str_rev. rewrite str_rev_onto_twice. cbn. apply str_app_nil_r.
Qed.

Lemma str_all_rev_onto (p : ascii -> bool) (s a : string) :
  Spec.str_all p s = true -> Spec.str_all p a = true ->
  Spec.str_all p (str_rev_onto s a) = true.
Proof.
  revert a. induction s as [|c s IH]; intros a Hs Ha; cbn; [exact Ha | ].
  cbn in Hs. apply andb_true_iff in Hs as [Hc Hs].
  apply IH; [exact Hs | cbn; now rewrite Hc].
Qed.

Lemma int_strip_digits (ds : string) :
  Spec.str_all is_digit ds = true -> int_strip ds = ds.
Proof.
  intros H. unfold int_strip.
  rewrite (int_lstrip_digits ds H).
  rewrite int_lstrip_digits by (apply str_all_rev_onto; [exact H | reflexivity]).
  apply str_rev_involutive.
Qed.

Lemma int_body_digits (s : string) (b : bool) (acc : Z) :
  Spec.str_all is_digit s = true ->
  s <> EmptyString \/ b = true ->
  int_body b acc s = Some (Spec.decimal_from acc s).
Proof.
  revert b acc. induction s as [|c s IH]; intros b acc Hall Hb; cbn.
  - destruct Hb as [Hb | ->]; [congruence | reflexivity].
  - cbn in Hall. apply andb_true_iff in Hall as [Hc Hall].
    rewrite Hc. apply IH; [exact Hall | now right].
Qed.

Lemma digit_count_digits (ds : string) :
  Spec.str_all is_digit ds = true -> digit_count ds = Z.of_nat (String.length ds).
Proof.
  induction ds as [|c ds IH]; [reflexivity | ].
  intros H. cbn [Spec.str_all] in H. apply andb_true_iff in H as [Hc H].
  cbn [digit_count String.length]. rewrite Hc, (IH H). lia.
Qed.

Lemma int_of_str_numeral (ds : string) :
  Spec.is_numeral ds = true -> int_of_str ds = Some (Spec.decimal ds).
Proof.
  intros Hds. pose proof (is_numeral_all ds Hds) as Hall.
  unfold int_of_str. rewrite (int_strip_digits ds Hall).
  apply is_numeral_inv in Hds as (c & ds' & -> & Hc & _).
  destruct (digit_not_sign c Hc) as [-> ->].
  rewrite int_body_digits; [reflexivity | exact Hall | left; discriminate].
Qed.

(** [int] of a numeral: its value up to 4300 digits, [ValueError] beyond. *)
Lemma int_numeral (ds : string) :
  Spec.is_numeral ds = true -> Spec.within_limit (Some ds) = true ->
  Py.int (PStr ds) = Ok (Spec.decimal ds).
Proof.
  intros Hds Hlen. cbn [Py.int]. rewrite (int_of_str_numeral ds Hds).
  rewrite (digit_count_digits ds (is_numeral_all ds Hds)).
  cbn [Spec.within_limit] in Hlen. apply Z.leb_le in Hlen.
  assert (E : (max_str_digits <? Z.of_nat (String.length ds)) = false)
    by (apply Z.ltb_ge; exact Hlen).
  now rewrite E.
Qed.

Lemma int_numeral_long (ds : string) :
  Spec.is_numeral ds = true -> Spec.within_limit (Some ds) = false ->
  Py.int (PStr ds) = Raise exceeds_max_str_digits.
Proof.
  intros Hds Hlen. cbn [Py.int]. rewrite (int_of_str_numeral ds Hds).
  rewrite (digit_count_digits ds (is_numeral_all ds Hds)).
  cbn [Spec.within_limit] in Hlen. apply Z.leb_gt in Hlen.
  assert (E : (max_str_digits <? Z.of_nat (String.length ds)) = true)
    by (apply Z.ltb_lt; exact Hlen).
  now rewrite E.
Qed.

(** A numeral of [n] digits denotes a number below [10 ^ n]. *)
Lemma digit_val_bounds (c : ascii) : is_digit c = true -> 0 <= digit_val c <= 9.
Proof.
  unfold is_digit, digit_val. intros H. apply andb_true_iff in H as [H1 H2].
  apply N.leb_le in H1, H2. lia.
Qed.

Lemma decimal_from_bounds (ds : string) (acc : Z) :
  Spec.str_all is_digit ds = true -> 0 <= acc ->
  acc * 10 ^ Z.of_nat (String.length ds) <= Spec.decimal_from acc ds
  /\ Spec.decimal_from acc ds < (acc + 1) * 10 ^ Z.of_nat (String.length ds).
Proof.
  revert acc. induction ds as [|c ds IH]; intros acc Hall Hacc.
  - cbn. lia.
  - cbn [Spec.str_all] in Hall. apply andb_true_iff in Hall as [Hc Hall].
    pose proof (digit_val_bounds c Hc) as Hd.
    cbn [Spec.decimal_from String.length].
    destruct (IH (10 * acc + digit_val c) Hall ltac:(lia)) as [Hlo Hhi].
    rewrite Nat2Z.inj_succ, Z.pow_succ_r by lia.
    assert (Hp : 0 < 10 ^ Z.of_nat (String.length ds))
      by (apply Z.pow_pos_nonneg; lia).
    set (P := 10 ^ Z.of_nat (String.length ds)) in *. nia.
Qed.

Lemma value_bounds (d : option string) :
  Spec.wf_component d = true -> Spec.within_limit d = true ->
  0 <= Spec.value d < 10 ^ max_str_digits.
Proof.
  destruct d as [ds|]; cbn [Spec.wf_component Spec.within_limit Spec.value].
  - intros Hds Hlen. apply Z.leb_le in Hlen.
    destruct (decimal_from_bounds ds 0 (is_numeral_all ds Hds) ltac:(lia)) as [Hlo Hhi].
    fold (Spec.decimal ds) in Hlo, Hhi.
    assert (Hp : 10 ^ Z.of_nat (String.length ds) <= 10 ^ max_str_digits)
      by (apply Z.pow_le_mono_r; lia).
    assert (H0 : 0 < 10 ^ Z.of_nat (String.length ds))
      by (apply Z.pow_pos_nonneg; lia).
    set (P := 10 ^ Z.of_nat (String.length ds)) in *.
    set (L := 10 ^ max_str_digits) in *. lia.
  - intros _ _. split; [lia | ]. pose proof hundred_within_limit. 
    set (L := 10 ^ max_str_digits) in *. lia.
Qed.

Lemma parsed_within (d : option string) :
  Spec.wf_component d = true -> Spec.within_limit d = true ->
  Spec.parsed d = Ok (Spec.value d).
Proof.
  destruct d as [ds|]; [ | reflexivity]. intros Hd Hl. now apply int_numeral.
Qed.

Lemma parsed_beyond (d : option string) :
  Spec.wf_component d = true -> Spec.within_limit d = false ->
  Spec.parsed d = Raise exceeds_max_str_digits.
Proof.
  destruct d as [ds|]; [ | discriminate]. intros Hd Hl. now apply int_numeral_long.
Qed.

Lemma parsed_cases (d : option string) :
  Spec.wf_component d = true ->
  Spec.parsed d = Raise exceeds_max_str_digits \/ exists z, Spec.parsed d = Ok z.
Proof.
  intros Hd. destruct (Spec.within_limit d) eqn:Hl.
  - right. eexists. now apply parsed_within.
  - left. now apply parsed_beyond.
Qed.

Lemma format_02d_value (d : option string) :
  Spec.wf_component d = true -> Spec.within_limit d = true ->
  format_02d (Spec.value d) = Ok (pad_02d (Spec.value d)).
Proof.
  intros Hd Hl. apply format_02d_ok.
  destruct (value_bounds d Hd Hl). now rewrite Z.abs_eq.
Qed.

Lemma formatted_within (h m s : option string) :
  Spec.wf_component h = true -> Spec.wf_component m = true ->
  Spec.wf_component s = true ->
  Spec.within_limit h = true -> Spec.within_limit m = true ->
  Spec.within_limit s = true ->
  Spec.formatted h m s = Ok (Spec.clock (Spec.value h) (Spec.value m) (Spec.value s)).
Proof.
  intros Hh Hm Hs Lh Lm Ls. unfold Spec.formatted.
  rewrite (parsed_within h Hh Lh), (parsed_within m Hm Lm), (parsed_within s Hs Ls).
  cbn [bind]. unfold Spec.clock, format_hms, format_ms.
  rewrite (format_02d_value h Hh Lh), (format_02d_value m Hm Lm),
    (format_02d_value s Hs Ls).
  now destruct (0 <? Spec.value h).
Qed.

Lemma formatted_beyond (h m s : option string) :
  Spec.wf_component h = true -> Spec.wf_component m = true ->
  Spec.wf_component s = true ->
  Spec.within_limit h && Spec.within_limit m && Spec.within_limit s = false ->
  Spec.formatted h m s = Raise exceeds_max_str_digits.
Proof.
  intros Hh Hm Hs L. unfold Spec.formatted.
  destruct (parsed_cases h Hh) as [-> | [H Eh]]; [reflexivity | ].
  destruct (parsed_cases m Hm) as [Em | [M Em]]; [now rewrite Eh, Em | ].
  destruct (parsed_cases s Hs) as [Es | [S Es]]; [now rewrite Eh, Em, Es | ].
  destruct (Spec.within_limit h) eqn:Lh;
    [ | rewrite (parsed_beyond h Hh Lh) in Eh; discriminate Eh].
  destruct (Spec.within_limit m) eqn:Lm;
    [ | rewrite (parsed_beyond m Hm Lm) in Em; discriminate Em].
  destruct (Spec.within_limit s) eqn:Ls;
    [discriminate L | rewrite (parsed_beyond s Hs Ls) in Es; discriminate Es].
Qed.

(** ** C4 *)

Lemma str_mem_component (u v : ascii) (d : option string) :
  is_digit u = false -> Ascii.eqb u v = false -> Spec.wf_component d = true ->
  str_mem u (Spec.component d v) = false.
Proof.
  intros Hu Huv Hd. destruct d as [ds|]; cbn; [ | reflexivity].
  rewrite str_mem_app, (str_mem_digits u ds Hu (is_numeral_all ds Hd)).
  cbn. now rewrite Huv.
Qed.

Lemma run_cat (r1 r2 : Re.regex) (s : string) (g : Re.captures)
      (k : string -> Re.captures -> option Re.captures) :
  Re.run (Re.Cat r1 r2) s g k = Re.run r1 s g (fun s' g' => Re.run r2 s' g' k).
Proof. reflexivity. Qed.

Lemma run_lit (c : ascii) (s : string) (g : Re.captures)
      (k : string -> Re.captures -> option Re.captures) :
  Re.run (Re.Lit c) (String c s) g k = k s g.
Proof. cbn. now rewrite Ascii.eqb_refl. Qed.

Lemma match_iso (h m s : option string) :
  Spec.wf_component h = true -> Spec.wf_component m = true ->
  Spec.wf_component s = true ->
  Re.re_match pattern_iso (Spec.iso_duration h m s)
  = Some (Spec.bind_group 3 s (Spec.bind_group 2 m (Spec.bind_group 1 h []))).
Proof.
  intros Hh Hm Hs.
  unfold Re.re_match, pattern_iso, Spec.iso_duration.
  cbn [append]. rewrite run_cat, run_lit, run_cat, run_lit, run_cat.
  apply (opt_component 1 "H" eq_refl h).
  - exact Hh.
  - rewrite str_mem_app, !str_mem_component by (try reflexivity; assumption).
    reflexivity.
  - rewrite run_cat.
    apply (opt_component 2 "M" eq_refl m).
    + exact Hm.
    + now rewrite str_mem_component.
    + rewrite <- (str_app_nil_r (Spec.component s "S")).
      apply (opt_component 3 "S" eq_refl s); [exact Hs | reflexivity | reflexivity].
Qed.

Lemma int_group_parsed (i : nat) (g : Re.captures) (d : option string) :
  Spec.wf_component d = true -> Re.group i g = d ->
  int_group_or_0 i g = Spec.parsed d.
Proof.
  intros Hd Hg. unfold int_group_or_0. rewrite Hg.
  destruct d as [ds|]; cbn [Spec.parsed]; [ | reflexivity].
  cbn in Hd. pose proof (is_numeral_inv ds Hd) as (c & ds' & -> & _).
  reflexivity.
Qed.

Lemma formatear_duracion_iso_wf (h m s : option string) :
  Spec.wf_component h = true -> Spec.wf_component m = true ->
  Spec.wf_component s = true ->
  _formatear_duracion_iso (Spec.iso_duration h m s) = Spec.formatted h m s.
Proof.
  intros Hh Hm Hs. unfold _formatear_duracion_iso.
  change (str_empty (Spec.iso_duration h m s)) with false. cbn iota.
  rewrite (match_iso h m s Hh Hm Hs).
  rewrite (int_group_parsed 1 _ h Hh) by (destruct h, m, s; reflexivity).
  rewrite (int_group_parsed 2 _ m Hm) by (destruct h, m, s; reflexivity).
  rewrite (int_group_parsed 3 _ s Hs) by (destruct h, m, s; reflexivity).
  reflexivity.
Qed.

(** [re.match] needs the literal [PT] at the start. *)
Lemma match_iso_needs_PT (x : string) :
  String.prefix "PT" x = false -> Re.re_match pattern_iso x = None.
Proof.
  unfold Re.re_match, pattern_iso. intros H.
  destruct x as [|c1 x]; [reflexivity | ].
  cbn [Re.run]. cbn in H.
  destruct (Ascii.eqb_spec "P"%char c1) as [<-|Hne]; [ | reflexivity].
  destruct x as [|c2 x]; [reflexivity | ].
  cbn [Re.run].
  destruct (Ascii.eqb_spec "T"%char c2) as [<-|Hne]; [ | reflexivity].
  cbn in H. destruct x; discriminate H.
Qed.

(** C4 as stated fails in two ways.  A field of one hundred or more is not
    two digits: [PT100H] gives [100:00:00].  And a numeral of more than
    4300 digits gives no string at all: [int()] raises [ValueError] on it,
    here for [PT], 4301 nines and [S]. *)
Lemma C4_counterexample :
  Spec.iso_duration (Some "100") None None = "PT100H"
  /\ Spec.wf_component (Some "100") = true
  /\ _formatear_duracion_iso "PT100H" = Ok "100:00:00"
  /\ _formatear_duracion_iso "PT100H"
     <> Ok (Spec.two_digits 100 ++ ":" ++ Spec.two_digits 0 ++ ":" ++ Spec.two_digits 0)
  /\ Spec.iso_duration None None (Some (str_repeat "9" 4301))
     = "PT" ++ str_repeat "9" 4301 ++ "S"
  /\ Spec.wf_component (Some (str_repeat "9" 4301)) = true
  /\ _formatear_duracion_iso ("PT" ++ str_repeat "9" 4301 ++ "S")
     = Raise exceeds_max_str_digits
  /\ exn_cls exceeds_max_str_digits = ValueError.
Proof.
  split; [vm_compute; reflexivity | ].
  split; [vm_compute; reflexivity | ].
  split; [vm_compute; reflexivity | ].
  split; [vm_compute; discriminate | ].
  split; [vm_compute; reflexivity | ].
  split; [vm_compute; reflexivity | ].
  split; vm_compute; reflexivity.
Qed.

(** C4, amended.  On [PT[hH][mM][sS]], each component optional and each
    numeral of at most 4300 digits, [_formatear_duracion_iso] returns the
    [:02d]-padded [HH:MM:SS] when the hours are positive and [MM:SS]
    otherwise; fields below one hundred are exactly two digits, larger ones
    are the plain numeral.  When a numeral has more than 4300 digits it
    raises [ValueError].  It returns the empty string for the empty input
    and the input itself when the input does not start with [PT]. *)
Theorem C4_formatear_duracion_iso :
  (forall h m s : option string,
      Spec.wf_component h = true -> Spec.wf_component m = true ->
      Spec.wf_component s = true ->
      let H := Spec.value h in
      let M := Spec.value m in
      let S := Spec.value s in
      (Spec.within_limit h && Spec.within_limit m && Spec.within_limit s = true ->
       (0 < H ->
        _formatear_duracion_iso (Spec.iso_duration h m s)
        = Ok (pad_02d H ++ ":" ++ pad_02d M ++ ":" ++ pad_02d S))
       /\ (H <= 0 ->
           _formatear_duracion_iso (Spec.iso_duration h m s)
           = Ok (pad_02d M ++ ":" ++ pad_02d S)))
      /\ (Spec.within_limit h && Spec.within_limit m && Spec.within_limit s = false ->
          _formatear_duracion_iso (Spec.iso_duration h m s)
          = Raise exceeds_max_str_digits
          /\ exn_cls exceeds_max_str_digits = ValueError))
  /\ (forall x, 0 <= x < 100 -> pad_02d x = Spec.two_digits x)
  /\ (forall x, 100 <= x -> pad_02d x = str_of_int x)
  /\ _formatear_duracion_iso EmptyString = Ok EmptyString
  /\ (forall x, String.prefix "PT" x = false -> _formatear_duracion_iso x = Ok x).
Proof.
  split; [ | split; [ | split; [ | split]]].
  - intros h m s Hh Hm Hs H M S.
    rewrite (formatear_duracion_iso_wf h m s Hh Hm Hs). split.
    + intros L. apply andb_true_iff in L as [L Ls].
      apply andb_true_iff in L as [Lh Lm].
      rewrite (formatted_within h m s Hh Hm Hs Lh Lm Ls). unfold Spec.clock.
      fold H M S. split; intros HH.
      * apply Z.ltb_lt in HH. now rewrite HH.
      * apply Z.ltb_ge in HH. now rewrite HH.
    + intros L. split; [ | reflexivity]. now apply formatted_beyond.
  - exact pad_02d_two_digits.
  - intros x Hx. apply pad_02d_large. lia.
  - reflexivity.
  - intros x Hx. unfold _formatear_duracion_iso.
    destruct (str_empty x) eqn:He; [destruct x; [reflexivity | discriminate] | ].
    now rewrite (match_iso_needs_PT x Hx).
Qed.

Lemma C4_witness :
  _formatear_duracion_iso "PT1H15M30S" = Ok "01:15:30"
  /\ _formatear_duracion_iso "PT15M30S" = Ok "15:30"
  /\ _formatear_duracion_iso "15M" = Ok "15M"
  /\ _formatear_duracion_iso ("PT" ++ str_repeat "9" 4301 ++ "S")
     = Raise exceeds_max_str_digits.
Proof.
  destruct C4_formatear_duracion_iso as [Hwf [_ [_ [_ Hpt]]]].
  split; [ | split; [ | split]].
  - exact (proj1 (proj1 (Hwf (Some "1") (Some "15") (Some "30") eq_refl eq_refl eq_refl)
                        eq_refl)
                 ltac:(vm_compute; reflexivity)).
  - exact (proj2 (proj1 (Hwf None (Some "15") (Some "30") eq_refl eq_refl eq_refl)
                        eq_refl)
                 ltac:(vm_compute; discriminate)).
  - exact (Hpt "15M" eq_refl).
  - exact (proj1 (proj2 (Hwf None None (Some (str_repeat "9" 4301))
                             eq_refl eq_refl ltac:(vm_compute; reflexivity))
                        ltac:(vm_compute; reflexivity))).
Defined.

(** ** C9 *)

Lemma ends_with_nondigit_app (a b : string) :
  Spec.ends_with_nondigit a = true -> Spec.ends_with_nondigit b = true ->
  Spec.ends_with_nondigit (a ++ b) = true.
Proof.
  intros Ha Hb. induction a as [|c a IH]; [exact Hb | ].
  destruct a as [|c' a'].
  - cbn [append]. destruct b as [|c'' b']; [exact Ha | exact Hb].
  - change (Spec.ends_with_nondigit (String c' a' ++ b) = true).
    apply IH. exact Ha.
Qed.

Lemma ends_with_nondigit_component (d : option string) (v : ascii) :
  is_digit v = false -> Spec.ends_with_nondigit (Spec.component d v) = true.
Proof.
  intros Hv. destruct d as [ds|]; [ | reflexivity]. cbn [Spec.component].
  induction ds as [|c ds IH]; cbn; [now rewrite Hv | ].
  destruct (ds ++ String v EmptyString)%string eqn:E; [ | exact IH].
  destruct ds; discriminate E.
Qed.

(** [re.search] for the unit [u] in [pre ++ <component> ++ rest], when the
    unit occurs nowhere else. *)
Lemma search_component (u : ascii) (pre rest : string) (d : option string) :
  is_digit u = false -> Spec.wf_component d = true ->
  str_mem u pre = false -> Spec.ends_with_nondigit pre = true ->
  str_mem u rest = false ->
  Re.re_search (pattern_unit u) (pre ++ Spec.component d u ++ rest)
  = option_map (fun ds => [(1%nat, ds)]) d.
Proof.
  intros Hu Hd Hpre Hend Hrest. destruct d as [ds|]; cbn [Spec.component option_map].
  - rewrite (search_skip u pre _ Hpre Hend), str_app_assoc. cbn [append].
    now apply search_hit.
  - cbn [append]. apply (search_none u).
    now rewrite str_mem_app, Hpre, Hrest.
Qed.

Lemma int_group1_parsed (d : option string) :
  int_group1_if (option_map (fun ds => [(1%nat, ds)]) d) = Spec.parsed d.
Proof. destruct d as [ds|]; reflexivity. Qed.

Lemma formatear_duracion_wf (h m s : option string) :
  Spec.wf_component h = true -> Spec.wf_component m = true ->
  Spec.wf_component s = true ->
  _formatear_duracion (Spec.iso_duration h m s) = Spec.formatted h m s.
Proof.
  intros Hh Hm Hs. unfold _formatear_duracion.
  change (str_empty (Spec.iso_duration h m s)) with false. cbn iota.
  assert (EH : Re.re_search (pattern_unit "H") (Spec.iso_duration h m s)
               = option_map (fun ds => [(1%nat, ds)]) h).
  { unfold Spec.iso_duration.
    apply (search_component "H" "PT" _ h); try reflexivity; try assumption.
    rewrite str_mem_app, !str_mem_component by (try reflexivity; assumption).
    reflexivity. }
  assert (EM : Re.re_search (pattern_unit "M") (Spec.iso_duration h m s)
               = option_map (fun ds => [(1%nat, ds)]) m).
  { unfold Spec.iso_duration.
    rewrite <- (str_app_assoc "PT" (Spec.component h "H")).
    apply (search_component "M" _ _ m); try reflexivity; try assumption.
    - rewrite str_mem_app, str_mem_component by (try reflexivity; assumption).
      reflexivity.
    - apply ends_with_nondigit_app; [reflexivity | ].
      now apply ends_with_nondigit_component.
    - now rewrite str_mem_component. }
  assert (ES : Re.re_search (pattern_unit "S") (Spec.iso_duration h m s)
               = option_map (fun ds => [(1%nat, ds)]) s).
  { unfold Spec.iso_duration.
    rewrite <- (str_app_nil_r (Spec.component s "S")).
    rewrite <- (str_app_assoc (Spec.component h "H")).
    rewrite <- (str_app_assoc "PT").
    apply (search_component "S" _ EmptyString s); try reflexivity; try assumption.
    - rewrite !str_mem_app, !str_mem_component by (try reflexivity; assumption).
      reflexivity.
    - repeat apply ends_with_nondigit_app; try reflexivity;
        now apply ends_with_nondigit_component. }
  rewrite EH, EM, ES.
  now rewrite (int_group1_parsed h), (int_group1_parsed m), (int_group1_parsed s).
Qed.

(** C9. On every [PT[hH][mM][sS]] the search-based [_formatear_duracion] and
    the anchored [_formatear_duracion_iso] return the same string; they
    differ on the empty string and on [P1DT2M3S]. *)
Theorem C9_formatters_agree :
  (forall h m s : option string,
      Spec.wf_component h = true -> Spec.wf_component m = true ->
      Spec.wf_component s = true ->
      _formatear_duracion (Spec.iso_duration h m s)
      = _formatear_duracion_iso (Spec.iso_duration h m s))
  /\ _formatear_duracion EmptyString <> _formatear_duracion_iso EmptyString
  /\ _formatear_duracion "P1DT2M3S" <> _formatear_duracion_iso "P1DT2M3S".
Proof.
  split; [ | split].
  - intros h m s Hh Hm Hs.
    now rewrite formatear_duracion_wf, formatear_duracion_iso_wf.
  - vm_compute. discriminate.
  - vm_compute. discriminate.
Qed.

Lemma C9_witness :
  _formatear_duracion "PT2H5S" = _formatear_duracion_iso "PT2H5S".
Proof.
  exact (proj1 C9_formatters_agree (Some "2") None (Some "5") eq_refl eq_refl eq_refl).
Defined.

(** ** C1 *)

Lemma paso2_error (w : callback_world) (d : pydict) :
  token_post w = Ok (PDict d) -> dict_has "error" d = true ->
  paso2 w
  = Return (error_page (Str "Error al obtener tokens de acceso")
              (JV (dict_get_default "error_description"
                     (PStr "Error desconocido al obtener tokens") d))).
Proof.
  intros Hw Hd. unfold paso2. rewrite Hw. cbn [bind contains]. rewrite Hd.
  reflexivity.
Qed.

(** C1. When the token endpoint answers with an [error] field, the callback
    returns the error page, [refresh_youtube_token] answers 401 and
    [_refresh_youtube_token_internal] returns [success: False]; none of them
    changes the database: no account is created and no stored account is
    modified. *)
Theorem C1_token_error_leaves_accounts (d : pydict) :
  dict_has "error" d = true ->
  (forall (w : callback_world) (req : request) (db : Db.t),
      token_post w = Ok (PDict d) ->
      callback_db (youtube_callback w req db) = db
      /\ (exists error detalle,
             callback_response (youtube_callback w req db) = error_page error detalle)
      /\ (forall code,
             query_get "error" (GET req) = None ->
             query_get "code" (GET req) = Some code -> code <> EmptyString ->
             callback_response (youtube_callback w req db)
             = error_page (JV (PStr "Error al obtener tokens de acceso"))
                 (JV (dict_get_default "error_description"
                        (PStr "Error desconocido al obtener tokens") d))))
  /\ (forall (w : refresh_world) (req : request) (db : Db.t),
         refresh_post w = Ok (PDict d) ->
         snd (refresh_youtube_token w req db) = db
         /\ (forall u a,
                user req = Some u ->
                Db.get (account_of_user u) (Db.youtube_accounts db) = Db.Found a ->
                YouTubeAccount.refresh_token a <> EmptyString ->
                fst (refresh_youtube_token w req db)
                = JsonResponse
                    [("error", JV (PStr "Error al refrescar token. Reautentica con YouTube."));
                     ("success", JV (PBool false));
                     ("needs_reauth", JV (PBool true))] 401))
  /\ (forall (w : refresh_world) (a : YouTubeAccount.t) (db : Db.t),
         refresh_post w = Ok (PDict d) ->
         snd (_refresh_youtube_token_internal w a db) = db
         /\ snd (fst (_refresh_youtube_token_internal w a db)) = None
         /\ dict_lookup "success" (fst (fst (_refresh_youtube_token_internal w a db)))
            = Some (PBool false)).
Proof.
  intros Hd. split; [ | split].
  - intros w req db Hw. unfold youtube_callback.
    destruct (negb (str_empty (query_get_default "error" EmptyString (GET req)))) eqn:He.
    { cbn. repeat split; [eexists; eexists; reflexivity | ].
      intros code Hn. unfold query_get_default in He. rewrite Hn in He. discriminate. }
    destruct (str_empty match query_get "code" (GET req) with
                        | Some c => c | None => EmptyString end) eqn:Hc.
    { cbn. repeat split; [eexists; eexists; reflexivity | ].
      intros code _ Hcode Hne. rewrite Hcode in Hc.
      destruct code; [congruence | discriminate Hc]. }
    rewrite (paso2_error w d Hw Hd). cbn.
    repeat split. eexists; eexists; reflexivity.
  - intros w req db Hw. unfold refresh_youtube_token.
    destruct (user req) as [u|]; [ | split; [reflexivity | intros; discriminate]].
    destruct (Db.get (account_of_user u) (Db.youtube_accounts db)) as [a| |] eqn:Hget;
      try (split; [reflexivity | intros u0 a0 Hu0 Hg; inversion Hu0; subst;
                                 rewrite Hget in Hg; discriminate]).
    destruct (str_empty (YouTubeAccount.refresh_token a)) eqn:Hr.
    { split; [reflexivity | ].
      intros u0 a0 Hu0 Hg Hne. inversion Hu0; subst. rewrite Hget in Hg.
      inversion Hg; subst.
      destruct (YouTubeAccount.refresh_token a0); [congruence | discriminate Hr]. }
    rewrite Hw. cbn [contains get]. rewrite Hd. split; reflexivity.
  - intros w a db Hw. unfold _refresh_youtube_token_internal.
    destruct (str_empty (YouTubeAccount.refresh_token a)); [repeat split | ].
    rewrite Hw. cbn [contains get]. rewrite Hd. repeat split.
Qed.

Lemma C1_witness :
  callback_db (youtube_callback
                 (Ejemplos.mundo_callback Ejemplos.respuesta_error Ejemplos.canal_ok)
                 Ejemplos.peticion_callback Ejemplos.base)
  = Ejemplos.base
  /\ snd (refresh_youtube_token (Ejemplos.mundo_refresh Ejemplos.respuesta_error)
                                Ejemplos.peticion_refresh Ejemplos.base)
     = Ejemplos.base
  /\ snd (_refresh_youtube_token_internal
            (Ejemplos.mundo_refresh Ejemplos.respuesta_error)
            (Ejemplos.cuenta (Some 5000)) Ejemplos.base)
     = Ejemplos.base.
Proof.
  destruct (C1_token_error_leaves_accounts Ejemplos.respuesta_error eq_refl)
    as [Hcb [Hrf Hin]].
  split; [ | split].
  - exact (proj1 (Hcb (Ejemplos.mundo_callback Ejemplos.respuesta_error Ejemplos.canal_ok)
                      Ejemplos.peticion_callback Ejemplos.base eq_refl)).
  - exact (proj1 (Hrf (Ejemplos.mundo_refresh Ejemplos.respuesta_error)
                      Ejemplos.peticion_refresh Ejemplos.base eq_refl)).
  - exact (proj1 (Hin (Ejemplos.mundo_refresh Ejemplos.respuesta_error)
                      (Ejemplos.cuenta (Some 5000)) Ejemplos.base eq_refl)).
Defined.

(** ** The token exchange *)




Lemma in_save_account (a : YouTubeAccount.t) (db : Db.t) :
  In a (Db.youtube_accounts (save_account a db)).
Proof.
  unfold save_account.
  destruct (Db.exists_ (same_account a) (Db.youtube_accounts db)) eqn:He; cbn.
  - unfold Db.exists_ in He. apply existsb_exists in He as [r [Hr Hs]].
    unfold Db.update. apply in_map_iff. exists r. now rewrite Hs.
  - apply in_or_app. right. now left.
Qed.






(** Whatever [paso2] and [paso3_canal] return early is the error page. *)
Lemma paso2_returns_page (w : callback_world) (r : response) :
  paso2 w = Return r -> exists error detalle, r = error_page error detalle.
Proof.
  unfold paso2. intros H.
  match type of H with
  | match ?b with _ => _ end = _ => destruct b as [x|e] eqn:Hb
  end.
  - subst x. destruct (token_post w) as [v|e]; [ | discriminate Hb].
    cbn [bind] in Hb. destruct (contains "error" v) as [[]|e]; cbn [bind] in Hb;
      try discriminate Hb.
    + bind_inv Hb. inversion Hb. eexists; eexists; reflexivity.
    + bind_inv Hb. destruct (negb (truthy _)) in Hb.
      * inversion Hb. eexists; eexists; reflexivity.
      * bind_inv Hb. discriminate Hb.
  - destruct (is_timeout e); [ | destruct (is_request_exception e)];
      inversion H; eexists; eexists; reflexivity.
Qed.


(** ** C6 *)

(** C6 as stated fails in its last clause: no record exists for the pair, a
    [video_id] is supplied, the request to YouTube times out, and the view
    answers 500 without creating a record. *)
Lemma C6_counterexample :
  Db.exists_ (is_saved (PStr "dQw4w9WgXcQ") Ejemplos.usuario)
             (Db.videos_guardados Ejemplos.base) = false
  /\ Db.videos_guardados
       (snd (guardar_video_busqueda Ejemplos.mundo_guardar_timeout
                                    Ejemplos.peticion_guardar Ejemplos.base))
     = []
  /\ fst (guardar_video_busqueda Ejemplos.mundo_guardar_timeout
                                 Ejemplos.peticion_guardar Ejemplos.base)
     = JsonResponse [("success", JV (PBool false));
                     ("error", JV (PStr "Error al guardar video: Read timed out."))]
                    500.
Proof.
  repeat split.
Qed.

Lemma NoDup_snoc {A} (l : list A) (x : A) :
  NoDup l -> ~ In x l -> NoDup (l ++ [x])%list.
Proof.
  induction l as [|y l IH]; cbn; intros Hl Hx.
  - constructor; [intros [] | constructor].
  - inversion Hl as [|? ? Hy Hl']; subst. constructor.
    + intros Hin. apply in_app_or in Hin as [Hin | [-> | []]]; [now apply Hy | ].
      apply Hx. now left.
    + apply IH; [exact Hl' | ]. intros Hin. apply Hx. now right.
Qed.

Lemma not_saved_key (video_id : pyval) (u : User.t) (rows : list VideoGuardado.t) :
  Db.exists_ (is_saved video_id u) rows = false ->
  ~ In (str video_id, User.id u) (List.map Spec.key rows).
Proof.
  unfold Db.exists_. intros He Hin.
  apply in_map_iff in Hin as [r [Hk Hr]].
  assert (Hs : is_saved video_id u r = true).
  { unfold is_saved. unfold Spec.key in Hk. inversion Hk as [[H1 H2]].
    now rewrite String.eqb_refl, Z.eqb_refl. }
  assert (Ht : existsb (is_saved video_id u) rows = true)
    by (apply existsb_exists; now exists r).
  congruence.
Qed.

Lemma create_video_guardado_inv (f : fault) (video_id : pyval) (u : User.t)
      (info : video_info) (db db' : Db.t) (v : VideoGuardado.t) :
  truthy video_id = true ->
  create_video_guardado f video_id u info db = Ok (v, db') ->
  Db.videos_guardados db' = (Db.videos_guardados db ++ [v])%list
  /\ Spec.key v = (str video_id, User.id u)
  /\ Db.exists_ (is_saved video_id u) (Db.videos_guardados db) = false
  /\ Db.youtube_accounts db' = Db.youtube_accounts db.
Proof.
  intros Ht H. unfold create_video_guardado in H. bind_inv H.
  destruct (Db.exists_ _ _) eqn:He in H; [discriminate H | ].
  inversion H; subst; clear H. cbn.
  repeat split; [ | exact He].
  unfold Spec.key. cbn. f_equal.
  destruct video_id; cbn in *; congruence.
Qed.

Lemma create_video_guardado_ok (video_id : pyval) (u : User.t)
      (info : video_info) (db : Db.t) :
  truthy video_id = true ->
  info_titulo info <> PNone ->
  Db.exists_ (is_saved video_id u) (Db.videos_guardados db) = false ->
  exists v db', create_video_guardado None video_id u info db = Ok (v, db').
Proof.
  intros Ht Hti He. unfold create_video_guardado.
  assert (E1 : to_text video_id = Ok (str video_id))
    by (destruct video_id; [discriminate Ht | reflexivity..]).
  assert (E2 : to_text (info_titulo info) = Ok (str (info_titulo info)))
    by (destruct (info_titulo info); [congruence | reflexivity..]).
  rewrite E1, E2. cbn [bind check]. rewrite He. eexists; eexists; reflexivity.
Qed.

(** C6, amended.  [guardar_video_busqueda] keeps the pairs
    [(video_id, usuario)] of the saved videos distinct.  When a record for
    the pair exists it answers [success: False] with
    ['Ya tienes este video guardado'] and leaves the database as it was.
    When none exists and a [video_id] was supplied, it either appends
    exactly one record for the pair, or an exception was raised on the way,
    the answer is a 500 and the database is as it was; the record is
    appended whenever the information lookup returns, the title it gives is
    not null and the insert does not fail. *)
Theorem C6_guardar_keeps_pairs_unique
        (w : guardar_world) (req : request) (db : Db.t) :
  Spec.unique_saved (Db.videos_guardados db) ->
  Spec.unique_saved (Db.videos_guardados (snd (guardar_video_busqueda w req db)))
  /\ forall u d video_id,
      user req = Some u -> method req = "POST" ->
      body_json req = Ok (PDict d) ->
      dict_get "video_id" d = video_id ->
      truthy video_id = true ->
      (Db.exists_ (is_saved video_id u) (Db.videos_guardados db) = true ->
       guardar_video_busqueda w req db
       = (JsonResponse [("success", JV (PBool false));
                        ("error", JV (PStr "Ya tienes este video guardado"));
                        ("video_id", JV video_id)] 200, db))
      /\ (Db.exists_ (is_saved video_id u) (Db.videos_guardados db) = false ->
          ((exists v titulo,
               Db.videos_guardados (snd (guardar_video_busqueda w req db))
               = (Db.videos_guardados db ++ [v])%list
               /\ Spec.key v = (str video_id, User.id u)
               /\ fst (guardar_video_busqueda w req db)
                  = JsonResponse [("success", JV (PBool true));
                                  ("id", JV (PInt (VideoGuardado.id v)));
                                  ("titulo", JV titulo);
                                  ("message", JV (PStr "Video guardado exitosamente"))]
                                 200)
           \/ (exists e,
                  guardar_video_busqueda w req db
                  = (JsonResponse
                       [("success", JV (PBool false));
                        ("error", JV (PStr ("Error al guardar video: " ++ exn_msg e)))]
                       500, db)))
          /\ (forall info,
                 _obtener_info_video_youtube w video_id u db = Ok info ->
                 info_titulo info <> PNone ->
                 insert_fault w = None ->
                 exists v,
                   Db.videos_guardados (snd (guardar_video_busqueda w req db))
                   = (Db.videos_guardados db ++ [v])%list
                   /\ Spec.key v = (str video_id, User.id u))).
Proof.
  intros Hinv. split.
  - unfold guardar_video_busqueda.
    destruct (user req) as [u|]; [ | exact Hinv].
    destruct (negb (method req =? "POST")%string); [exact Hinv | ].
    match goal with
    | |- context [match ?b with Ok r => r | Raise e => _ end] =>
        destruct b as [[resp db']|e] eqn:Hb
    end; [ | exact Hinv].
    bind_inv Hb.
    match type of Hb with
    | (if negb (truthy ?x) then _ else _) = _ =>
        destruct (negb (truthy x)) eqn:Ht; [inversion Hb; subst; exact Hinv | ]
    end.
    destruct (Db.exists_ _ _) in Hb; [inversion Hb; subst; exact Hinv | ].
    destruct (_obtener_info_video_youtube _ _ _ _) as [info|e] in Hb;
      cbn [bind] in Hb; [ | discriminate Hb].
    destruct (create_video_guardado _ _ _ _ _) as [[v db2]|e] eqn:Hc in Hb;
      cbn [bind] in Hb; [ | discriminate Hb].
    inversion Hb; subst; clear Hb.
    apply negb_false_iff in Ht.
    destruct (create_video_guardado_inv _ _ _ _ _ _ _ Ht Hc) as (Hrows & Hkey & Hnew & _).
    cbn [snd]. unfold Spec.unique_saved. rewrite Hrows, map_app. cbn [List.map].
    apply NoDup_snoc; [exact Hinv | ]. rewrite Hkey. now apply not_saved_key.
  - intros u d video_id Hu Hm Hbody Hvid Ht.
    unfold guardar_video_busqueda. rewrite Hu, Hm, Hbody.
    change (negb ("POST" =? "POST")%string) with false. cbn [bind get].
    change (dict_get_default "video_id" PNone d) with (dict_get "video_id" d).
    rewrite Hvid, Ht. cbn [negb]. split.
    + intros He. now rewrite He.
    + intros He. rewrite He. split.
      * destruct (_obtener_info_video_youtube w video_id u db) as [info|e] eqn:Hi;
          cbn [bind]; [ | right; now exists e].
        destruct (create_video_guardado (insert_fault w) video_id u info db)
          as [[v db']|e] eqn:Hc; cbn [bind]; [ | right; now exists e].
        left. exists v, (info_titulo info). cbn [fst snd].
        destruct (create_video_guardado_inv _ _ _ _ _ _ _ Ht Hc) as (Hrows & Hkey & _).
        now repeat split.
      * intros info Hi Hti Hf. rewrite Hi, Hf. cbn [bind].
        destruct (create_video_guardado_ok video_id u info db Ht Hti He)
          as (v & db' & Hc).
        rewrite Hc. cbn [bind snd]. exists v.
        destruct (create_video_guardado_inv _ _ _ _ _ _ _ Ht Hc) as (Hrows & Hkey & _).
        now split.
Qed.

Lemma C6_witness :
  Spec.unique_saved
    (Db.videos_guardados
       (snd (guardar_video_busqueda Ejemplos.mundo_guardar_ok
                                    Ejemplos.peticion_guardar Ejemplos.base)))
  /\ exists v,
      Db.videos_guardados
        (snd (guardar_video_busqueda Ejemplos.mundo_guardar_ok
                                     Ejemplos.peticion_guardar Ejemplos.base))
      = (Db.videos_guardados Ejemplos.base ++ [v])%list
      /\ Spec.key v = ("dQw4w9WgXcQ", 1).
Proof.
  destruct (C6_guardar_keeps_pairs_unique Ejemplos.mundo_guardar_ok
              Ejemplos.peticion_guardar Ejemplos.base (NoDup_nil _)) as [Hinv Hrun].
  split; [exact Hinv | ].
  destruct (Hrun Ejemplos.usuario _ _ eq_refl eq_refl eq_refl eq_refl eq_refl)
    as [_ Hnew].
  exact (proj2 (Hnew eq_refl) Ejemplos.info_ok eq_refl ltac:(discriminate) eq_refl).
Defined.

(** ** C8 *)

Lemma poll_S (w : upload_world) (n i : nat) (st : upload_state) :
  poll w (Datatypes.S n) i st =
  match list_execute w i with
  | Raise e => (Raise e, st)
  | Ok video_response =>
      match upload_status video_response with
      | Raise e => (Raise e, st)
      | Ok status =>
          if eq_str status "processed" then
            (Ok tt, mkUploadState (VideoSubido.set_estado "published" (video_subido st))
                                  (upload_db st) (asignados st ++ ["published"])%list
                                  (guardados st))
          else if eq_str status "failed" then
            (Ok tt, mkUploadState
                      (VideoSubido.set_mensaje_error
                         ("Fall" ++ o_acute ++ " el procesamiento en YouTube")
                         (VideoSubido.set_estado "failed" (video_subido st)))
                      (upload_db st) (asignados st ++ ["failed"])%list (guardados st))
          else poll w n (Datatypes.S i) st
      end
  end.
Proof.
  cbn [poll]. unfold seq, lift.
  destruct (list_execute w i) as [video_response|e]; [ | reflexivity].
  destruct (upload_status video_response) as [status|e]; [ | reflexivity].
  destruct (eq_str status "processed"); [reflexivity | ].
  destruct (eq_str status "failed"); reflexivity.
Qed.

Lemma poll_cases (w : upload_world) (n i : nat) (st : upload_state) :
  poll w n i st = (Ok tt, st)
  \/ poll w n i st
     = (Ok tt, mkUploadState (VideoSubido.set_estado "published" (video_subido st))
                             (upload_db st) (asignados st ++ ["published"])%list
                             (guardados st))
  \/ poll w n i st
     = (Ok tt, mkUploadState
                 (VideoSubido.set_mensaje_error
                    ("Fall" ++ o_acute ++ " el procesamiento en YouTube")
                    (VideoSubido.set_estado "failed" (video_subido st)))
                 (upload_db st) (asignados st ++ ["failed"])%list (guardados st))
  \/ exists e, poll w n i st = (Raise e, st).
Proof.
  revert i. induction n as [|n IH]; intros i; [now left | ].
  rewrite poll_S.
  destruct (list_execute w i) as [video_response|e]; [ | right; right; right; now exists e].
  destruct (upload_status video_response) as [status|e];
    [ | right; right; right; now exists e].
  destruct (eq_str status "processed"); [right; left; reflexivity | ].
  destruct (eq_str status "failed"); [right; right; left; reflexivity | ].
  apply IH.
Qed.


Lemma seq_save (f : fault) (k : unit -> M unit) (st : upload_state) :
  seq (save f) k st =
  match f with
  | Some e => (Raise e, st)
  | None =>
      k tt (mkUploadState (video_subido st)
                          (save_video (video_subido st) (upload_db st))
                          (asignados st)
                          (guardados st ++ [VideoSubido.estado (video_subido st)])%list)
  end.
Proof. unfold seq, save. now destruct f. Qed.

Lemma seq_lift {A} (r : res A) (k : A -> M unit) (st : upload_state) :
  seq (lift r) k st =
  match r with
  | Ok a => k a st
  | Raise e => (Raise e, st)
  end.
Proof. unfold seq, lift. now destruct r. Qed.

Lemma seq_poll (w : upload_world) (n i : nat) (k : unit -> M unit) (st : upload_state) :
  seq (poll w n i) k st =
  match poll w n i st with
  | (Ok _, st') => k tt st'
  | (Raise e, st') => (Raise e, st')
  end.
Proof. unfold seq. destruct (poll w n i st) as [[[]|e] st']; reflexivity. Qed.

(** The runs of the [try] block: whether it raised, the values assigned to
    [estado] and the values saved, in order. *)
Lemma subir_try_outcomes (w : upload_world) (j : VideoSubido.t) (db : Db.t)
      (r : res unit) (st1 : upload_state) :
  subir_try w (mkUploadState j db [] []) = (r, st1) ->
  In (Spec.raised r, asignados st1, guardados st1)
     [ (true, ["uploading"], []);
       (true, ["uploading"], ["uploading"]);
       (true, ["uploading"; "processing"], ["uploading"]);
       (true, ["uploading"; "processing"], ["uploading"; "processing"]);
       (true, ["uploading"; "processing"; "published"], ["uploading"; "processing"]);
       (true, ["uploading"; "processing"; "failed"], ["uploading"; "processing"]);
       (false, ["uploading"; "processing"],
               ["uploading"; "processing"; "processing"]);
       (false, ["uploading"; "processing"; "published"],
               ["uploading"; "processing"; "published"]);
       (false, ["uploading"; "processing"; "failed"],
               ["uploading"; "processing"; "failed"]) ]
  /\ (forall e, r = Raise e ->
                subir_except w e st1
                = (check (save_fallo w),
                   match save_fallo w with
                   | Some _ =>
                       mkUploadState
                         (VideoSubido.set_fin_subida (now_fallo w)
                            (VideoSubido.set_mensaje_error (exn_msg e)
                               (VideoSubido.set_estado "failed" (video_subido st1))))
                         (upload_db st1) (asignados st1 ++ ["failed"])%list
                         (guardados st1)
                   | None =>
                       mkUploadState
                         (VideoSubido.set_fin_subida (now_fallo w)
                            (VideoSubido.set_mensaje_error (exn_msg e)
                               (VideoSubido.set_estado "failed" (video_subido st1))))
                         (save_video
                            (VideoSubido.set_fin_subida (now_fallo w)
                               (VideoSubido.set_mensaje_error (exn_msg e)
                                  (VideoSubido.set_estado "failed" (video_subido st1))))
                            (upload_db st1))
                         (asignados st1 ++ ["failed"])%list
                         (guardados st1 ++ ["failed"])%list
                   end))
  /\ VideoSubido.estado (video_subido st1)
     = List.last (asignados st1) (VideoSubido.estado j).
Proof.
  intros H.
  assert (Hhandler :
            forall e, subir_except w e st1
                      = (check (save_fallo w),
                         match save_fallo w with
                         | Some _ =>
                             mkUploadState
                               (VideoSubido.set_fin_subida (now_fallo w)
                                  (VideoSubido.set_mensaje_error (exn_msg e)
                                     (VideoSubido.set_estado "failed" (video_subido st1))))
                               (upload_db st1) (asignados st1 ++ ["failed"])%list
                               (guardados st1)
                         | None =>
                             mkUploadState
                               (VideoSubido.set_fin_subida (now_fallo w)
                                  (VideoSubido.set_mensaje_error (exn_msg e)
                                     (VideoSubido.set_estado "failed" (video_subido st1))))
                               (save_video
                                  (VideoSubido.set_fin_subida (now_fallo w)
                                     (VideoSubido.set_mensaje_error (exn_msg e)
                                        (VideoSubido.set_estado "failed"
                                           (video_subido st1))))
                                  (upload_db st1))
                               (asignados st1 ++ ["failed"])%list
                               (guardados st1 ++ ["failed"])%list
                         end)).
  { intros e. unfold subir_except, seq, assign_estado, modify, save, check.
    destruct (save_fallo w); reflexivity. }
  enough (Hrun : In (Spec.raised r, asignados st1, guardados st1)
                    [ (true, ["uploading"], []);
                      (true, ["uploading"], ["uploading"]);
                      (true, ["uploading"; "processing"], ["uploading"]);
                      (true, ["uploading"; "processing"], ["uploading"; "processing"]);
                      (true, ["uploading"; "processing"; "published"],
                             ["uploading"; "processing"]);
                      (true, ["uploading"; "processing"; "failed"],
                             ["uploading"; "processing"]);
                      (false, ["uploading"; "processing"],
                              ["uploading"; "processing"; "processing"]);
                      (false, ["uploading"; "processing"; "published"],
                              ["uploading"; "processing"; "published"]);
                      (false, ["uploading"; "processing"; "failed"],
                              ["uploading"; "processing"; "failed"]) ]
                 /\ VideoSubido.estado (video_subido st1)
                    = List.last (asignados st1) (VideoSubido.estado j)).
  { destruct Hrun as [H1 H2]. split; [exact H1 | split; [intros e _; apply Hhandler | exact H2]]. }
  clear Hhandler.
  unfold subir_try in H.
  (* the polling loop is used through [poll_cases] only *)
  pose proof (poll_cases w 30 0) as Hpoll.
  set (polling := poll w 30 0) in *. clearbody polling.
  unfold seq at 1, assign_estado at 1 in H. tidy H.
  unfold seq at 1, modify at 1 in H. tidy H.
  rewrite seq_save in H; tidy H.
  destruct (save_uploading w) as [e|]; [leaf H | ].
  rewrite seq_lift in H; tidy H.
  destruct (check (client_setup w)) as [[]|e]; [ | leaf H].
  rewrite seq_lift in H; tidy H.
  destruct (insert_execute w) as [response|e]; [ | leaf H].
  rewrite seq_lift in H; tidy H.
  destruct (getitem response "id") as [id|e]; [ | leaf H].
  unfold seq at 1, modify at 1 in H. tidy H.
  unfold seq at 1, assign_estado at 1 in H. tidy H.
  rewrite seq_save in H; tidy H.
  destruct (save_processing w) as [e|]; [leaf H | ].
  unfold seq at 1 in H.
  match type of H with
  | context [polling ?st] =>
      destruct (Hpoll st) as [Hp | [Hp | [Hp | [e Hp]]]]; rewrite Hp in H; clear Hp
  end; tidy H.
  4:{ leaf H. }
  all: unfold seq at 1, modify at 1 in H; unfold save in H; tidy H;
    destruct (save_final w) as [e|]; leaf H.
Qed.

(** C8.  A run of [_subir_video_youtube] on a pending job moves [estado],
    on the instance and in the database, only along pending -> uploading ->
    processing -> (published or failed), or to [failed] when the [try] block
    raised; an exception leaves the instance [failed] with [mensaje_error]
    set to its text, and the stored row [failed] as soon as the [save()] of
    the handler succeeds; [published] is never assigned or stored before
    [processing]; and [estado] only takes values of [ESTADO_UPLOAD]. *)
Theorem C8_estado_transitions (w : upload_world) (access_token : string)
        (j : VideoSubido.t) (db : Db.t) :
  VideoSubido.estado j = "pending" ->
  let final := snd (run_upload w access_token j db) in
  let caught := Spec.caught w j db in
  Spec.follows (Spec.legal (Spec.is_some caught)) (VideoSubido.estado j)
               (asignados final) = true
  /\ Spec.follows (Spec.legal_saved (Spec.is_some caught)) (VideoSubido.estado j)
                  (guardados final) = true
  /\ (forall e, caught = Some e ->
                VideoSubido.estado (video_subido final) = "failed"
                /\ VideoSubido.mensaje_error (video_subido final) = exn_msg e)
  /\ Spec.published_after_processing false (asignados final) = true
  /\ Spec.published_after_processing false (guardados final) = true
  /\ forallb Spec.is_estado (VideoSubido.estado j :: asignados final) = true
  /\ Spec.is_estado (VideoSubido.estado (video_subido final)) = true
  /\ (forall e, caught = Some e -> save_fallo w = None ->
                List.last (guardados final) (VideoSubido.estado j) = "failed").
Proof.
  intros Hpend final caught. subst final caught.
  unfold run_upload, _subir_video_youtube, try_except, Spec.caught.
  destruct (subir_try w (mkUploadState j db [] [])) as [r st1] eqn:Htry.
  destruct (subir_try_outcomes w j db r st1 Htry) as (Hin & Hex & Hlast).
  rewrite Hpend in *.
  destruct r as [[]|e].
  - cbn [snd Spec.is_some]. rewrite Hlast. cbn [Spec.raised] in Hin.
    cbn [In] in Hin.
    repeat (destruct Hin as [Hin | Hin]; [ | ]);
      try contradiction; try discriminate Hin;
      injection Hin as <- <-;
      repeat split; try reflexivity; try discriminate; intros ? [=].
  - rewrite (Hex e eq_refl). cbn [Spec.raised] in Hin. cbn [In] in Hin.
    destruct (save_fallo w); cbn [snd asignados guardados video_subido Spec.is_some];
    repeat (destruct Hin as [Hin | Hin]; [ | ]);
      try contradiction; try discriminate Hin;
      injection Hin as <- <-;
      (repeat split; try reflexivity; try discriminate;
       try (intros ? [= <-]; reflexivity);
       match goal with
       | H : Some _ = Some _ |- _ => injection H as <-; reflexivity
       end).
Qed.

Lemma C8_witness :
  asignados (snd (run_upload Ejemplos.mundo_subida "tok" Ejemplos.video_pendiente
                             Ejemplos.base))
  = ["uploading"; "processing"; "published"]
  /\ Spec.follows (Spec.legal false) "pending"
       (asignados (snd (run_upload Ejemplos.mundo_subida "tok" Ejemplos.video_pendiente
                                   Ejemplos.base))) = true.
Proof.
  split; [reflexivity | ].
  exact (proj1 (C8_estado_transitions Ejemplos.mundo_subida "tok"
                  Ejemplos.video_pendiente Ejemplos.base eq_refl)).
Defined.

(** ** Tags *)

Lemma str_rev_onto_app (s a : string) :
  str_rev_onto s a = (str_rev s ++ a)%string.
Proof.
  revert a. induction s as [|c s IH]; intros a; [reflexivity | ].
  unfold str_rev. cbn [str_rev_onto]. rewrite (IH (String c a)), (IH (String c EmptyString)).
  rewrite str_app_assoc. reflexivity.
Qed.

Lemma str_rev_app (a b : string) :
  str_rev (a ++ b) = (str_rev b ++ str_rev a)%string.
Proof.
  induction a as [|c a IH]; cbn [String.append].
  - now rewrite str_app_nil_r.
  - unfold str_rev at 1 3. cbn [str_rev_onto].
    rewrite !str_rev_onto_app, IH, str_app_assoc. reflexivity.
Qed.

Lemma lstrip_split (s : string) :
  exists sp, s = (sp ++ lstrip s)%string /\ Spec.str_all is_space sp = true.
Proof.
  induction s as [|c s [sp [E H]]].
  - exists EmptyString. now split.
  - cbn [lstrip]. destruct (is_space c) eqn:Hc.
    + exists (String c sp). cbn. rewrite Hc, H. split; [now rewrite <- E | reflexivity].
    + exists EmptyString. now split.
Qed.

Lemma lstrip_fixed (s : string) :
  Spec.no_leading_space s = true -> lstrip s = s.
Proof.
  destruct s as [|c s]; [reflexivity | ]. cbn. intros H.
  apply negb_true_iff in H. now rewrite H.
Qed.

Lemma lstrip_no_leading_space (s : string) :
  Spec.no_leading_space (lstrip s) = true.
Proof.
  induction s as [|c s IH]; [reflexivity | ]. cbn [lstrip].
  destruct (is_space c) eqn:Hc; [exact IH | ]. cbn. now rewrite Hc.
Qed.

Lemma no_leading_space_prefix (a b : string) :
  Spec.no_leading_space (a ++ b) = true -> a <> EmptyString ->
  Spec.no_leading_space a = true.
Proof. destruct a; [congruence | ]. now cbn. Qed.

(** What [strip] returns has no white space at either end. *)
Lemma strip_trimmed (s : string) : Spec.trimmed (strip s) = true.
Proof.
  unfold Spec.trimmed, strip.
  rewrite str_rev_involutive, lstrip_no_leading_space, andb_true_r.
  destruct (lstrip_split (str_rev (lstrip s))) as [sp [E _]].
  destruct (lstrip (str_rev (lstrip s))) as [|c b] eqn:Eb; [reflexivity | ].
  apply (no_leading_space_prefix _ (str_rev sp)).
  - rewrite <- str_rev_app, <- E, str_rev_involutive.
    apply lstrip_no_leading_space.
  - intros Hx. apply (f_equal str_rev) in Hx.
    rewrite str_rev_involutive in Hx. discriminate Hx.
Qed.

Lemma strip_fixed (s : string) : Spec.trimmed s = true -> strip s = s.
Proof.
  unfold Spec.trimmed, strip. intros H. apply andb_true_iff in H as [H1 H2].
  now rewrite (lstrip_fixed _ H1), (lstrip_fixed _ H2), str_rev_involutive.
Qed.

Lemma strip_idempotent (s : string) : strip (strip s) = strip s.
Proof. apply strip_fixed, strip_trimmed. Qed.

Lemma str_mem_lstrip (c : ascii) (s : string) :
  str_mem c (lstrip s) = true -> str_mem c s = true.
Proof.
  induction s as [|x s IH]; [trivial | ]. cbn [lstrip].
  destruct (is_space x); [ | trivial].
  intros H. cbn. rewrite (IH H). apply orb_true_r.
Qed.

Lemma str_mem_rev (c : ascii) (s : string) : str_mem c (str_rev s) = str_mem c s.
Proof.
  induction s as [|x s IH]; [reflexivity | ].
  unfold str_rev. cbn [str_rev_onto]. rewrite str_rev_onto_app, str_mem_app.
  fold (str_rev s). rewrite IH. cbn. rewrite orb_false_r. apply orb_comm.
Qed.

Lemma str_mem_strip (c : ascii) (s : string) :
  str_mem c (strip s) = true -> str_mem c s = true.
Proof.
  unfold strip. rewrite str_mem_rev. intros H.
  apply str_mem_lstrip in H. rewrite str_mem_rev in H.
  now apply str_mem_lstrip.
Qed.

Lemma split_char_pieces (sep : ascii) (s p : string) :
  In p (split_char sep s) -> str_mem sep p = false.
Proof.
  revert p. induction s as [|c s IH]; intros p H.
  - destruct H as [<- | []]. reflexivity.
  - cbn [split_char] in H. destruct (Ascii.eqb c sep) eqn:Hc.
    + destruct H as [<- | H]; [reflexivity | now apply IH].
    + destruct (split_char sep s) as [|q rest].
      * destruct H as [<- | []]. cbn. rewrite Ascii.eqb_sym, Hc. reflexivity.
      * destruct H as [<- | H].
        -- cbn. rewrite Ascii.eqb_sym, Hc. apply IH. now left.
        -- apply IH. now right.
Qed.

Lemma split_char_whole (sep : ascii) (s : string) :
  str_mem sep s = false -> split_char sep s = [s].
Proof.
  induction s as [|c s IH]; [reflexivity | ]. cbn. intros H.
  apply orb_false_iff in H as [H1 H2]. rewrite Ascii.eqb_sym, H1, (IH H2). reflexivity.
Qed.

Lemma split_char_app (sep : ascii) (a b : string) :
  str_mem sep a = false ->
  split_char sep (a ++ String sep b) = a :: split_char sep b.
Proof.
  induction a as [|c a IH]; cbn [String.append split_char].
  - now rewrite Ascii.eqb_refl.
  - intros H. cbn in H. apply orb_false_iff in H as [H1 H2].
    rewrite Ascii.eqb_sym, H1, (IH H2). reflexivity.
Qed.

(** X1.  Every tag [split_by_comma] returns is usable as it stands: it is
    not empty, holds no comma, and has no white space at either end. *)
Theorem split_by_comma_tags (value : pyval) (tag : string) :
  In tag (Filters.split_by_comma value) ->
  tag <> EmptyString
  /\ str_mem "," tag = false
  /\ strip tag = tag.
Proof.
  unfold Filters.split_by_comma.
  destruct (negb (truthy value)); [intros [] | ].
  destruct value as [ | | |s| | ]; try (intros []).
  intros H. apply in_map_iff in H as [p [<- Hp]].
  apply filter_In in Hp as [Hp Hne]. repeat split.
  - intros E. rewrite E in Hne. discriminate Hne.
  - destruct (str_mem "," (strip p)) eqn:Hm; [ | reflexivity].
    apply str_mem_strip in Hm. now rewrite (split_char_pieces _ _ _ Hp) in Hm.
  - apply strip_idempotent.
Qed.

Lemma split_by_comma_tags_witness :
  "b" <> EmptyString /\ str_mem "," "b" = false /\ strip "b" = "b".
Proof.
  apply (split_by_comma_tags (PStr "a, b ,,c") "b").
  vm_compute. right. left. reflexivity.
Defined.

Lemma strip_space_cons (t : string) : strip (String " " t) = strip t.
Proof. reflexivity. Qed.

Lemma tag_truthy (t : string) : Spec.is_tag t = true -> str_empty (strip t) = false.
Proof.
  unfold Spec.is_tag. intros H.
  apply andb_true_iff in H as [H Ht]. apply andb_true_iff in H as [Hne _].
  rewrite (strip_fixed _ Ht). now apply negb_true_iff in Hne.
Qed.

Lemma split_concat_tags (t : string) (l : list string) :
  forallb Spec.is_tag (t :: l) = true ->
  List.map strip
    (List.filter (fun item => negb (str_empty (strip item)))
                 (split_char "," (String.concat ", " (t :: l))))
  = t :: l.
Proof.
  revert t. induction l as [|t' l IH]; intros t H.
  - cbn [forallb] in H. rewrite andb_true_r in H. cbn [String.concat].
    pose proof (tag_truthy _ H) as Hne. unfold Spec.is_tag in H.
    apply andb_true_iff in H as [H Ht]. apply andb_true_iff in H as [_ Hc].
    apply negb_true_iff in Hc.
    rewrite (split_char_whole _ _ Hc). cbn [List.filter]. rewrite Hne.
    cbn [negb List.map]. now rewrite (strip_fixed _ Ht).
  - cbn [forallb] in H. apply andb_true_iff in H as [Ht Hl].
    change (String.concat ", " (t :: t' :: l))
      with (t ++ String "," (String " " (String.concat ", " (t' :: l))))%string.
    pose proof (tag_truthy _ Ht) as Hne. unfold Spec.is_tag in Ht.
    apply andb_true_iff in Ht as [Ht Htr]. apply andb_true_iff in Ht as [_ Hc].
    apply negb_true_iff in Hc.
    rewrite (split_char_app _ _ _ Hc). cbn [List.filter]. rewrite Hne.
    cbn [negb List.map]. rewrite (strip_fixed _ Htr). f_equal.
    specialize (IH t' Hl).
    (* the piece that follows the comma starts with the space of the separator *)
    remember (String.concat ", " (t' :: l)) as rest eqn:Er.
    destruct (split_char "," rest) as [|p ps] eqn:Es.
    { destruct rest; cbn in Es; [discriminate | ].
      destruct (Ascii.eqb _ _); [discriminate | ].
      destruct (split_char _ rest); discriminate. }
    cbn [split_char]. change (Ascii.eqb " " ",") with false. cbn iota.
    rewrite Es. cbn [List.filter] in IH |- *.
    rewrite strip_space_cons.
    destruct (negb (str_empty (strip p))); cbn [List.map] in IH |- *;
      rewrite ?strip_space_cons; exact IH.
Qed.

(** X2.  Tags joined with [", "], the way the column [etiquetas] holds
    them, are recovered by [split_by_comma] one by one and in order. *)
Theorem split_by_comma_join (tags : list string) :
  forallb Spec.is_tag tags = true ->
  Filters.split_by_comma (PStr (String.concat ", " tags)) = tags.
Proof.
  destruct tags as [|t l]; [reflexivity | ]. intros H.
  unfold Filters.split_by_comma.
  assert (Hne : truthy (PStr (String.concat ", " (t :: l))) = true).
  { cbn [forallb] in H. apply andb_true_iff in H as [Ht _].
    unfold Spec.is_tag in Ht. apply andb_true_iff in Ht as [Ht _].
    apply andb_true_iff in Ht as [Ht _].
    destruct t; [discriminate Ht | ]. cbn. now destruct l. }
  rewrite Hne. cbn [negb]. now apply split_concat_tags.
Qed.

Lemma split_by_comma_join_witness :
  Filters.split_by_comma (PStr "python, django web, api") = ["python"; "django web"; "api"].
Proof.
  exact (split_by_comma_join ["python"; "django web"; "api"] eq_refl).
Defined.

(** X3.  Trimming is idempotent, on every value a template may pass. *)
Theorem trim_filter_idempotent (value : pyval) :
  Filters.trim_filter (Filters.trim_filter value) = Filters.trim_filter value.
Proof.
  destruct value; cbn; try reflexivity. now rewrite strip_idempotent.
Qed.

(** ** Tables *)

Lemma next_id_fresh (ids : list Z) (x : Z) : In x ids -> x < Db.next_id ids.
Proof.
  unfold Db.next_id. induction ids as [|y ids IH]; [intros [] | ].
  cbn [fold_right]. intros [-> | H]; [lia | ]. specialize (IH H). lia.
Qed.

Lemma NoDup_map_eq {A B} (f : A -> B) (l : list A) (x y : A) :
  NoDup (List.map f l) -> In x l -> In y l -> f x = f y -> x = y.
Proof.
  induction l as [|z l IH]; [intros _ [] | ].
  cbn [List.map]. intros Hnd Hx Hy E. inversion Hnd as [|? ? Hz Hl]; subst.
  destruct Hx as [-> | Hx], Hy as [-> | Hy].
  - reflexivity.
  - exfalso. apply Hz. rewrite E. now apply in_map.
  - exfalso. apply Hz. rewrite <- E. now apply in_map.
  - now apply IH.
Qed.

Lemma get_found {A} (p : A -> bool) (rows : list A) (a : A) :
  Db.get p rows = Db.Found a -> List.filter p rows = [a].
Proof.
  unfold Db.get. destruct (List.filter p rows) as [|x [|y l]]; congruence.
Qed.

Lemma get_found_in {A} (p : A -> bool) (rows : list A) (a : A) :
  Db.get p rows = Db.Found a -> In a rows /\ p a = true.
Proof.
  intros H. apply get_found in H.
  apply filter_In. rewrite H. now left.
Qed.

Lemma filter_all {A} (p : A -> bool) (l : list A) :
  (forall x, In x l -> p x = true) -> List.filter p l = l.
Proof.
  induction l as [|y l IH]; [reflexivity | ]. intros H. cbn.
  rewrite (H y (or_introl eq_refl)). f_equal. apply IH. intros x Hx. apply H. now right.
Qed.

Lemma filter_none {A} (p : A -> bool) (l : list A) :
  (forall x, In x l -> p x = false) -> List.filter p l = [].
Proof.
  induction l as [|y l IH]; [reflexivity | ]. intros H. cbn.
  rewrite (H y (or_introl eq_refl)). apply IH. intros x Hx. apply H. now right.
Qed.

(** Deleting by primary key takes out the one row that has it. *)
Lemma delete_by_id {A} (id : A -> Z) (pre post : list A) (v : A) :
  NoDup (List.map id (pre ++ v :: post)) ->
  List.filter (fun r => negb (id r =? id v)) (pre ++ v :: post) = (pre ++ post)%list.
Proof.
  intros Hnd. rewrite filter_app. cbn [List.filter]. rewrite Z.eqb_refl. cbn [negb].
  rewrite !filter_all; [reflexivity | | ].
  - intros x Hx. apply negb_true_iff, Z.eqb_neq. intros E.
    rewrite map_app in Hnd. cbn [List.map] in Hnd.
    apply NoDup_remove_2 in Hnd. apply Hnd. apply in_or_app. right.
    rewrite <- E. now apply in_map.
  - intros x Hx. apply negb_true_iff, Z.eqb_neq. intros E.
    rewrite map_app in Hnd. cbn [List.map] in Hnd.
    apply NoDup_remove_2 in Hnd. apply Hnd. apply in_or_app. left.
    rewrite <- E. now apply in_map.
Qed.

(** ** Saved videos: removal *)

(** X4.  With primary keys distinct, [eliminar_video_guardado] answers 200
    exactly when it took out one row, which has the requested id and
    belongs to the requesting user; the rest of the table keeps its order
    and the other tables are untouched.  Whatever else it answers, the
    database is as it was. *)
Theorem eliminar_video_guardado_exact
        (f : fault) (req : request) (video_id : Z) (db : Db.t) :
  NoDup (List.map VideoGuardado.id (Db.videos_guardados db)) ->
  (forall data,
      fst (eliminar_video_guardado f req video_id db) = Ok (JsonResponse data 200) ->
      exists u pre v post,
        user req = Some u
        /\ Db.videos_guardados db = (pre ++ v :: post)%list
        /\ VideoGuardado.id v = video_id
        /\ VideoGuardado.usuario v = User.id u
        /\ snd (eliminar_video_guardado f req video_id db)
           = Db.set_videos_guardados (pre ++ post) db)
  /\ ((forall data,
          fst (eliminar_video_guardado f req video_id db) <> Ok (JsonResponse data 200)) ->
      snd (eliminar_video_guardado f req video_id db) = db).
Proof.
  intros Hnd. unfold eliminar_video_guardado.
  destruct (user req) as [u|]; [ | split; [discriminate | reflexivity]].
  destruct (Db.get _ _) as [v| |] eqn:Hg; cbn [fst snd];
    [ | split; [discriminate | reflexivity]..].
  destruct (check f) as [[]|e]; cbn [fst snd]; [ | split; [discriminate | reflexivity]].
  split.
  - intros data _. destruct (get_found_in _ _ _ Hg) as [Hin Hp].
    apply andb_true_iff in Hp as [H1 H2].
    apply Z.eqb_eq in H1. apply Z.eqb_eq in H2.
    apply in_split in Hin as (pre & post & E).
    exists u, pre, v, post. repeat split; try assumption.
    f_equal. rewrite E in Hnd |- *. now apply delete_by_id.
  - intros H. exfalso. eapply H. reflexivity.
Qed.

Lemma eliminar_video_guardado_exact_witness :
  exists u pre v post,
    user Ejemplos.peticion_guardar = Some u
    /\ Db.videos_guardados Ejemplos.base_guardados = (pre ++ v :: post)%list
    /\ VideoGuardado.id v = 2
    /\ VideoGuardado.usuario v = User.id u
    /\ snd (eliminar_video_guardado None Ejemplos.peticion_guardar 2
                                    Ejemplos.base_guardados)
       = Db.set_videos_guardados (pre ++ post) Ejemplos.base_guardados.
Proof.
  refine (proj1 (eliminar_video_guardado_exact None Ejemplos.peticion_guardar 2
                   Ejemplos.base_guardados _) _ eq_refl).
  repeat constructor; cbn; intuition discriminate.
Defined.

Lemma guardar_success_inv (w : guardar_world) (req : request) (db db1 : Db.t)
      (i : Z) (rest : list (string * jval)) :
  guardar_video_busqueda w req db
  = (JsonResponse (("success", JV (PBool true)) :: ("id", JV (PInt i)) :: rest) 200, db1) ->
  exists u video_id v,
    user req = Some u
    /\ VideoGuardado.id v = i
    /\ is_saved video_id u v = true
    /\ VideoGuardado.id v
       = Db.next_id (List.map VideoGuardado.id (Db.videos_guardados db))
    /\ db1 = Db.set_videos_guardados (Db.videos_guardados db ++ [v]) db
    /\ (exists d, body_json req = Ok d /\ get d "video_id" PNone = Ok video_id).
Proof.
  unfold guardar_video_busqueda. intros H.
  destruct (user req) as [u|]; [ | discriminate H].
  destruct (negb (method req =? "POST")%string); [discriminate H | ].
  match type of H with
  | match ?b with Ok r => r | Raise e => _ end = _ =>
      destruct b as [[resp db']|e] eqn:Hb
  end; [ | discriminate H].
  inversion H; subst; clear H.
  destruct (body_json req) as [d|e] eqn:Hd; cbn [bind] in Hb; [ | discriminate Hb].
  destruct (get d "video_id" PNone) as [video_id|e] eqn:Hv; cbn [bind] in Hb;
    [ | discriminate Hb].
  bind_inv Hb.
  destruct (negb (truthy video_id)) eqn:Ht; [discriminate Hb | ].
  destruct (Db.exists_ _ _) in Hb; [discriminate Hb | ].
  destruct (_obtener_info_video_youtube _ _ _ _) as [info|e] in Hb;
    cbn [bind] in Hb; [ | discriminate Hb].
  destruct (create_video_guardado _ _ _ _ _) as [[v db2]|e] eqn:Hc in Hb;
    cbn [bind] in Hb; [ | discriminate Hb].
  inversion Hb; subst; clear Hb.
  exists u, video_id, v. apply negb_false_iff in Ht.
  unfold create_video_guardado in Hc. bind_inv Hc.
  destruct (Db.exists_ _ _) in Hc; [discriminate Hc | ].
  inversion Hc; subst; clear Hc. cbn.
  repeat split.
  - unfold is_saved. cbn. rewrite Z.eqb_refl, andb_true_r.
    apply String.eqb_eq.
    destruct video_id; cbn in *; congruence.
  - exists d. now split.
Qed.

(** X5.  Saving a video and then removing the record under the id the
    answer gave restores the rows of the database.  The id of the answer
    is the key of no row that was there before the save; the removal
    answers 200, and after it every table holds the rows it held before
    the save. *)
Theorem guardar_then_eliminar
        (w : guardar_world) (req : request) (db db1 : Db.t)
        (i : Z) (rest : list (string * jval)) :
  guardar_video_busqueda w req db
  = (JsonResponse (("success", JV (PBool true)) :: ("id", JV (PInt i)) :: rest) 200, db1) ->
  ~ In i (List.map VideoGuardado.id (Db.videos_guardados db))
  /\ fst (eliminar_video_guardado None req i db1)
     = Ok (JsonResponse [("success", JV (PBool true));
                         ("message", Str "Video eliminado exitosamente")] 200)
  /\ Db.videos_guardados (snd (eliminar_video_guardado None req i db1))
     = Db.videos_guardados db
  /\ Db.users (snd (eliminar_video_guardado None req i db1)) = Db.users db
  /\ Db.youtube_accounts (snd (eliminar_video_guardado None req i db1))
     = Db.youtube_accounts db
  /\ Db.videos_subidos (snd (eliminar_video_guardado None req i db1))
     = Db.videos_subidos db.
Proof.
  intros H.
  destruct (guardar_success_inv _ _ _ _ _ _ H) as (u & vid & v & Hu & Hi & Hs & Hid & -> & _).
  assert (Hold : forall r, In r (Db.videos_guardados db) -> (VideoGuardado.id r =? i) = false).
  { intros r Hr. apply Z.eqb_neq. rewrite <- Hi, Hid.
    apply Z.lt_neq. apply next_id_fresh. now apply in_map. }
  split.
  { intros Hin. apply in_map_iff in Hin as [r [Hr Hin]].
    specialize (Hold r Hin). apply Z.eqb_neq in Hold. contradiction. }
  unfold eliminar_video_guardado. rewrite Hu. cbn [Db.videos_guardados Db.set_videos_guardados].
  assert (Hown : owned_saved i u v = true).
  { unfold owned_saved. rewrite Hi, Z.eqb_refl.
    unfold is_saved in Hs. now apply andb_true_iff in Hs as [_ ->]. }
  assert (Hget : Db.get (owned_saved i u) (Db.videos_guardados db ++ [v]) = Db.Found v).
  { unfold Db.get. rewrite filter_app, filter_none.
    - cbn. now rewrite Hown.
    - intros r Hr. unfold owned_saved. now rewrite (Hold r Hr). }
  rewrite Hget. cbn [check fst snd]. split; [reflexivity | ].
  cbn [Db.videos_guardados Db.set_videos_guardados Db.users Db.youtube_accounts
       Db.videos_subidos].
  split; [ | now repeat split].
  rewrite filter_app, filter_all.
  - cbn. rewrite Z.eqb_refl. cbn. now rewrite app_nil_r.
  - intros r Hr. rewrite Hi, (Hold r Hr). reflexivity.
Qed.

Lemma guardar_then_eliminar_witness :
  ~ In 1 (List.map VideoGuardado.id (Db.videos_guardados Ejemplos.base))
  /\ fst (eliminar_video_guardado None Ejemplos.peticion_guardar 1
            (snd (guardar_video_busqueda Ejemplos.mundo_guardar_ok
                                         Ejemplos.peticion_guardar Ejemplos.base)))
     = Ok (JsonResponse [("success", JV (PBool true));
                         ("message", Str "Video eliminado exitosamente")] 200)
  /\ Db.videos_guardados
       (snd (eliminar_video_guardado None Ejemplos.peticion_guardar 1
               (snd (guardar_video_busqueda Ejemplos.mundo_guardar_ok
                                            Ejemplos.peticion_guardar Ejemplos.base))))
     = Db.videos_guardados Ejemplos.base.
Proof.
  destruct (guardar_then_eliminar Ejemplos.mundo_guardar_ok Ejemplos.peticion_guardar
              Ejemplos.base _ 1 _ eq_refl) as (H1 & H2 & H3 & _).
  split; [exact H1 | ]. split; [exact H2 | exact H3].
Defined.

(** X6.  Once a video has been saved, every later attempt of the same
    user to save it is answered ['Ya tienes este video guardado'] and
    changes nothing, whatever YouTube or the database would have done. *)
Theorem guardar_twice
        (w w' : guardar_world) (req : request) (db db1 : Db.t)
        (i : Z) (rest : list (string * jval)) :
  guardar_video_busqueda w req db
  = (JsonResponse (("success", JV (PBool true)) :: ("id", JV (PInt i)) :: rest) 200, db1) ->
  exists video_id,
    guardar_video_busqueda w' req db1
    = (JsonResponse [("success", JV (PBool false));
                     ("error", Str "Ya tienes este video guardado");
                     ("video_id", JV video_id)] 200, db1).
Proof.
  intros H.
  destruct (guardar_success_inv _ _ _ _ _ _ H)
    as (u & vid & v & Hu & Hi & Hs & Hid & -> & d & Hd & Hv).
  exists vid. unfold guardar_video_busqueda in H |- *. rewrite Hu in H |- *.
  destruct (negb (method req =? "POST")%string); [discriminate H | ].
  rewrite Hd in H |- *. cbn [bind] in H |- *. rewrite Hv in H |- *. cbn [bind] in H |- *.
  destruct (get d "titulo" (PStr EmptyString)) as [t|e]; cbn [bind] in H |- *;
    [ | discriminate H].
  destruct (negb (truthy vid)); [discriminate H | ].
  assert (He : Db.exists_ (is_saved vid u)
                 (Db.videos_guardados
                    (Db.set_videos_guardados (Db.videos_guardados db ++ [v]) db)) = true).
  { cbn. unfold Db.exists_. rewrite existsb_app. cbn. rewrite Hs. apply orb_true_iff.
    right. reflexivity. }
  now rewrite He.
Qed.

Lemma guardar_twice_witness :
  exists video_id,
    guardar_video_busqueda Ejemplos.mundo_guardar_timeout Ejemplos.peticion_guardar
      (snd (guardar_video_busqueda Ejemplos.mundo_guardar_ok Ejemplos.peticion_guardar
                                   Ejemplos.base))
    = (JsonResponse [("success", JV (PBool false));
                     ("error", Str "Ya tienes este video guardado");
                     ("video_id", JV video_id)] 200,
       snd (guardar_video_busqueda Ejemplos.mundo_guardar_ok Ejemplos.peticion_guardar
                                   Ejemplos.base)).
Proof.
  exact (guardar_twice Ejemplos.mundo_guardar_ok Ejemplos.mundo_guardar_timeout
           Ejemplos.peticion_guardar Ejemplos.base _ 1 _ eq_refl).
Defined.

(** ** Accounts *)

Lemma map_update {A B} (same : A -> bool) (g : A -> B) (a : A) (rows : list A) :
  (forall r, In r rows -> same r = true -> g r = g a) ->
  List.map g (Db.update same a rows) = List.map g rows.
Proof.
  unfold Db.update. induction rows as [|r rows IH]; [reflexivity | ].
  intros H. cbn [List.map]. rewrite IH; [ | intros x Hx; apply H; now right].
  f_equal. destruct (same r) eqn:Hs; [ | reflexivity].
  symmetry. apply H; [now left | exact Hs].
Qed.

(** Saving an instance read from the table changes no column that the
    instance kept. *)
Lemma save_account_keeps {B} (g : YouTubeAccount.t -> B)
      (old a : YouTubeAccount.t) (db : Db.t) :
  NoDup (List.map YouTubeAccount.id (Db.youtube_accounts db)) ->
  In old (Db.youtube_accounts db) ->
  YouTubeAccount.id a = YouTubeAccount.id old ->
  g a = g old ->
  List.map g (Db.youtube_accounts (save_account a db))
  = List.map g (Db.youtube_accounts db).
Proof.
  intros Hnd Hin Hid Hg. unfold save_account.
  destruct (Db.exists_ (same_account a) (Db.youtube_accounts db)) eqn:He.
  - cbn. apply map_update. intros r Hr Hs. unfold same_account in Hs.
    apply Z.eqb_eq in Hs. rewrite Hg. f_equal.
    apply (NoDup_map_eq YouTubeAccount.id _ _ _ Hnd Hr Hin). congruence.
  - exfalso. unfold Db.exists_ in He.
    assert (Ht : existsb (same_account a) (Db.youtube_accounts db) = true).
    { apply existsb_exists. exists old. split; [exact Hin | ].
      unfold same_account. now apply Z.eqb_eq. }
    congruence.
Qed.

Lemma save_account_other_tables (a : YouTubeAccount.t) (db : Db.t) :
  Db.users (save_account a db) = Db.users db
  /\ Db.videos_subidos (save_account a db) = Db.videos_subidos db
  /\ Db.videos_guardados (save_account a db) = Db.videos_guardados db.
Proof. unfold save_account. destruct (Db.exists_ _ _); now cbn. Qed.

Lemma not_exists_not_in {A B} (f : A -> B) (p : A -> bool) (x : B) (rows : list A) :
  (forall r, f r = x -> p r = true) ->
  Db.exists_ p rows = false -> ~ In x (List.map f rows).
Proof.
  unfold Db.exists_. intros Hp He Hin. apply in_map_iff in Hin as [r [E Hr]].
  assert (Ht : existsb p rows = true) by (apply existsb_exists; exists r; auto).
  congruence.
Qed.

Lemma next_id_not_in (ids : list Z) : ~ In (Db.next_id ids) ids.
Proof. intros H. apply next_id_fresh in H. lia. Qed.

Lemma create_account_inv (w : callback_world) (django_user : Z) (t : tokens)
      (user_email : pyval) (c : channel_info) (db : Db.t) :
  snd (create_account w django_user t user_email c db) = db
  \/ exists a,
      YouTubeAccount.id a = Db.next_id (List.map YouTubeAccount.id (Db.youtube_accounts db))
      /\ YouTubeAccount.user a = django_user
      /\ to_text (channel_id c) = Ok (YouTubeAccount.youtube_id a)
      /\ YouTubeAccount.url_canal a = EmptyString
      /\ ~ In (YouTubeAccount.youtube_id a)
              (List.map YouTubeAccount.youtube_id (Db.youtube_accounts db))
      /\ ~ In django_user (List.map YouTubeAccount.user (Db.youtube_accounts db))
      /\ let db1 := Db.set_youtube_accounts (Db.youtube_accounts db ++ [a]) db in
         let a' := with_url_canal (Spec.channel_url (YouTubeAccount.youtube_id a)) a in
         (create_account w django_user t user_email c db = (Ok a', save_account a' db1)
          \/ (snd (create_account w django_user t user_email c db) = db1
              /\ exists e, fst (create_account w django_user t user_email c db) = Raise e)).
Proof.
  unfold create_account.
  match goal with
  | |- context [match ?b with Ok _ => _ | Raise _ => _ end] =>
      destruct b as [a|e] eqn:Hb
  end; [ | now left].
  right. exists a.
  destruct (to_text (channel_id c)) as [yid|] eqn:E1; cbn [bind] in Hb; [ | discriminate Hb].
  bind_inv Hb.
  destruct (Db.exists_ _ _) eqn:He1 in Hb; [discriminate Hb | ].
  destruct (Db.exists_ _ _) eqn:He2 in Hb; [discriminate Hb | ].
  inversion Hb; subst; clear Hb. cbn [YouTubeAccount.id YouTubeAccount.user
    YouTubeAccount.youtube_id YouTubeAccount.url_canal].
  repeat split.
  - apply (not_exists_not_in _ _ _ _ (fun r E => proj2 (String.eqb_eq _ _) E) He1).
  - apply (not_exists_not_in _ _ _ _ (fun r E => proj2 (Z.eqb_eq _ _) E) He2).
  - cbn zeta. destruct (check (signal_fault w)) as [[]|e].
    + left. reflexivity.
    + right. split; [reflexivity | now exists e].
Qed.

Lemma consistent_append_account (a : YouTubeAccount.t) (db : Db.t) :
  Spec.consistent db ->
  YouTubeAccount.id a = Db.next_id (List.map YouTubeAccount.id (Db.youtube_accounts db)) ->
  ~ In (YouTubeAccount.youtube_id a)
       (List.map YouTubeAccount.youtube_id (Db.youtube_accounts db)) ->
  ~ In (YouTubeAccount.user a) (List.map YouTubeAccount.user (Db.youtube_accounts db)) ->
  Spec.consistent (Db.set_youtube_accounts (Db.youtube_accounts db ++ [a]) db).
Proof.
  intros (H1 & H2 & H3 & H4 & H5) Hid Hy Hu. unfold Spec.consistent. cbn.
  rewrite !map_app. cbn [List.map].
  repeat split; try assumption; apply NoDup_snoc; try assumption.
  rewrite Hid. apply next_id_not_in.
Qed.

Lemma consistent_save_account (old a : YouTubeAccount.t) (db : Db.t) :
  Spec.consistent db ->
  In old (Db.youtube_accounts db) ->
  YouTubeAccount.id a = YouTubeAccount.id old ->
  YouTubeAccount.youtube_id a = YouTubeAccount.youtube_id old ->
  YouTubeAccount.user a = YouTubeAccount.user old ->
  Spec.consistent (save_account a db).
Proof.
  intros (H1 & H2 & H3 & H4 & H5) Hin Hid Hy Hu. unfold Spec.consistent.
  destruct (save_account_other_tables a db) as (-> & _ & _).
  rewrite !(save_account_keeps _ old a db H3 Hin Hid) by assumption.
  repeat split; assumption.
Qed.

Lemma create_account_consistent (w : callback_world) (django_user : Z) (t : tokens)
      (user_email : pyval) (c : channel_info) (db : Db.t) :
  Spec.consistent db ->
  Spec.consistent (snd (create_account w django_user t user_email c db)).
Proof.
  intros Hc.
  destruct (create_account_inv w django_user t user_email c db)
    as [-> | (a & Hid & Hu & _ & _ & Hy & Hnu & [E | [E _]])]; [exact Hc | | ];
    rewrite E; cbn [snd]; rewrite <- Hu in Hnu.
  - apply (consistent_save_account a).
    + now apply consistent_append_account.
    + cbn. apply in_or_app. right. now left.
    + reflexivity.
    + reflexivity.
    + reflexivity.
  - now apply consistent_append_account.
Qed.

Lemma update_account_inv (w : callback_world) (t : tokens) (user_email : pyval)
      (c : channel_info) (old a : YouTubeAccount.t) (db db' : Db.t) :
  update_account w t user_email c old db = Ok (a, db') ->
  db' = save_account a db
  /\ YouTubeAccount.id a = YouTubeAccount.id old
  /\ YouTubeAccount.youtube_id a = YouTubeAccount.youtube_id old
  /\ YouTubeAccount.user a = YouTubeAccount.user old
  /\ YouTubeAccount.url_canal a = YouTubeAccount.url_canal old.
Proof.
  unfold update_account. intros H. bind_inv H. inversion H; subst. now cbn.
Qed.

Lemma create_user_inv (f : fault) (username : string) (email : pyval)
      (first_name : string) (db db' : Db.t) (u : User.t) :
  create_user f username email first_name db = Ok (u, db') ->
  db' = Db.set_users (Db.users db ++ [u]) db
  /\ User.id u = Db.next_id (List.map User.id (Db.users db))
  /\ User.username u = username
  /\ ~ In username (List.map User.username (Db.users db)).
Proof.
  unfold create_user. intros H. bind_inv H.
  destruct (Db.exists_ _ _) eqn:He in H; [discriminate H | ].
  inversion H; subst; clear H. cbn. repeat split.
  apply (not_exists_not_in _ _ _ _ (fun r E => proj2 (String.eqb_eq _ _) E) He).
Qed.

Lemma create_user_consistent (f : fault) (username : string) (email : pyval)
      (first_name : string) (db db' : Db.t) (u : User.t) :
  Spec.consistent db ->
  create_user f username email first_name db = Ok (u, db') ->
  Spec.consistent db'.
Proof.
  intros (H1 & H2 & H3 & H4 & H5) H.
  apply create_user_inv in H as (-> & Hid & Hn & Hfree).
  unfold Spec.consistent. cbn. rewrite !map_app. cbn [List.map].
  repeat split; try assumption; apply NoDup_snoc; try assumption.
  - rewrite Hid. apply next_id_not_in.
  - now rewrite Hn.
Qed.

Lemma paso4_consistent (w : callback_world) (req : request) (t : tokens)
      (user_email : pyval) (c : channel_info) (db : Db.t) :
  Spec.consistent db ->
  Spec.consistent (snd (paso4 w req t user_email c db)).
Proof.
  intros Hc. unfold paso4.
  destruct (Db.get _ _) as [old| |] eqn:Hg; [ | | exact Hc].
  - destruct (update_account w t user_email c old db) as [[a db']|e] eqn:Hu;
      [ | exact Hc].
    cbn [snd]. apply update_account_inv in Hu as (-> & Hid & Hy & Hus & _).
    apply (consistent_save_account old); try assumption.
    now apply (get_found_in _ _ _ Hg).
  - destruct (user req) as [u|]; [now apply create_account_consistent | ].
    destruct (bind _ _) as [[django_user db1]|e] eqn:Hb; [ | exact Hc].
    apply create_account_consistent.
    destruct (first_name_of (channel_name c)) as [fn|]; cbn [bind] in Hb;
      [ | discriminate Hb].
    exact (create_user_consistent _ _ _ _ _ _ _ Hc Hb).
Qed.

(** X7.  The callback keeps the tables of users and accounts within the
    constraints of the schema, whatever Google and YouTube answer and
    whatever fails on the way: primary keys, user names and channel ids
    stay distinct and no user gets a second account. *)
Theorem youtube_callback_consistent
        (w : callback_world) (req : request) (db : Db.t) :
  Spec.consistent db ->
  Spec.consistent (callback_db (youtube_callback w req db)).
Proof.
  intros Hc. unfold youtube_callback.
  destruct (negb (str_empty _)); [exact Hc | ].
  destruct (str_empty _); [exact Hc | ].
  destruct (paso2 w) as [r|t]; [exact Hc | ].
  destruct (paso3_canal w) as [r|c]; [exact Hc | ].
  pose proof (paso4_consistent w req t (paso3_email w) c db Hc) as H.
  destruct (paso4 w req t (paso3_email w) c db) as [[a|e] db']; exact H.
Qed.

Lemma consistent_base : Spec.consistent Ejemplos.base.
Proof.
  unfold Spec.consistent. cbn.
  repeat split; repeat constructor; intros [].
Qed.

Lemma youtube_callback_consistent_witness :
  Spec.consistent
    (callback_db (youtube_callback Ejemplos.mundo_canal_ok Ejemplos.peticion_callback
                                   Ejemplos.base)).
Proof.
  exact (youtube_callback_consistent Ejemplos.mundo_canal_ok Ejemplos.peticion_callback
           Ejemplos.base consistent_base).
Defined.

Lemma get_not_exists {A} (p : A -> bool) (rows : list A) :
  Db.exists_ p rows = false -> Db.get p rows = Db.DoesNotExist.
Proof.
  unfold Db.exists_, Db.get. intros H. rewrite filter_none; [reflexivity | ].
  intros x Hx. destruct (p x) eqn:Hp; [ | reflexivity].
  assert (Ht : existsb p rows = true) by (apply existsb_exists; now exists x).
  congruence.
Qed.

Lemma create_account_returns (w : callback_world) (django_user : Z) (t : tokens)
      (user_email : pyval) (c : channel_info) (a : YouTubeAccount.t) (db db' : Db.t) :
  create_account w django_user t user_email c db = (Ok a, db') ->
  In a (Db.youtube_accounts db')
  /\ YouTubeAccount.user a = django_user
  /\ to_text (channel_id c) = Ok (YouTubeAccount.youtube_id a)
  /\ YouTubeAccount.url_canal a = Spec.channel_url (YouTubeAccount.youtube_id a)
  /\ Db.users db' = Db.users db.
Proof.
  unfold create_account. intros H.
  match type of H with
  | match ?b with _ => _ end = _ => destruct b as [a0|e] eqn:Hb
  end; [ | discriminate H].
  destruct (check (signal_fault w)); [ | discriminate H].
  inversion H; subst; clear H.
  split; [apply in_save_account | ].
  destruct (to_text (channel_id c)) as [yid|] eqn:E1; cbn [bind] in Hb; [ | discriminate Hb].
  bind_inv Hb.
  destruct (Db.exists_ _ _) in Hb; [discriminate Hb | ].
  destruct (Db.exists_ _ _) in Hb; [discriminate Hb | ].
  inversion Hb; subst; clear Hb.
  repeat split.
  match goal with
  | |- context [save_account ?x ?y] =>
      destruct (save_account_other_tables x y) as (-> & _)
  end.
  reflexivity.
Qed.

(** X8.  An account the callback creates carries the URL of its channel:
    when no account existed for the channel and the callback ends in the
    redirect to the dashboard, the account put in the session belongs to
    the channel and [get_channel_url] gives
    [https://www.youtube.com/channel/<youtube_id>] for it. *)
Theorem new_account_channel_url
        (w : callback_world) (req : request) (db : Db.t) (c : channel_info) :
  paso3_canal w = Next c ->
  Db.exists_ (has_youtube_id (channel_id c)) (Db.youtube_accounts db) = false ->
  callback_response (youtube_callback w req db) = Redirect "youtube_dashboard" ->
  exists a,
    In a (Db.youtube_accounts (callback_db (youtube_callback w req db)))
    /\ callback_session_account (youtube_callback w req db) = Some (YouTubeAccount.id a)
    /\ to_text (channel_id c) = Ok (YouTubeAccount.youtube_id a)
    /\ YouTubeAccount.get_channel_url a = Spec.channel_url (YouTubeAccount.youtube_id a).
Proof.
  intros H3 Hno. unfold youtube_callback.
  destruct (negb (str_empty _)); [cbn; discriminate | ].
  destruct (str_empty _); [cbn; discriminate | ].
  destruct (paso2 w) as [r|t] eqn:H2.
  { destruct (paso2_returns_page w r H2) as (x & y & ->). cbn. discriminate. }
  rewrite H3.
  destruct (paso4 w req t (paso3_email w) c db) as [[a|e] db'] eqn:H4;
    [ | cbn; discriminate].
  intros _. cbn [callback_db callback_session_account]. exists a.
  unfold paso4 in H4. rewrite (get_not_exists _ _ Hno) in H4.
  assert (Hc : exists du db0, create_account w du t (paso3_email w) c db0 = (Ok a, db')).
  { destruct (user req) as [u|]; [eauto | ].
    destruct (bind _ _) as [[django_user db1]|e]; [eauto | discriminate H4]. }
  destruct Hc as (du & db0 & Hc).
  apply create_account_returns in Hc as (Hin & _ & Hy & Hurl & _).
  repeat split; try assumption.
  unfold YouTubeAccount.get_channel_url. rewrite Hurl. reflexivity.
Qed.

Lemma new_account_channel_url_witness :
  exists a,
    In a (Db.youtube_accounts
            (callback_db (youtube_callback Ejemplos.mundo_canal_nuevo
                                           Ejemplos.peticion_callback Ejemplos.base)))
    /\ callback_session_account
         (youtube_callback Ejemplos.mundo_canal_nuevo Ejemplos.peticion_callback
                           Ejemplos.base)
       = Some (YouTubeAccount.id a)
    /\ to_text (PStr "UC999") = Ok (YouTubeAccount.youtube_id a)
    /\ YouTubeAccount.get_channel_url a = Spec.channel_url (YouTubeAccount.youtube_id a).
Proof.
  exact (new_account_channel_url Ejemplos.mundo_canal_nuevo Ejemplos.peticion_callback
           Ejemplos.base _ eq_refl eq_refl eq_refl).
Defined.

(** ** New users *)

Lemma pick_username_free_or_stamp (users : list User.t) (original stamp : string)
      (n : nat) (username : string) (counter : Z) :
  (1 <= n)%nat -> counter + Z.of_nat n = 101 ->
  let r := pick_username n users original username counter stamp in
  r = ("youtube_user_" ++ stamp)%string
  \/ Db.exists_ (fun u => String.eqb (User.username u) r) users = false.
Proof.
  revert username counter. induction n as [|n IH]; intros username counter Hn Hc; [lia | ].
  cbn [pick_username].
  destruct (Db.exists_ (fun u => (User.username u =? username)%string) users) eqn:He.
  - destruct (100 <? counter + 1) eqn:Hlim; [now left | ].
    apply Z.ltb_ge in Hlim. apply IH; lia.
  - right. exact He.
Qed.

(** X9.  The user name the callback settles on for a new user is free,
    unless the search gave up after a hundred candidates and fell back on
    the time-stamped name. *)
Theorem pick_username_free (users : list User.t) (username stamp : string) :
  let r := pick_username 100 users username username 1 stamp in
  r = ("youtube_user_" ++ stamp)%string
  \/ Db.exists_ (fun u => String.eqb (User.username u) r) users = false.
Proof. apply pick_username_free_or_stamp; lia. Qed.

(** X10.  Whom the callback logs in.  An anonymous visitor who completes
    the callback is logged in as the user that owns the account of the
    channel, or, when the channel had no account, as a user created on the
    spot, whose id no user had before.  Nobody else is ever logged in. *)
Theorem callback_login_owner_or_new
        (w : callback_world) (req : request) (db : Db.t) (uid : Z) :
  callback_login (youtube_callback w req db) = Some uid ->
  exists c,
    paso3_canal w = Next c
    /\ user req = None
    /\ ((exists old,
            Db.get (has_youtube_id (channel_id c)) (Db.youtube_accounts db) = Db.Found old
            /\ uid = YouTubeAccount.user old)
        \/ (Db.get (has_youtube_id (channel_id c)) (Db.youtube_accounts db)
            = Db.DoesNotExist
            /\ ~ In uid (List.map User.id (Db.users db))
            /\ In uid (List.map User.id
                         (Db.users (callback_db (youtube_callback w req db)))))).
Proof.
  unfold youtube_callback.
  destruct (negb (str_empty _)); [cbn; discriminate | ].
  destruct (str_empty _); [cbn; discriminate | ].
  destruct (paso2 w) as [r|t]; [cbn; discriminate | ].
  destruct (paso3_canal w) as [r|c]; [cbn; discriminate | ].
  destruct (paso4 w req t (paso3_email w) c db) as [[a|e] db'] eqn:H4;
    [ | cbn; discriminate].
  cbn [callback_login callback_db].
  destruct (user req) as [u|] eqn:Hu; [discriminate | ].
  intros H. inversion H; subst; clear H. exists c. repeat split.
  unfold paso4 in H4. rewrite Hu in H4.
  destruct (Db.get _ _) as [old| |]; [ | | discriminate H4].
  - left. exists old. split; [reflexivity | ].
    destruct (update_account w t (paso3_email w) c old db) as [[a0 db0]|e] eqn:Hup;
      [ | discriminate H4].
    inversion H4; subst. now apply update_account_inv in Hup as (_ & _ & _ & -> & _).
  - right. split; [reflexivity | ].
    destruct (first_name_of (channel_name c)) as [fn|]; cbn [bind] in H4;
      [ | discriminate H4].
    destruct (create_user _ _ _ _ _) as [[django_user db1]|e] eqn:Hcu;
      [ | discriminate H4].
    apply create_user_inv in Hcu as (-> & Hid & _ & _).
    apply create_account_returns in H4 as (_ & -> & _ & _ & ->).
    cbn [Db.users Db.set_users]. split.
    + rewrite Hid. apply next_id_not_in.
    + rewrite map_app. apply in_or_app. right. now left.
Qed.

Lemma callback_login_owner_or_new_witness :
  exists c,
    paso3_canal Ejemplos.mundo_canal_nuevo = Next c
    /\ user Ejemplos.peticion_callback = None
    /\ ((exists old,
            Db.get (has_youtube_id (channel_id c)) (Db.youtube_accounts Ejemplos.base)
            = Db.Found old
            /\ 2 = YouTubeAccount.user old)
        \/ (Db.get (has_youtube_id (channel_id c)) (Db.youtube_accounts Ejemplos.base)
            = Db.DoesNotExist
            /\ ~ In 2 (List.map User.id (Db.users Ejemplos.base))
            /\ In 2 (List.map User.id
                       (Db.users (callback_db
                                    (youtube_callback Ejemplos.mundo_canal_nuevo
                                                      Ejemplos.peticion_callback
                                                      Ejemplos.base)))))).
Proof.
  exact (callback_login_owner_or_new Ejemplos.mundo_canal_nuevo
           Ejemplos.peticion_callback Ejemplos.base 2 eq_refl).
Defined.

(** ** C2 *)












(** ** The state of the token *)

(** X11.  [check_auth_status] tells the front end what an upload would
    meet: at the same instant, when it reports no account the AJAX upload
    answers 400 ['Cuenta no vinculada'], and when it reports an invalid
    token the upload answers 401 with [needs_reauth]; either way nothing is
    stored and no upload thread is started. *)
Theorem check_auth_status_predicts_upload
        (w : ajax_world) (req : request) (db : Db.t) (data : list (string * jval)) :
  method req = "POST" ->
  check_auth_status (ajax_now w) req db = Ok (JsonResponse data 200) ->
  (In ("autenticado", JV (PBool false)) data ->
   procesar_subida_ajax w req db
   = mkAjaxResult (Ok (JsonResponse [("error", Str "Cuenta no vinculada")] 400)) db None)
  /\ (In ("token_valido", JV (PBool false)) data ->
      procesar_subida_ajax w req db
      = mkAjaxResult
          (Ok (JsonResponse [("error", Str "Token expirado");
                             ("needs_reauth", JV (PBool true))] 401)) db None).
Proof.
  intros Hm. unfold check_auth_status, procesar_subida_ajax. rewrite Hm.
  destruct (user req) as [u|]; [ | discriminate].
  change (negb ("POST" =? "POST")%string) with false. cbn iota.
  destruct (Db.get _ _) as [a| |]; [ | | discriminate].
  - intros H. inversion H; subst; clear H. split.
    + intros Hin. cbn in Hin.
      repeat (destruct Hin as [Hin | Hin]; [discriminate Hin | ]). destruct Hin.
    + intros Hin. cbn [In] in Hin.
      destruct Hin as [Hin | Hin]; [discriminate Hin | ].
      destruct Hin as [Hin | Hin]; [discriminate Hin | ].
      destruct Hin as [Hin | Hin].
      * inversion Hin as [Hv]. now rewrite Hv.
      * repeat (destruct Hin as [Hin | Hin]; [discriminate Hin | ]). destruct Hin.
  - intros H. inversion H; subst; clear H. split; [reflexivity | ].
    intros Hin. cbn in Hin.
    repeat (destruct Hin as [Hin | Hin]; [discriminate Hin | ]). destruct Hin.
Qed.

Lemma check_auth_status_predicts_upload_witness :
  procesar_subida_ajax Ejemplos.mundo_ajax_tarde Ejemplos.peticion_subida Ejemplos.base
  = mkAjaxResult
      (Ok (JsonResponse [("error", Str "Token expirado");
                         ("needs_reauth", JV (PBool true))] 401)) Ejemplos.base None.
Proof.
  refine (proj2 (check_auth_status_predicts_upload Ejemplos.mundo_ajax_tarde
                   Ejemplos.peticion_subida Ejemplos.base _ eq_refl eq_refl) _).
  cbn. right. right. left. reflexivity.
Defined.

(** The row [get] finds is still the one it finds after the row has been
    saved with changes that keep it within the filter. *)
Lemma get_after_update {A} (key : A -> Z) (p : A -> bool) (rows : list A) (a a' : A) :
  NoDup (List.map key rows) ->
  Db.get p rows = Db.Found a ->
  key a' = key a -> p a' = true ->
  Db.get p (Db.update (fun r => key r =? key a') a' rows) = Db.Found a'.
Proof.
  intros Hnd Hg Hk Hp. apply get_found in Hg.
  assert (E : List.filter p (Db.update (fun r => key r =? key a') a' rows) = [a']);
    [ | unfold Db.get; now rewrite E].
  unfold Db.update. revert Hnd Hg. induction rows as [|r rows IH]; [discriminate | ].
  cbn [List.map List.filter]. intros Hnd Hg. inversion Hnd as [|? ? Hr Hnd']; subst.
  destruct (p r) eqn:Hpr.
  - injection Hg as E1 E2. subst r. rewrite Hk, Z.eqb_refl, Hp. f_equal.
    apply filter_none. intros x Hx. apply in_map_iff in Hx as [y [<- Hy]].
    assert (Hne : (key y =? key a) = false).
    { apply Z.eqb_neq. intros E. apply Hr. rewrite <- E. now apply in_map. }
    rewrite Hne.
    destruct (p y) eqn:Hpy; [ | reflexivity].
    assert (Hy' : In y (List.filter p rows)) by (apply filter_In; now split).
    rewrite E2 in Hy'. destruct Hy'.
  - assert (Hin : In a rows).
    { assert (H : In a (List.filter p rows)) by (rewrite Hg; now left).
      now apply filter_In in H. }
    assert (Hne : (key r =? key a') = false).
    { apply Z.eqb_neq. rewrite Hk. intros E. apply Hr. rewrite E. now apply in_map. }
    rewrite Hne, Hpr. now apply IH.
Qed.

Lemma save_account_found (p : YouTubeAccount.t -> bool) (a a' : YouTubeAccount.t)
      (db : Db.t) :
  NoDup (List.map YouTubeAccount.id (Db.youtube_accounts db)) ->
  Db.get p (Db.youtube_accounts db) = Db.Found a ->
  YouTubeAccount.id a' = YouTubeAccount.id a -> p a' = true ->
  Db.get p (Db.youtube_accounts (save_account a' db)) = Db.Found a'.
Proof.
  intros Hnd Hg Hid Hp. unfold save_account.
  assert (He : Db.exists_ (same_account a') (Db.youtube_accounts db) = true).
  { apply existsb_exists. exists a. split; [now apply (get_found_in _ _ _ Hg) | ].
    unfold same_account. apply Z.eqb_eq. now symmetry. }
  rewrite He. cbn [Db.youtube_accounts Db.set_youtube_accounts].
  exact (get_after_update YouTubeAccount.id p _ a a' Hnd Hg Hid Hp).
Qed.

Lemma refresh_update_inv (w : refresh_world) (token_response : pyval)
      (a a' : YouTubeAccount.t) (db db' : Db.t) :
  refresh_update w token_response a db = Ok (a', db') ->
  db' = save_account a' db
  /\ exists tok expira, a' = with_tokens tok expira a.
Proof.
  unfold refresh_update. intros H. bind_inv H. inversion H; subst.
  split; [reflexivity | eauto].
Qed.

(** X12.  What a refresh announces is what the status view shows
    afterwards.  When [refresh_youtube_token] answers 200 its [expira_en]
    is a date [t]; from then on [check_auth_status] reports that same
    expiry, and reports the token valid at exactly the instants before
    [t]. *)
Theorem refresh_then_status
        (w : refresh_world) (req : request) (db : Db.t) (data : list (string * jval)) :
  NoDup (List.map YouTubeAccount.id (Db.youtube_accounts db)) ->
  fst (refresh_youtube_token w req db) = JsonResponse data 200 ->
  exists t,
    In ("expira_en", JStrftime strftime_format t) data
    /\ forall now, exists data',
        check_auth_status now req (snd (refresh_youtube_token w req db))
        = Ok (JsonResponse data' 200)
        /\ In ("token_valido", JV (PBool (now <? t))) data'
        /\ In ("token_expira", JStrftime strftime_format t) data'.
Proof.
  intros Hnd. unfold refresh_youtube_token, check_auth_status.
  destruct (user req) as [u|]; [ | discriminate].
  destruct (Db.get _ _) as [a| |] eqn:Hg; [ | discriminate..].
  destruct (str_empty _); [discriminate | ].
  destruct (refresh_post w) as [tr|e]; [ | discriminate].
  destruct (contains "error" tr) as [[]|e]; [ | | discriminate].
  { destruct (get tr "error_description" PNone); discriminate. }
  destruct (refresh_update w tr a db) as [[a' db']|e] eqn:Hup; [ | discriminate].
  cbn [fst snd]. intros H. inversion H; subst; clear H.
  apply refresh_update_inv in Hup as (-> & tok & expira & ->).
  exists expira. split; [cbn; auto | ].
  intros now.
  rewrite (save_account_found _ a (with_tokens tok expira a) db Hnd Hg eq_refl).
  - eexists. split; [reflexivity | ]. cbn. auto 6.
  - apply (get_found_in _ _ _ Hg).
Qed.

Lemma refresh_then_status_witness :
  exists t,
    In ("expira_en", JStrftime strftime_format t)
       [("success", JV (PBool true));
        ("message", Str "Token refrescado exitosamente");
        ("expira_en", JStrftime strftime_format (1000000 + 3599 * 1000000))]
    /\ forall now, exists data',
        check_auth_status now Ejemplos.peticion_refresh
          (snd (refresh_youtube_token (Ejemplos.mundo_refresh Ejemplos.respuesta_ok)
                                      Ejemplos.peticion_refresh Ejemplos.base))
        = Ok (JsonResponse data' 200)
        /\ In ("token_valido", JV (PBool (now <? t))) data'
        /\ In ("token_expira", JStrftime strftime_format t) data'.
Proof.
  refine (refresh_then_status (Ejemplos.mundo_refresh Ejemplos.respuesta_ok)
            Ejemplos.peticion_refresh Ejemplos.base _ _ eq_refl).
  cbn. repeat constructor. intros [].
Defined.

(** X13.  The view that refreshes a token and the helper the other views
    call do the same to the database, and agree on whether the refresh
    succeeded: the view answers 200 exactly when the helper returns
    [success: True]. *)
Theorem refresh_flows_agree
        (w : refresh_world) (req : request) (db : Db.t)
        (u : User.t) (a : YouTubeAccount.t) :
  user req = Some u ->
  Db.get (account_of_user u) (Db.youtube_accounts db) = Db.Found a ->
  snd (refresh_youtube_token w req db) = snd (_refresh_youtube_token_internal w a db)
  /\ ((exists data, fst (refresh_youtube_token w req db) = JsonResponse data 200)
      <-> dict_lookup "success" (fst (fst (_refresh_youtube_token_internal w a db)))
          = Some (PBool true)).
Proof.
  intros Hu Hg. unfold refresh_youtube_token, _refresh_youtube_token_internal.
  rewrite Hu, Hg.
  assert (No : forall (x : response * Db.t) (y : pydict * option YouTubeAccount.t * Db.t),
             snd x = snd y ->
             (forall data, fst x <> JsonResponse data 200) ->
             dict_lookup "success" (fst (fst y)) <> Some (PBool true) ->
             snd x = snd y
             /\ ((exists data, fst x = JsonResponse data 200)
                 <-> dict_lookup "success" (fst (fst y)) = Some (PBool true))).
  { intros x y E H1 H2. split; [exact E | ]. split.
    - intros [data Hd]. now apply H1 in Hd.
    - intros H. now apply H2 in H. }
  destruct (str_empty _); [apply No; cbn; first [reflexivity | discriminate] | ].
  destruct (refresh_post w) as [tr|e];
    [ | apply No; cbn; first [reflexivity | discriminate]].
  destruct (contains "error" tr) as [[]|e];
    [ | | apply No; cbn; first [reflexivity | discriminate]].
  { destruct (get tr "error_description" PNone);
      apply No; cbn; first [reflexivity | discriminate]. }
  destruct (refresh_update w tr a db) as [[a' db']|e];
    [ | apply No; cbn; first [reflexivity | discriminate]].
  cbn. split; [reflexivity | ]. split; [reflexivity | eauto].
Qed.

Lemma refresh_flows_agree_witness :
  snd (refresh_youtube_token (Ejemplos.mundo_refresh Ejemplos.respuesta_ok)
                             Ejemplos.peticion_refresh Ejemplos.base)
  = snd (_refresh_youtube_token_internal (Ejemplos.mundo_refresh Ejemplos.respuesta_ok)
                                         (Ejemplos.cuenta (Some 5000)) Ejemplos.base).
Proof.
  exact (proj1 (refresh_flows_agree (Ejemplos.mundo_refresh Ejemplos.respuesta_ok)
                  Ejemplos.peticion_refresh Ejemplos.base Ejemplos.usuario
                  (Ejemplos.cuenta (Some 5000)) eq_refl eq_refl)).
Defined.

(** ** Channel statistics *)

(** The two ways [youtube_estadisticas] ends: without touching the
    database and with an answer other than 200, or with the counters of
    the channel stored on the account of the user. *)
Lemma youtube_estadisticas_inv (w : stats_world) (req : request) (db : Db.t) :
  (snd (youtube_estadisticas w req db) = db
   /\ forall data, fst (youtube_estadisticas w req db) <> Ok (JsonResponse data 200))
  \/ exists u old nombre foto s v vt,
      user req = Some u
      /\ Db.get (account_of_user u) (Db.youtube_accounts db) = Db.Found old
      /\ let a := YouTubeAccount.mk
                    (YouTubeAccount.id old) (YouTubeAccount.user old)
                    (YouTubeAccount.youtube_id old) (str nombre)
                    (YouTubeAccount.email old) foto
                    (YouTubeAccount.access_token old) (YouTubeAccount.refresh_token old)
                    (YouTubeAccount.token_expira old) s v vt
                    (YouTubeAccount.url_canal old) in
         youtube_estadisticas w req db
         = (Ok (JsonResponse
                  [("success", JV (PBool true));
                   ("suscriptores", JV (PInt s));
                   ("videos", JV (PInt v));
                   ("vistas", JV (PInt vt));
                   ("nombre_canal", JV nombre);
                   ("actualizado", JStrftime strftime_format (stats_ahora w));
                   ("token_expirado", JV (PBool false))] 200),
            save_account a db).
Proof.
  unfold youtube_estadisticas.
  destruct (user req) as [u|]; [ | left; split; [reflexivity | discriminate]].
  destruct (Db.get _ _) as [old| |] eqn:Hg;
    [ | left; split; [reflexivity | discriminate]..].
  destruct (negb _); [left; split; [reflexivity | discriminate] | ].
  cbv zeta.
  match goal with
  | |- context [match ?b with Ok _ => _ | Raise _ => _ end] =>
      destruct b as [[r db']|e] eqn:Hb
  end.
  2:{ left. destruct (is_timeout e); split; try reflexivity; discriminate. }
  bind_inv Hb.
  match type of Hb with
  | (if ?c then _ else _) = _ => destruct c
  end.
  { bind_inv Hb. inversion Hb; subst. left. split; [reflexivity | discriminate]. }
  bind_inv Hb.
  match type of Hb with
  | (if ?c then _ else _) = _ => destruct c
  end.
  2:{ inversion Hb; subst. left. split; [reflexivity | discriminate]. }
  bind_inv Hb.
  match type of Hb with
  | match ?x with Ok _ => _ | Raise _ => _ end = _ => destruct x as [[r' db'']|e] eqn:Hact
  end.
  2:{ destruct (caught_by_estadisticas e); [ | discriminate Hb].
      inversion Hb; subst. left. split; [reflexivity | discriminate]. }
  inversion Hb; subst; clear Hb.
  bind_inv Hact. inversion Hact; subst; clear Hact.
  right.
  match goal with
  | H : to_text ?n = Ok ?t |- context [("nombre_canal", JV ?n)] =>
      assert (Et : t = str n)
        by (unfold to_text in H; destruct n; inversion H; reflexivity)
  end.
  subst. cbn [fst snd]. do 7 eexists. split; [reflexivity | ].
  split; [exact Hg | ]. reflexivity.
Qed.

(** X14.  Refreshing the statistics never touches what identifies an
    account or gives access to it: with primary keys distinct, every
    account keeps its id, user, channel id, e-mail, tokens, expiry and
    channel URL, and the other tables are as they were.  Unless the answer
    is a 200 the whole database is as it was. *)
Theorem youtube_estadisticas_keeps_credentials
        (w : stats_world) (req : request) (db : Db.t) :
  NoDup (List.map YouTubeAccount.id (Db.youtube_accounts db)) ->
  List.map Spec.credentials (Db.youtube_accounts (snd (youtube_estadisticas w req db)))
  = List.map Spec.credentials (Db.youtube_accounts db)
  /\ Db.users (snd (youtube_estadisticas w req db)) = Db.users db
  /\ Db.videos_subidos (snd (youtube_estadisticas w req db)) = Db.videos_subidos db
  /\ Db.videos_guardados (snd (youtube_estadisticas w req db)) = Db.videos_guardados db
  /\ ((forall data, fst (youtube_estadisticas w req db) <> Ok (JsonResponse data 200)) ->
      snd (youtube_estadisticas w req db) = db).
Proof.
  intros Hnd.
  destruct (youtube_estadisticas_inv w req db)
    as [[E _] | (u & old & nombre & foto & s & v & vt & Hu & Hg & E)].
  - rewrite E. repeat split.
  - cbv zeta in E. rewrite E. cbn [fst snd].
    match goal with
    | |- context [save_account ?x db] =>
        destruct (save_account_other_tables x db) as (-> & -> & ->)
    end.
    split; [ | repeat split].
    + apply (save_account_keeps Spec.credentials old); try reflexivity; try assumption.
      now apply (get_found_in _ _ _ Hg).
    + intros H. exfalso. eapply H. reflexivity.
Qed.

Lemma youtube_estadisticas_keeps_credentials_witness :
  List.map Spec.credentials
    (Db.youtube_accounts
       (snd (youtube_estadisticas Ejemplos.mundo_estadisticas Ejemplos.peticion_refresh
                                  Ejemplos.base)))
  = List.map Spec.credentials (Db.youtube_accounts Ejemplos.base).
Proof.
  refine (proj1 (youtube_estadisticas_keeps_credentials Ejemplos.mundo_estadisticas
                   Ejemplos.peticion_refresh Ejemplos.base _)).
  cbn. repeat constructor. intros [].
Defined.

(** X15.  The counters a 200 shows are the counters stored: the account
    of the requesting user is in the table with the subscribers, videos
    and views of the answer. *)
Theorem youtube_estadisticas_stores_answer
        (w : stats_world) (req : request) (db : Db.t) (data : list (string * jval)) :
  fst (youtube_estadisticas w req db) = Ok (JsonResponse data 200) ->
  exists u a,
    user req = Some u
    /\ In a (Db.youtube_accounts (snd (youtube_estadisticas w req db)))
    /\ YouTubeAccount.user a = User.id u
    /\ In ("suscriptores", JV (PInt (YouTubeAccount.suscriptores a))) data
    /\ In ("videos", JV (PInt (YouTubeAccount.videos_publicados a))) data
    /\ In ("vistas", JV (PInt (YouTubeAccount.vistas_totales a))) data.
Proof.
  intros H.
  destruct (youtube_estadisticas_inv w req db)
    as [[_ E] | (u & old & nombre & foto & s & v & vt & Hu & Hg & E)].
  - now apply E in H.
  - cbv zeta in E. rewrite E in H |- *. cbn [fst snd] in H |- *.
    inversion H; subst; clear H.
    eexists u, _. split; [exact Hu | ]. split; [apply in_save_account | ].
    cbn. destruct (get_found_in _ _ _ Hg) as [_ Hp].
    unfold account_of_user in Hp. apply Z.eqb_eq in Hp.
    split; [exact Hp | ]. repeat split; cbn; tauto.
Qed.

Lemma youtube_estadisticas_stores_answer_witness :
  exists u a,
    user Ejemplos.peticion_refresh = Some u
    /\ In a (Db.youtube_accounts
               (snd (youtube_estadisticas Ejemplos.mundo_estadisticas
                                          Ejemplos.peticion_refresh Ejemplos.base)))
    /\ YouTubeAccount.user a = User.id u
    /\ In ("suscriptores", JV (PInt (YouTubeAccount.suscriptores a)))
          [("success", JV (PBool true)); ("suscriptores", JV (PInt 10));
           ("videos", JV (PInt 0)); ("vistas", JV (PInt 0));
           ("nombre_canal", JV (PStr "Canal"));
           ("actualizado", JStrftime strftime_format 100);
           ("token_expirado", JV (PBool false))]
    /\ In ("videos", JV (PInt (YouTubeAccount.videos_publicados a)))
          [("success", JV (PBool true)); ("suscriptores", JV (PInt 10));
           ("videos", JV (PInt 0)); ("vistas", JV (PInt 0));
           ("nombre_canal", JV (PStr "Canal"));
           ("actualizado", JStrftime strftime_format 100);
           ("token_expirado", JV (PBool false))]
    /\ In ("vistas", JV (PInt (YouTubeAccount.vistas_totales a)))
          [("success", JV (PBool true)); ("suscriptores", JV (PInt 10));
           ("videos", JV (PInt 0)); ("vistas", JV (PInt 0));
           ("nombre_canal", JV (PStr "Canal"));
           ("actualizado", JStrftime strftime_format 100);
           ("token_expirado", JV (PBool false))].
Proof.
  exact (youtube_estadisticas_stores_answer Ejemplos.mundo_estadisticas
           Ejemplos.peticion_refresh Ejemplos.base _ eq_refl).
Defined.

(** ** Unlinking *)

Lemma NoDup_map_filter {A B} (f : A -> B) (p : A -> bool) (l : list A) :
  NoDup (List.map f l) -> NoDup (List.map f (List.filter p l)).
Proof.
  induction l as [|x l IH]; [trivial | ]. cbn [List.map List.filter]. intros H.
  inversion H as [|? ? Hx Hl]; subst. destruct (p x); [ | now apply IH].
  cbn [List.map]. constructor; [ | now apply IH].
  intros Hin. apply Hx. apply in_map_iff in Hin as [y [E Hy]].
  apply filter_In in Hy as [Hy _]. rewrite <- E. now apply in_map.
Qed.

(** A one-to-one column admits at most one row per value. *)
Lemma get_one_to_one {A} (f : A -> Z) (k : Z) (rows : list A) :
  NoDup (List.map f rows) ->
  Db.get (fun r => f r =? k) rows <> Db.MultipleObjectsReturned.
Proof.
  intros Hnd. unfold Db.get.
  pose proof (NoDup_map_filter f (fun r => f r =? k) rows Hnd) as H.
  destruct (List.filter (fun r => f r =? k) rows) as [|x [|y l]] eqn:E;
    [discriminate.. | ].
  exfalso.
  assert (Hx : In x (List.filter (fun r => f r =? k) rows)) by (rewrite E; now left).
  assert (Hy : In y (List.filter (fun r => f r =? k) rows))
    by (rewrite E; right; now left).
  apply filter_In in Hx as [_ Hx]. apply filter_In in Hy as [_ Hy].
  apply Z.eqb_eq in Hx. apply Z.eqb_eq in Hy.
  cbn [List.map] in H. inversion H as [|? ? Hn _]; subst.
  apply Hn. left. congruence.
Qed.

Lemma filter_ext_in' {A} (p q : A -> bool) (l : list A) :
  (forall x, In x l -> p x = q x) -> List.filter p l = List.filter q l.
Proof.
  induction l as [|x l IH]; [reflexivity | ]. intros H. cbn.
  rewrite (H x (or_introl eq_refl)), IH; [reflexivity | ].
  intros y Hy. apply H. now right.
Qed.

Lemma delete_account_effect (u : User.t) (a : YouTubeAccount.t) (db : Db.t) :
  NoDup (List.map YouTubeAccount.id (Db.youtube_accounts db)) ->
  Db.get (account_of_user u) (Db.youtube_accounts db) = Db.Found a ->
  Db.youtube_accounts (delete_account a db)
  = List.filter (fun r => negb (account_of_user u r)) (Db.youtube_accounts db)
  /\ (forall j,
         In j (Db.videos_subidos (delete_account a db))
         <-> In j (Db.videos_subidos db)
             /\ forall r, In r (Db.youtube_accounts db) ->
                          account_of_user u r = true ->
                          VideoSubido.youtube_account j <> YouTubeAccount.id r)
  /\ Db.users (delete_account a db) = Db.users db
  /\ Db.videos_guardados (delete_account a db) = Db.videos_guardados db.
Proof.
  intros Hid Hg. pose proof (get_found _ _ _ Hg) as Hfil.
  destruct (get_found_in _ _ _ Hg) as [Hin Hp].
  assert (Honly : forall r, In r (Db.youtube_accounts db) ->
                            account_of_user u r = true -> r = a).
  { intros r Hr Hpr.
    assert (Hr' : In r (List.filter (account_of_user u) (Db.youtube_accounts db)))
      by (apply filter_In; now split).
    rewrite Hfil in Hr'. now destruct Hr' as [<- | []]. }
  unfold delete_account. cbn. split; [ | split; [ | split; reflexivity]].
  - apply filter_ext_in'. intros r Hr. f_equal. unfold same_account.
    destruct (account_of_user u r) eqn:Hpr.
    + rewrite (Honly r Hr Hpr). apply Z.eqb_refl.
    + apply Z.eqb_neq. intros E.
      assert (r = a) by (apply (NoDup_map_eq YouTubeAccount.id _ _ _ Hid Hr Hin E)).
      congruence.
  - intros j. split.
    + intros Hj. apply filter_In in Hj as [Hj Hne]. split; [exact Hj | ].
      intros r Hr Hpr. apply negb_true_iff, Z.eqb_neq in Hne.
      now rewrite (Honly r Hr Hpr).
    + intros [Hj Hall]. apply filter_In. split; [exact Hj | ].
      apply negb_true_iff, Z.eqb_neq. now apply Hall.
Qed.

(** X16.  Unlinking always goes through when the database is within its
    constraints and the deletion itself does not fail, whether or not
    Google could be told to revoke the token.  The user is logged out and
    sent to the start page; of the accounts exactly the one of the user is
    gone, and with it the uploads made through it; users and saved videos
    stay. *)
Theorem youtube_logout_unlinks
        (w : logout_world) (req : request) (db : Db.t) (u : User.t) :
  Spec.consistent db ->
  user req = Some u ->
  delete_fault w = None ->
  logout_response (youtube_logout w req db) = Ok (Redirect "inicio")
  /\ logout_called (youtube_logout w req db) = true
  /\ Db.youtube_accounts (logout_db (youtube_logout w req db))
     = List.filter (fun a => negb (account_of_user u a)) (Db.youtube_accounts db)
  /\ (forall j,
         In j (Db.videos_subidos (logout_db (youtube_logout w req db)))
         <-> In j (Db.videos_subidos db)
             /\ forall a, In a (Db.youtube_accounts db) ->
                          account_of_user u a = true ->
                          VideoSubido.youtube_account j <> YouTubeAccount.id a)
  /\ Db.users (logout_db (youtube_logout w req db)) = Db.users db
  /\ Db.videos_guardados (logout_db (youtube_logout w req db)) = Db.videos_guardados db.
Proof.
  intros (_ & _ & Hid & _ & Hus) Hu Hf. unfold youtube_logout. rewrite Hu, Hf.
  pose proof (get_one_to_one YouTubeAccount.user (User.id u) _ Hus) as Hone.
  change (fun r => YouTubeAccount.user r =? User.id u) with (account_of_user u) in Hone.
  destruct (Db.get (account_of_user u) (Db.youtube_accounts db)) as [a| |] eqn:Hg;
    [ | | congruence].
  - assert (E : bind (try_pass (revoke_post w)) (fun _ => check None) = Ok tt)
      by now destruct (revoke_post w).
    rewrite E. cbn [logout_response logout_called logout_db].
    split; [reflexivity | ]. split; [reflexivity | ].
    now apply delete_account_effect.
  - cbn [logout_response logout_called logout_db].
    assert (Hnone : forall r, In r (Db.youtube_accounts db) -> account_of_user u r = false).
    { intros r Hr. destruct (account_of_user u r) eqn:Hp; [ | reflexivity].
      unfold Db.get in Hg.
      assert (Hr' : In r (List.filter (account_of_user u) (Db.youtube_accounts db)))
        by (apply filter_In; now split).
      destruct (List.filter _ _) as [|x [|y l]]; [destruct Hr' | discriminate..]. }
    split; [reflexivity | ]. split; [reflexivity | ].
    split; [ | split; [ | split; reflexivity]].
    + symmetry. apply filter_all. intros r Hr. now rewrite (Hnone r Hr).
    + intros j. split; [ | tauto]. intros Hj. split; [exact Hj | ].
      intros r Hr Hp. rewrite (Hnone r Hr) in Hp. discriminate Hp.
Qed.

Lemma consistent_base_completa : Spec.consistent Ejemplos.base_completa.
Proof.
  unfold Spec.consistent. cbn.
  repeat split; repeat constructor; intros [].
Qed.

Lemma youtube_logout_unlinks_witness :
  logout_response (youtube_logout Ejemplos.mundo_logout Ejemplos.peticion_refresh
                                  Ejemplos.base_completa)
  = Ok (Redirect "inicio")
  /\ Db.youtube_accounts
       (logout_db (youtube_logout Ejemplos.mundo_logout Ejemplos.peticion_refresh
                                  Ejemplos.base_completa))
     = List.filter (fun a => negb (account_of_user Ejemplos.usuario a))
                   (Db.youtube_accounts Ejemplos.base_completa).
Proof.
  destruct (youtube_logout_unlinks Ejemplos.mundo_logout Ejemplos.peticion_refresh
              Ejemplos.base_completa Ejemplos.usuario consistent_base_completa
              eq_refl eq_refl) as (H1 & _ & H3 & _).
  split; [exact H1 | exact H3].
Defined.

(** ** Uploads *)

Lemma in_save_video (j : VideoSubido.t) (db : Db.t) :
  In j (Db.videos_subidos (save_video j db)).
Proof.
  unfold save_video.
  destruct (Db.exists_ (same_video j) (Db.videos_subidos db)) eqn:He; cbn.
  - unfold Db.exists_ in He. apply existsb_exists in He as [r [Hr Hs]].
    unfold Db.update. apply in_map_iff. exists r. now rewrite Hs.
  - apply in_or_app. right. now left.
Qed.

Lemma create_video_subido_inv (f : fault) (req : request) (a : YouTubeAccount.t)
      (video_file : UploadedFile) (db db1 : Db.t) (j : VideoSubido.t) :
  create_video_subido f req a video_file db = Ok (j, db1) ->
  db1 = Db.set_videos_subidos (Db.videos_subidos db ++ [j]) db
  /\ VideoSubido.estado j = "pending"
  /\ VideoSubido.archivo_path j = name video_file
  /\ VideoSubido.youtube_account j = YouTubeAccount.id a.
Proof.
  unfold create_video_subido. intros H. bind_inv H.
  destruct (Db.exists_ _ _) in H; [discriminate H | ].
  inversion H; subst. now cbn.
Qed.

(** X17.  The upload form and the AJAX endpoint do the same work.  For a
    POST of a user whose account holds a valid token, in the same
    environment, both leave the same database and start the same upload
    thread; the form redirects to the state page of a video exactly when
    the endpoint answers 200 for that video, and one lets an exception
    out exactly when the other does. *)
Theorem form_and_ajax_agree
        (w : ajax_world) (req : request) (db : Db.t)
        (u : User.t) (a : YouTubeAccount.t) :
  user req = Some u ->
  method req = "POST" ->
  Db.get (account_of_user u) (Db.youtube_accounts db) = Db.Found a ->
  YouTubeAccount.esta_autenticado (ajax_now w) a = true ->
  form_db (_procesar_subida_video w req a db) = ajax_db (procesar_subida_ajax w req db)
  /\ form_thread (_procesar_subida_video w req a db)
     = ajax_thread (procesar_subida_ajax w req db)
  /\ (forall id,
         form_response (_procesar_subida_video w req a db)
         = Ok (RedirectTo "estado_subida" id)
         <-> exists estado,
             ajax_response (procesar_subida_ajax w req db)
             = Ok (JsonResponse [("success", JV (PBool true));
                                 ("video_id", JV (PInt id));
                                 ("message", Str "Video en cola para subida");
                                 ("estado", Str estado)] 200))
  /\ (forall e,
         form_response (_procesar_subida_video w req a db) = Raise e
         <-> ajax_response (procesar_subida_ajax w req db) = Raise e).
Proof.
  intros Hu Hm Hg Ha. unfold _procesar_subida_video, procesar_subida_ajax, user_id_str.
  rewrite Hu, Hm, Hg, Ha. change (negb ("POST" =? "POST")%string) with false.
  cbn [negb].
  assert (No : forall (p : page) (r : response) (d : Db.t),
             (forall id, p <> RedirectTo "estado_subida" id) ->
             (forall data, r <> JsonResponse data 200) ->
             form_db (mkFormResult (Ok p) d None) = ajax_db (mkAjaxResult (Ok r) d None)
             /\ form_thread (mkFormResult (Ok p) d None)
                = ajax_thread (mkAjaxResult (Ok r) d None)
             /\ (forall id,
                    form_response (mkFormResult (Ok p) d None)
                    = Ok (RedirectTo "estado_subida" id)
                    <-> exists estado,
                        ajax_response (mkAjaxResult (Ok r) d None)
                        = Ok (JsonResponse [("success", JV (PBool true));
                                            ("video_id", JV (PInt id));
                                            ("message", Str "Video en cola para subida");
                                            ("estado", Str estado)] 200))
             /\ (forall e,
                    form_response (mkFormResult (Ok p) d None) = Raise e
                    <-> ajax_response (mkAjaxResult (Ok r) d None) = Raise e)).
  { intros p r d Hp Hr. cbn. repeat split; try discriminate.
    - intros H. inversion H as [E]. now apply Hp in E.
    - intros [estado H]. inversion H as [E]. now apply Hr in E. }
  assert (Ex : forall (e : exn) (d : Db.t),
             form_db (mkFormResult (Raise e) d None) = ajax_db (mkAjaxResult (Raise e) d None)
             /\ form_thread (mkFormResult (Raise e) d None)
                = ajax_thread (mkAjaxResult (Raise e) d None)
             /\ (forall id,
                    form_response (mkFormResult (Raise e) d None)
                    = Ok (RedirectTo "estado_subida" id)
                    <-> exists estado,
                        ajax_response (mkAjaxResult (Raise e) d None)
                        = Ok (JsonResponse [("success", JV (PBool true));
                                            ("video_id", JV (PInt id));
                                            ("message", Str "Video en cola para subida");
                                            ("estado", Str estado)] 200))
             /\ (forall e',
                    form_response (mkFormResult (Raise e) d None) = Raise e'
                    <-> ajax_response (mkAjaxResult (Raise e) d None) = Raise e')).
  { intros e d. cbn. repeat split; try discriminate.
    - intros [estado H]. discriminate H.
    - intros H. now injection H as ->.
    - intros H. now injection H as ->. }
  destruct (files_get "video_file" (FILES req)) as [video_file|];
    [ | apply No; discriminate].
  destruct (negb (_validar_archivo_video video_file)); [apply No; discriminate | ].
  destruct (create_video_subido _ _ _ _ _) as [[j db1]|e]; [ | apply Ex].
  destruct (check (makedirs_fault w)); [ | apply Ex].
  destruct (check (write_fault w)); [ | apply Ex].
  destruct (check (save_fault w)); [ | apply Ex].
  cbn. repeat split; try discriminate.
  - intros H. inversion H; subst. eauto.
  - intros [estado H]. inversion H; subst. reflexivity.
Qed.

Lemma form_and_ajax_agree_witness :
  form_db (_procesar_subida_video Ejemplos.mundo_ajax Ejemplos.peticion_subida_mp4
                                  (Ejemplos.cuenta (Some 5000)) Ejemplos.base)
  = ajax_db (procesar_subida_ajax Ejemplos.mundo_ajax Ejemplos.peticion_subida_mp4
                                  Ejemplos.base)
  /\ form_thread (_procesar_subida_video Ejemplos.mundo_ajax Ejemplos.peticion_subida_mp4
                                         (Ejemplos.cuenta (Some 5000)) Ejemplos.base)
     = ajax_thread (procesar_subida_ajax Ejemplos.mundo_ajax Ejemplos.peticion_subida_mp4
                                         Ejemplos.base).
Proof.
  destruct (form_and_ajax_agree Ejemplos.mundo_ajax Ejemplos.peticion_subida_mp4
              Ejemplos.base Ejemplos.usuario (Ejemplos.cuenta (Some 5000))
              eq_refl eq_refl eq_refl eq_refl) as (H1 & H2 & _).
  split; [exact H1 | exact H2].
Defined.

(** X18.  What the AJAX endpoint leaves behind.  An upload thread is
    started only together with a 200, for a row that is stored; any other
    answer leaves the database as it was; and when the view lets an
    exception out no thread is started, and the database is as it was or
    holds one more row, still [pending] and with the bare file name as its
    path: the upload record outlives a failure to store the file. *)
Theorem procesar_subida_ajax_effects
        (w : ajax_world) (req : request) (db : Db.t) :
  (forall j tok,
      ajax_thread (procesar_subida_ajax w req db) = Some (j, tok) ->
      (exists data, ajax_response (procesar_subida_ajax w req db)
                    = Ok (JsonResponse data 200))
      /\ In j (Db.videos_subidos (ajax_db (procesar_subida_ajax w req db)))
      /\ VideoSubido.estado j = "pending")
  /\ (forall r,
         ajax_response (procesar_subida_ajax w req db) = Ok r ->
         (forall data, r <> JsonResponse data 200) ->
         ajax_db (procesar_subida_ajax w req db) = db
         /\ ajax_thread (procesar_subida_ajax w req db) = None)
  /\ (forall e,
         ajax_response (procesar_subida_ajax w req db) = Raise e ->
         ajax_thread (procesar_subida_ajax w req db) = None
         /\ (ajax_db (procesar_subida_ajax w req db) = db
             \/ exists j video_file,
                 files_get "video_file" (FILES req) = Some video_file
                 /\ ajax_db (procesar_subida_ajax w req db)
                    = Db.set_videos_subidos (Db.videos_subidos db ++ [j]) db
                 /\ VideoSubido.estado j = "pending"
                 /\ VideoSubido.archivo_path j = name video_file)).
Proof.
  unfold procesar_subida_ajax.
  assert (Stop : forall (r : response),
             (forall data, r <> JsonResponse data 200) ->
             let x := mkAjaxResult (Ok r) db None in
             (forall j tok,
                 ajax_thread x = Some (j, tok) ->
                 (exists data, ajax_response x = Ok (JsonResponse data 200))
                 /\ In j (Db.videos_subidos (ajax_db x))
                 /\ VideoSubido.estado j = "pending")
             /\ (forall r',
                    ajax_response x = Ok r' ->
                    (forall data, r' <> JsonResponse data 200) ->
                    ajax_db x = db /\ ajax_thread x = None)
             /\ (forall e,
                    ajax_response x = Raise e ->
                    ajax_thread x = None
                    /\ (ajax_db x = db
                        \/ exists j video_file,
                            files_get "video_file" (FILES req) = Some video_file
                            /\ ajax_db x
                               = Db.set_videos_subidos (Db.videos_subidos db ++ [j]) db
                            /\ VideoSubido.estado j = "pending"
                            /\ VideoSubido.archivo_path j = name video_file))).
  { intros r Hr. cbn. repeat split; try discriminate. }
  destruct (user req) as [u|]; [ | apply Stop; discriminate].
  destruct (negb _); [apply Stop; discriminate | ].
  destruct (Db.get _ _) as [a| |]; [ | apply Stop; discriminate | ].
  2:{ cbn. repeat split; try discriminate. now left. }
  destruct (negb _); [apply Stop; discriminate | ].
  destruct (files_get "video_file" (FILES req)) as [video_file|] eqn:Hf;
    [ | apply Stop; discriminate].
  destruct (negb _); [apply Stop; discriminate | ].
  destruct (create_video_subido _ _ _ _ _) as [[j db1]|e] eqn:Hc.
  2:{ cbn. repeat split; try discriminate. now left. }
  apply create_video_subido_inv in Hc as (-> & He & Hp & _).
  assert (Orphan : forall e0,
             let x := mkAjaxResult (Raise e0)
                        (Db.set_videos_subidos (Db.videos_subidos db ++ [j]) db) None in
             (forall j' tok,
                 ajax_thread x = Some (j', tok) ->
                 (exists data, ajax_response x = Ok (JsonResponse data 200))
                 /\ In j' (Db.videos_subidos (ajax_db x))
                 /\ VideoSubido.estado j' = "pending")
             /\ (forall r',
                    ajax_response x = Ok r' ->
                    (forall data, r' <> JsonResponse data 200) ->
                    ajax_db x = db /\ ajax_thread x = None)
             /\ (forall e,
                    ajax_response x = Raise e ->
                    ajax_thread x = None
                    /\ (ajax_db x = db
                        \/ exists j' video_file',
                            Some video_file = Some video_file'
                            /\ ajax_db x
                               = Db.set_videos_subidos (Db.videos_subidos db ++ [j']) db
                            /\ VideoSubido.estado j' = "pending"
                            /\ VideoSubido.archivo_path j' = name video_file'))).
  { intros e0. cbn. repeat split; try discriminate.
    right. exists j, video_file. now repeat split. }
  destruct (check (makedirs_fault w)); [ | apply Orphan].
  destruct (check (write_fault w)); [ | apply Orphan].
  destruct (check (save_fault w)); [ | apply Orphan].
  cbn [ajax_response ajax_db ajax_thread]. repeat split; try discriminate.
  - eauto.
  - injection H as <- _. apply in_save_video.
  - injection H as <- _. exact He.
  - exfalso. injection H as <-. eapply H0. reflexivity.
  - exfalso. injection H as <-. eapply H0. reflexivity.
Qed.

(** *** The polling loop *)

Lemma poll_still_processing (w : upload_world) (n i : nat) (st : upload_state) :
  (forall k, (i <= k < i + n)%nat ->
             exists s, bind (list_execute w k) upload_status = Ok s
                       /\ eq_str s "processed" = false
                       /\ eq_str s "failed" = false) ->
  poll w n i st = (Ok tt, st).
Proof.
  revert i. induction n as [|n IH]; intros i H; [reflexivity | ].
  rewrite poll_S.
  destruct (H i ltac:(lia)) as (s & Hs & H1 & H2).
  destruct (list_execute w i) as [video_response|e]; [ | discriminate Hs].
  cbn [bind] in Hs. rewrite Hs, H1, H2.
  apply IH. intros k Hk. apply H. lia.
Qed.

(** X19.  The background upload gives up waiting after thirty polls.  When
    the upload itself goes through and none of the thirty status requests
    reports [processed] or [failed], the run ends without an exception,
    the end time is set, and the row stays [processing]: it was saved three
    times, as [uploading], [processing] and [processing] again. *)
Theorem subir_video_gives_up_waiting
        (w : upload_world) (access_token : string) (j : VideoSubido.t) (db : Db.t)
        (response id : pyval) :
  save_uploading w = None ->
  client_setup w = None ->
  insert_execute w = Ok response ->
  getitem response "id" = Ok id ->
  save_processing w = None ->
  (forall k, (k < 30)%nat ->
             exists s, bind (list_execute w k) upload_status = Ok s
                       /\ eq_str s "processed" = false
                       /\ eq_str s "failed" = false) ->
  save_final w = None ->
  fst (run_upload w access_token j db) = Ok tt
  /\ VideoSubido.estado (video_subido (snd (run_upload w access_token j db)))
     = "processing"
  /\ VideoSubido.fin_subida (video_subido (snd (run_upload w access_token j db)))
     = Some (now_fin w)
  /\ VideoSubido.youtube_video_id (video_subido (snd (run_upload w access_token j db)))
     = id
  /\ guardados (snd (run_upload w access_token j db))
     = ["uploading"; "processing"; "processing"]
  /\ In (video_subido (snd (run_upload w access_token j db)))
        (Db.videos_subidos (upload_db (snd (run_upload w access_token j db)))).
Proof.
  intros H1 H2 H3 H4 H5 Hpoll H6.
  assert (E : exists db',
             run_upload w access_token j db
             = (Ok tt,
                mkUploadState
                  (VideoSubido.set_fin_subida (now_fin w)
                     (VideoSubido.set_estado "processing"
                        (VideoSubido.set_youtube_video_id id
                           (VideoSubido.set_inicio_subida (now_inicio w)
                              (VideoSubido.set_estado "uploading" j)))))
                  (save_video
                     (VideoSubido.set_fin_subida (now_fin w)
                        (VideoSubido.set_estado "processing"
                           (VideoSubido.set_youtube_video_id id
                              (VideoSubido.set_inicio_subida (now_inicio w)
                                 (VideoSubido.set_estado "uploading" j)))))
                     db')
                  ["uploading"; "processing"]
                  ["uploading"; "processing"; "processing"])).
  { unfold run_upload, _subir_video_youtube, try_except, subir_try.
    unfold seq at 1. unfold assign_estado at 1. cbv beta;
      cbn [video_subido upload_db asignados guardados List.app
           VideoSubido.estado VideoSubido.set_estado VideoSubido.set_inicio_subida
           VideoSubido.set_youtube_video_id VideoSubido.set_fin_subida].
    unfold seq at 1. unfold modify at 1. cbv beta;
      cbn [video_subido upload_db asignados guardados List.app
           VideoSubido.estado VideoSubido.set_estado VideoSubido.set_inicio_subida
           VideoSubido.set_youtube_video_id VideoSubido.set_fin_subida].
    rewrite seq_save, H1. cbv beta;
      cbn [video_subido upload_db asignados guardados List.app
           VideoSubido.estado VideoSubido.set_estado VideoSubido.set_inicio_subida
           VideoSubido.set_youtube_video_id VideoSubido.set_fin_subida].
    rewrite seq_lift, H2. cbn [check].
    rewrite seq_lift, H3.
    rewrite seq_lift, H4.
    unfold seq at 1. unfold modify at 1. cbv beta;
      cbn [video_subido upload_db asignados guardados List.app
           VideoSubido.estado VideoSubido.set_estado VideoSubido.set_inicio_subida
           VideoSubido.set_youtube_video_id VideoSubido.set_fin_subida].
    unfold seq at 1. unfold assign_estado at 1. cbv beta;
      cbn [video_subido upload_db asignados guardados List.app
           VideoSubido.estado VideoSubido.set_estado VideoSubido.set_inicio_subida
           VideoSubido.set_youtube_video_id VideoSubido.set_fin_subida].
    rewrite seq_save, H5. cbv beta;
      cbn [video_subido upload_db asignados guardados List.app
           VideoSubido.estado VideoSubido.set_estado VideoSubido.set_inicio_subida
           VideoSubido.set_youtube_video_id VideoSubido.set_fin_subida].
    rewrite seq_poll, poll_still_processing by (intros k Hk; apply Hpoll; lia).
    unfold seq at 1. unfold modify at 1. cbv beta;
      cbn [video_subido upload_db asignados guardados List.app
           VideoSubido.estado VideoSubido.set_estado VideoSubido.set_inicio_subida
           VideoSubido.set_youtube_video_id VideoSubido.set_fin_subida].
    unfold save. rewrite H6. cbv beta;
      cbn [video_subido upload_db asignados guardados List.app
           VideoSubido.estado VideoSubido.set_estado VideoSubido.set_inicio_subida
           VideoSubido.set_youtube_video_id VideoSubido.set_fin_subida].
    eexists. reflexivity. }
  destruct E as [db' E]. rewrite E. cbn [fst snd video_subido upload_db guardados].
  repeat split. apply in_save_video.
Qed.

Lemma subir_video_gives_up_waiting_witness :
  fst (run_upload Ejemplos.mundo_subida_lenta "tok" Ejemplos.video_pendiente
                  Ejemplos.base_completa) = Ok tt
  /\ VideoSubido.estado
       (video_subido (snd (run_upload Ejemplos.mundo_subida_lenta "tok"
                                      Ejemplos.video_pendiente Ejemplos.base_completa)))
     = "processing".
Proof.
  destruct (subir_video_gives_up_waiting Ejemplos.mundo_subida_lenta "tok"
              Ejemplos.video_pendiente Ejemplos.base_completa
              (PDict [("id", PStr "abc123")]) (PStr "abc123")
              eq_refl eq_refl eq_refl eq_refl eq_refl
              (fun k _ => ex_intro _ (PStr "uploaded") (conj eq_refl (conj eq_refl eq_refl)))
              eq_refl) as (H1 & H2 & _).
  split; [exact H1 | exact H2].
Defined.

(** ** Categories of the upload form *)

Lemma categoria_de_for (item : pyval) :
  match Spec.category_for item with
  | Some c => categoria_de item = Ok c
  | None => exists e, categoria_de item = Raise e
  end.
Proof.
  unfold categoria_de, Spec.category_for.
  destruct item as [ | | | | |fields]; [eexists; reflexivity.. | ].
  cbn [getitem]. destruct (dict_lookup "id" fields) as [id|];
    [ | eexists; reflexivity].
  cbn [bind]. destruct (dict_lookup "snippet" fields) as [snippet|];
    [ | eexists; reflexivity].
  cbn [bind].
  destruct snippet as [ | | | | |sn]; [eexists; reflexivity.. | ].
  cbn [get bind]. unfold dict_get_default, categoria.
  now destruct (dict_lookup "title" sn).
Qed.

Lemma categorias_de_for (items : list pyval) :
  match Spec.categories_for items with
  | Some cs => categorias_de items = Ok cs
  | None => exists e, categorias_de items = Raise e
  end.
Proof.
  induction items as [|item items IH]; [reflexivity | ].
  cbn [Spec.categories_for categorias_de].
  pose proof (categoria_de_for item) as Hi.
  destruct (Spec.category_for item) as [c|].
  - rewrite Hi. cbn [bind].
    destruct (Spec.categories_for items) as [cs|].
    + now rewrite IH.
    + destruct IH as [e ->]. now exists e.
  - destruct Hi as [e ->]. now exists e.
Qed.

(** X20.  The categories offered by the upload form, for every answer of
    the categories endpoint that is a dictionary.  Without [items] the
    result is the empty list.  With a list under [items] whose every entry
    has an [id] and a dictionary under [snippet], the result has one
    category per entry, in the order of the answer: the entry's id with
    the title of its snippet, or with [Categoría <id>] when the snippet
    has no title.  When an entry lacks either, nothing of the list is
    kept: the result is the four default categories, as it is when the
    request raises. *)
Theorem obtener_categorias_all_or_default (api : res pyval) :
  (forall d, api = Ok (PDict d) -> dict_lookup "items" d = None ->
             _obtener_categorias_youtube api = [])
  /\ (forall d items,
         api = Ok (PDict d) -> dict_lookup "items" d = Some (PList items) ->
         match Spec.categories_for items with
         | Some cs => _obtener_categorias_youtube api = cs
         | None => _obtener_categorias_youtube api = categorias_por_defecto
         end)
  /\ (forall e, api = Raise e ->
                _obtener_categorias_youtube api = categorias_por_defecto).
Proof.
  unfold _obtener_categorias_youtube. split; [ | split].
  - intros d -> Hd. cbn [bind contains]. unfold dict_has. now rewrite Hd.
  - intros d items -> Hd. cbn [bind contains getitem]. unfold dict_has.
    rewrite Hd. cbn [bind iter].
    pose proof (categorias_de_for items) as H.
    destruct (Spec.categories_for items) as [cs|].
    + now rewrite H.
    + destruct H as [e ->]. reflexivity.
  - intros e ->. reflexivity.
Qed.

Lemma obtener_categorias_all_or_default_witness :
  _obtener_categorias_youtube (Ok Ejemplos.categorias_ok)
  = [PDict [("id", PStr "1"); ("title", PStr "Film")];
     PDict [("id", PStr "2"); ("title", PStr ("Categor" ++ i_acute ++ "a 2"))]]
  /\ _obtener_categorias_youtube (Ok (PDict [("kind", PStr "youtube#list")])) = []
  /\ _obtener_categorias_youtube
       (Ok (PDict [("items", PList [PDict [("id", PStr "1");
                                           ("snippet", PDict [("title", PStr "Film")])];
                                    PDict [("id", PStr "2")]])]))
     = categorias_por_defecto.
Proof.
  split; [ | split].
  - exact (proj1 (proj2 (obtener_categorias_all_or_default (Ok Ejemplos.categorias_ok)))
                 _ _ eq_refl eq_refl).
  - exact (proj1 (obtener_categorias_all_or_default
                    (Ok (PDict [("kind", PStr "youtube#list")])))
                 _ eq_refl eq_refl).
  - exact (proj1 (proj2 (obtener_categorias_all_or_default
                           (Ok (PDict [("items",
                                        PList [PDict [("id", PStr "1");
                                                      ("snippet",
                                                       PDict [("title", PStr "Film")])];
                                               PDict [("id", PStr "2")]])]))))
                 _ _ eq_refl eq_refl).
Defined.

(** ** The personal library *)

Lemma in_save_manager (m : VideoManager.t) (lib : Biblioteca.t) :
  In m (Biblioteca.managers (save_manager m lib))
  /\ Biblioteca.videos (save_manager m lib) = Biblioteca.videos lib.
Proof.
  unfold save_manager.
  destruct (Db.exists_ (same_manager m) (Biblioteca.managers lib)) eqn:He; cbn.
  - split; [ | reflexivity].
    unfold Db.exists_ in He. apply existsb_exists in He as [r [Hr Hs]].
    unfold Db.update. apply in_map_iff. exists r. now rewrite Hs.
  - split; [ | reflexivity]. apply in_or_app. right. now left.
Qed.

Lemma get_or_create_manager_inv (f : fault) (video : Video.t) (u : User.t)
      (lib lib1 : Biblioteca.t) (m : VideoManager.t) :
  get_or_create_manager f video u lib = Ok (m, lib1) ->
  manager_of video u m = true
  /\ Biblioteca.videos lib1 = Biblioteca.videos lib
  /\ (Db.get (manager_of video u) (Biblioteca.managers lib) = Db.Found m
      \/ (Db.get (manager_of video u) (Biblioteca.managers lib) = Db.DoesNotExist
          /\ VideoManager.favorito m = false
          /\ VideoManager.notas m = EmptyString)).
Proof.
  unfold get_or_create_manager. intros H.
  destruct (Db.get _ _) as [m0| |] eqn:Hg; [ | | discriminate H].
  - inversion H; subst. split; [now apply (get_found_in _ _ _ Hg) | ].
    split; [reflexivity | now left].
  - bind_inv H. destruct (Db.exists_ _ _) in H; [discriminate H | ].
    inversion H; subst. cbn. split.
    + unfold manager_of. cbn. now rewrite !Z.eqb_refl.
    + split; [reflexivity | right; now repeat split].
Qed.

(** What a toggle that answered 200 did. *)
Lemma toggle_favorito_video_inv (w : library_world) (req : request) (video_id : Z)
      (lib lib1 : Biblioteca.t) (data : list (string * jval)) :
  toggle_favorito_video w req video_id lib = (Ok (JsonResponse data 200), lib1) ->
  exists u video m,
    user req = Some u
    /\ Db.get (owned_video video_id u) (Biblioteca.videos lib) = Db.Found video
    /\ manager_of video u m = true
    /\ (Db.get (manager_of video u) (Biblioteca.managers lib) = Db.Found m
        \/ (Db.get (manager_of video u) (Biblioteca.managers lib) = Db.DoesNotExist
            /\ VideoManager.favorito m = false
            /\ VideoManager.notas m = EmptyString))
    /\ In (VideoManager.set_favorito (negb (VideoManager.favorito m)) m)
          (Biblioteca.managers lib1)
    /\ Biblioteca.videos lib1 = Biblioteca.videos lib
    /\ In ("favorito", JV (PBool (negb (VideoManager.favorito m)))) data
    /\ forall b, In ("favorito", JV (PBool b)) data -> b = negb (VideoManager.favorito m).
Proof.
  unfold toggle_favorito_video. intros H.
  destruct (user req) as [u|] eqn:Hu; [ | discriminate H].
  destruct (Db.get _ _) as [video| |] eqn:Hg; [ | discriminate H..].
  destruct (get_or_create_manager _ _ _ _) as [[m lib0]|e] eqn:Hm; [ | discriminate H].
  destruct (check (manager_save_fault w)); [ | discriminate H].
  inversion H; subst; clear H.
  apply get_or_create_manager_inv in Hm as (Hp & Hv & Hcase).
  exists u, video, m. split; [reflexivity | ]. split; [exact Hg | ].
  split; [exact Hp | ]. split; [exact Hcase | ].
  destruct (in_save_manager
              (VideoManager.set_favorito (negb (VideoManager.favorito m)) m) lib0)
    as [Hin Hvid].
  split; [exact Hin | ]. split; [now rewrite Hvid | ].
  split; [cbn; tauto | ].
  intros b Hb. cbn in Hb.
  destruct Hb as [Hb | [Hb | [Hb | []]]]; try discriminate Hb.
  now injection Hb as <-.
Qed.

(** X21.  Two toggles in a row undo each other: when both are answered
    200, the second reports the opposite flag of the first, and the first
    reported the opposite of what was stored ([False] when the video had
    no manager yet). *)
Theorem toggle_favorito_video_twice
        (w w' : library_world) (req : request) (video_id : Z)
        (lib lib1 lib2 : Biblioteca.t) (data data' : list (string * jval))
        (b b' : bool) :
  toggle_favorito_video w req video_id lib = (Ok (JsonResponse data 200), lib1) ->
  toggle_favorito_video w' req video_id lib1 = (Ok (JsonResponse data' 200), lib2) ->
  In ("favorito", JV (PBool b)) data ->
  In ("favorito", JV (PBool b')) data' ->
  b' = negb b
  /\ exists u video,
      user req = Some u
      /\ Db.get (owned_video video_id u) (Biblioteca.videos lib) = Db.Found video
      /\ match Db.get (manager_of video u) (Biblioteca.managers lib) with
         | Db.Found m => b' = VideoManager.favorito m
         | _ => b' = false
         end.
Proof.
  intros H1 H2 Hb Hb'.
  apply toggle_favorito_video_inv in H1
    as (u & video & m & Hu & Hv & Hp & Hcase & Hin & Hvid & _ & Hd).
  apply toggle_favorito_video_inv in H2
    as (u' & video' & m' & Hu' & Hv' & Hp' & Hcase' & _ & _ & _ & Hd').
  rewrite Hu in Hu'. injection Hu' as <-.
  rewrite Hvid, Hv in Hv'. injection Hv' as <-.
  apply Hd in Hb. apply Hd' in Hb'. subst b b'.
  (* the manager the second call finds is the one the first call saved *)
  assert (Em : m' = VideoManager.set_favorito (negb (VideoManager.favorito m)) m).
  { assert (Hf : In (VideoManager.set_favorito (negb (VideoManager.favorito m)) m)
                    (List.filter (manager_of video u) (Biblioteca.managers lib1))).
    { apply filter_In. split; [exact Hin | exact Hp]. }
    destruct Hcase' as [Hg | [Hg _]].
    - rewrite (get_found _ _ _ Hg) in Hf. now destruct Hf as [<- | []].
    - unfold Db.get in Hg.
      destruct (List.filter _ _) as [|x [|y l]]; [destruct Hf | discriminate..]. }
  subst m'. cbn [VideoManager.favorito VideoManager.set_favorito].
  split; [reflexivity | ]. exists u, video. split; [exact Hu | ]. split; [exact Hv | ].
  rewrite negb_involutive.
  destruct Hcase as [-> | (-> & Hf & _)]; [reflexivity | exact Hf].
Qed.

Lemma toggle_favorito_video_twice_witness :
  false = negb true
  /\ exists u video,
      user Ejemplos.peticion_refresh = Some u
      /\ Db.get (owned_video 1 u) (Biblioteca.videos Ejemplos.biblioteca) = Db.Found video
      /\ match Db.get (manager_of video u) (Biblioteca.managers Ejemplos.biblioteca) with
         | Db.Found m => false = VideoManager.favorito m
         | _ => false = false
         end.
Proof.
  refine (toggle_favorito_video_twice Ejemplos.mundo_biblioteca Ejemplos.mundo_biblioteca
            Ejemplos.peticion_refresh 1 Ejemplos.biblioteca _ _ _ _ true false
            eq_refl eq_refl _ _); cbn; tauto.
Defined.

(** What saving notes that answered 200 did. *)
Lemma guardar_notas_video_inv (w : library_world) (req : request) (video_id : Z)
      (lib lib1 : Biblioteca.t) (data : list (string * jval)) :
  guardar_notas_video w req video_id lib = (Ok (JsonResponse data 200), lib1) ->
  exists u video m,
    user req = Some u
    /\ Db.get (owned_video video_id u) (Biblioteca.videos lib) = Db.Found video
    /\ manager_of video u m = true
    /\ (Db.get (manager_of video u) (Biblioteca.managers lib) = Db.Found m
        \/ (Db.get (manager_of video u) (Biblioteca.managers lib) = Db.DoesNotExist
            /\ VideoManager.favorito m = false
            /\ VideoManager.notas m = EmptyString))
    /\ In (VideoManager.set_notas (query_get_default "notas" EmptyString (POST req)) m)
          (Biblioteca.managers lib1)
    /\ Biblioteca.videos lib1 = Biblioteca.videos lib.
Proof.
  unfold guardar_notas_video. intros H.
  destruct (user req) as [u|] eqn:Hu; [ | discriminate H].
  destruct (negb _); [discriminate H | ].
  destruct (Db.get _ _) as [video| |] eqn:Hg; [ | discriminate H..].
  destruct (get_or_create_manager _ _ _ _) as [[m lib0]|e] eqn:Hm; [ | discriminate H].
  destruct (check (manager_save_fault w)); [ | discriminate H].
  inversion H; subst; clear H.
  apply get_or_create_manager_inv in Hm as (Hp & Hv & Hcase).
  exists u, video, m. split; [reflexivity | ]. split; [exact Hg | ].
  split; [exact Hp | ]. split; [exact Hcase | ].
  destruct (in_save_manager
              (VideoManager.set_notas (query_get_default "notas" EmptyString (POST req)) m)
              lib0) as [Hin Hvid].
  split; [exact Hin | now rewrite Hvid].
Qed.

(** X22.  Notes and the favourite flag do not disturb each other: after
    notes were saved for a video, a toggle of its favourite flag that is
    answered 200 leaves a manager of the video with exactly those notes,
    and with the flag the toggle reported. *)
Theorem notas_survive_toggle
        (w w' : library_world) (req req' : request) (video_id : Z)
        (lib lib1 lib2 : Biblioteca.t) (data data' : list (string * jval)) (u : User.t) :
  user req = Some u -> user req' = Some u ->
  guardar_notas_video w req video_id lib = (Ok (JsonResponse data 200), lib1) ->
  toggle_favorito_video w' req' video_id lib1 = (Ok (JsonResponse data' 200), lib2) ->
  exists video m,
    Db.get (owned_video video_id u) (Biblioteca.videos lib) = Db.Found video
    /\ In m (Biblioteca.managers lib2)
    /\ manager_of video u m = true
    /\ VideoManager.notas m = query_get_default "notas" EmptyString (POST req)
    /\ In ("favorito", JV (PBool (VideoManager.favorito m))) data'.
Proof.
  intros Hu Hu' H1 H2.
  apply guardar_notas_video_inv in H1
    as (u1 & video & m & Hu1 & Hv & Hp & _ & Hin & Hvid).
  apply toggle_favorito_video_inv in H2
    as (u2 & video' & m' & Hu2 & Hv' & Hp' & Hcase' & Hin' & _ & Hd & _).
  rewrite Hu in Hu1. injection Hu1 as <-. rewrite Hu' in Hu2. injection Hu2 as <-.
  rewrite Hvid, Hv in Hv'. injection Hv' as <-.
  assert (Em : m' = VideoManager.set_notas
                      (query_get_default "notas" EmptyString (POST req)) m).
  { assert (Hf : In (VideoManager.set_notas
                       (query_get_default "notas" EmptyString (POST req)) m)
                    (List.filter (manager_of video u) (Biblioteca.managers lib1))).
    { apply filter_In. split; [exact Hin | exact Hp]. }
    destruct Hcase' as [Hg | [Hg _]].
    - rewrite (get_found _ _ _ Hg) in Hf. now destruct Hf as [<- | []].
    - unfold Db.get in Hg.
      destruct (List.filter _ _) as [|x [|y l]]; [destruct Hf | discriminate..]. }
  subst m'.
  exists video, (VideoManager.set_favorito
                   (negb (VideoManager.favorito
                            (VideoManager.set_notas
                               (query_get_default "notas" EmptyString (POST req)) m)))
                   (VideoManager.set_notas
                      (query_get_default "notas" EmptyString (POST req)) m)).
  split; [exact Hv | ]. split; [exact Hin' | ]. split; [exact Hp' | ].
  split; [reflexivity | exact Hd].
Qed.

Lemma notas_survive_toggle_witness :
  exists video m,
    Db.get (owned_video 2 Ejemplos.usuario) (Biblioteca.videos Ejemplos.biblioteca)
    = Db.Found video
    /\ In m (Biblioteca.managers
               (snd (toggle_favorito_video Ejemplos.mundo_biblioteca
                       Ejemplos.peticion_refresh 2
                       (snd (guardar_notas_video Ejemplos.mundo_biblioteca
                               Ejemplos.peticion_notas 2 Ejemplos.biblioteca)))))
    /\ manager_of video Ejemplos.usuario m = true
    /\ VideoManager.notas m = "repasar"
    /\ In ("favorito", JV (PBool (VideoManager.favorito m)))
          [("success", JV (PBool true)); ("favorito", JV (PBool true));
           ("message", Str "Video marcado como favorito")].
Proof.
  exact (notas_survive_toggle Ejemplos.mundo_biblioteca Ejemplos.mundo_biblioteca
           Ejemplos.peticion_notas Ejemplos.peticion_refresh 2 Ejemplos.biblioteca
           _ _ _ _ Ejemplos.usuario eq_refl eq_refl eq_refl eq_refl).
Defined.

(** X23.  The unique [youtube_id] makes the unlinking branch of
    [eliminar_video] dead: with the ids of YouTube distinct in the table,
    whenever the view answers 200 the row of the video is deleted, never
    just detached from the user, and no manager of the video is left. *)
Theorem eliminar_video_deletes
        (w : library_world) (req : request) (video_id : Z) (lib : Biblioteca.t)
        (data : list (string * jval)) :
  NoDup (List.map Video.youtube_id (Biblioteca.videos lib)) ->
  fst (eliminar_video w req video_id lib) = Ok (JsonResponse data 200) ->
  Biblioteca.videos (snd (eliminar_video w req video_id lib))
  = List.filter (fun v => negb (Video.id v =? video_id)) (Biblioteca.videos lib)
  /\ forall m, In m (Biblioteca.managers (snd (eliminar_video w req video_id lib))) ->
               In m (Biblioteca.managers lib) /\ VideoManager.video m <> video_id.
Proof.
  intros Hnd. unfold eliminar_video.
  destruct (user req) as [u|]; [ | discriminate].
  destruct (Db.get _ _) as [video| |] eqn:Hg; [ | discriminate..].
  destruct (check (manager_delete_fault w)); [ | discriminate].
  destruct (get_found_in _ _ _ Hg) as [Hin Hp].
  unfold owned_video in Hp. apply andb_true_iff in Hp as [Hid _].
  apply Z.eqb_eq in Hid.
  cbn [Biblioteca.videos Biblioteca.set_managers].
  assert (He : Db.exists_
                 (fun v => String.eqb (Video.youtube_id v) (Video.youtube_id video)
                           && negb (Video.id v =? video_id))
                 (Biblioteca.videos lib) = false).
  { unfold Db.exists_.
    destruct (existsb _ _) eqn:E; [ | reflexivity]. exfalso.
    apply existsb_exists in E as [v [Hv Hc]]. apply andb_true_iff in Hc as [Hy Hne].
    apply String.eqb_eq in Hy. apply negb_true_iff, Z.eqb_neq in Hne.
    apply Hne. rewrite <- Hid. f_equal.
    exact (NoDup_map_eq Video.youtube_id _ _ _ Hnd Hv Hin Hy). }
  rewrite He. cbn [negb].
  destruct (check (video_delete_fault w)); [ | discriminate].
  intros _. cbn [snd]. unfold delete_video, same_library_video. cbn. split.
  - now rewrite Hid.
  - intros m Hm. apply filter_In in Hm as [Hm Hne].
    apply filter_In in Hm as [Hm _]. split; [exact Hm | ].
    apply negb_true_iff, Z.eqb_neq in Hne. now rewrite <- Hid.
Qed.

Lemma eliminar_video_deletes_witness :
  Biblioteca.videos (snd (eliminar_video Ejemplos.mundo_biblioteca
                                         Ejemplos.peticion_refresh 1 Ejemplos.biblioteca))
  = List.filter (fun v => negb (Video.id v =? 1)) (Biblioteca.videos Ejemplos.biblioteca).
Proof.
  refine (proj1 (eliminar_video_deletes Ejemplos.mundo_biblioteca
                   Ejemplos.peticion_refresh 1 Ejemplos.biblioteca _ _ eq_refl)).
  cbn. repeat constructor; cbn; intuition discriminate.
Defined.

(** ** The dashboard *)

(** X24.  What the dashboard shows of the videos of the channel, for the
    account of the user.  With a valid token and an answer of the search
    that is a dictionary without [error]: when [items] is a list, [videos]
    holds its first five entries, [total_videos] is the length of the
    whole list and there is no [api_error]; when there is no [items],
    nothing is shown and the total is zero.  With an expired token no
    request is made: nothing is shown, the total is zero and [api_error]
    tells the user to connect again. *)
Theorem youtube_dashboard_shows_five
        (w : dashboard_world) (req : request) (db : Db.t)
        (u : User.t) (a : YouTubeAccount.t) :
  user req = Some u ->
  Db.get (account_of_user u) (Db.youtube_accounts db) = Db.Found a ->
  let page (videos : list pyval) (total_videos : Z) (api_error : pyval) :=
    Ok (RenderPage "youtube_dashboard.html"
          [("youtube_account", CAccount a);
           ("videos", CV (JV (PList videos)));
           ("total_videos", CV (JV (PInt total_videos)));
           ("api_error", CV (JV api_error));
           ("token_valido",
            CV (JV (PBool (YouTubeAccount.esta_autenticado (dashboard_now3 w) a))))]) in
  (forall d items,
      YouTubeAccount.esta_autenticado (dashboard_now2 w) a = true ->
      search_get w = Ok (PDict d) -> dict_lookup "error" d = None ->
      dict_lookup "items" d = Some (PList items) ->
      youtube_dashboard w req db
      = page (List.firstn 5 items) (Z.of_nat (List.length items)) PNone)
  /\ (forall d,
         YouTubeAccount.esta_autenticado (dashboard_now2 w) a = true ->
         search_get w = Ok (PDict d) -> dict_lookup "error" d = None ->
         dict_lookup "items" d = None ->
         youtube_dashboard w req db = page [] 0 PNone)
  /\ (YouTubeAccount.esta_autenticado (dashboard_now2 w) a = false ->
      youtube_dashboard w req db
      = page [] 0 (PStr "Token expirado. Reconecta con YouTube.")).
Proof.
  intros Hu Hg page. unfold youtube_dashboard. rewrite Hu, Hg.
  split; [ | split].
  - intros d items Ha Hs He Hi. rewrite Ha. unfold dashboard_search.
    rewrite Hs. cbn [contains getitem]. unfold dict_has. rewrite He, Hi.
    reflexivity.
  - intros d Ha Hs He Hi. rewrite Ha. unfold dashboard_search.
    rewrite Hs. cbn [contains]. unfold dict_has. rewrite He, Hi. reflexivity.
  - intros Ha. rewrite Ha. reflexivity.
Qed.

Lemma youtube_dashboard_shows_five_witness :
  youtube_dashboard Ejemplos.mundo_dashboard Ejemplos.peticion_refresh Ejemplos.base
  = Ok (RenderPage "youtube_dashboard.html"
          [("youtube_account", CAccount (Ejemplos.cuenta (Some 5000)));
           ("videos", CV (JV (PList [PInt 1; PInt 2; PInt 3; PInt 4; PInt 5])));
           ("total_videos", CV (JV (PInt 6)));
           ("api_error", CV (JV PNone));
           ("token_valido", CV (JV (PBool true)))])
  /\ youtube_dashboard (mkDashboardWorld 100 6000 100 (search_get Ejemplos.mundo_dashboard))
                       Ejemplos.peticion_refresh Ejemplos.base
     = Ok (RenderPage "youtube_dashboard.html"
             [("youtube_account", CAccount (Ejemplos.cuenta (Some 5000)));
              ("videos", CV (JV (PList [])));
              ("total_videos", CV (JV (PInt 0)));
              ("api_error", CV (JV (PStr "Token expirado. Reconecta con YouTube.")));
              ("token_valido", CV (JV (PBool true)))]).
Proof.
  split.
  - exact (proj1 (youtube_dashboard_shows_five Ejemplos.mundo_dashboard
                    Ejemplos.peticion_refresh Ejemplos.base Ejemplos.usuario
                    (Ejemplos.cuenta (Some 5000)) eq_refl eq_refl)
                 _ [PInt 1; PInt 2; PInt 3; PInt 4; PInt 5; PInt 6]
                 eq_refl eq_refl eq_refl eq_refl).
  - exact (proj2 (proj2 (youtube_dashboard_shows_five
                           (mkDashboardWorld 100 6000 100
                                             (search_get Ejemplos.mundo_dashboard))
                           Ejemplos.peticion_refresh Ejemplos.base Ejemplos.usuario
                           (Ejemplos.cuenta (Some 5000)) eq_refl eq_refl))
                 eq_refl).
Defined.

Lemma paso4_in (w : callback_world) (req : request) (t : tokens)
      (user_email : pyval) (c : channel_info) (a : YouTubeAccount.t) (db db' : Db.t) :
  paso4 w req t user_email c db = (Ok a, db') -> In a (Db.youtube_accounts db').
Proof.
  unfold paso4. intros H.
  destruct (Db.get _ _) as [old| |]; [ | | discriminate H].
  - destruct (update_account w t user_email c old db) as [[a0 db0]|e] eqn:Hu;
      [ | discriminate H].
    inversion H; subst. apply update_account_inv in Hu as (-> & _).
    apply in_save_account.
  - destruct (user req) as [u|].
    + now apply create_account_returns in H.
    + destruct (bind _ _) as [[django_user db1]|e]; [ | discriminate H].
      now apply create_account_returns in H.
Qed.

(** X25.  A visitor the callback logs in lands on the dashboard of the
    channel just linked.  With the database within its constraints, after
    a callback that logged a user in, the start page sends that user to
    the dashboard, and the dashboard finds exactly the account kept in the
    session: it never sends the user back to the login, and what it
    renders is that account. *)
Theorem callback_then_dashboard
        (w : callback_world) (req : request) (db : Db.t)
        (w' : dashboard_world) (req' : request) (u' : User.t) :
  Spec.consistent db ->
  callback_login (youtube_callback w req db) = Some (User.id u') ->
  user req' = Some u' ->
  exists a,
    Db.get (account_of_user u')
           (Db.youtube_accounts (callback_db (youtube_callback w req db))) = Db.Found a
    /\ callback_session_account (youtube_callback w req db) = Some (YouTubeAccount.id a)
    /\ inicio req' (callback_db (youtube_callback w req db))
       = Ok (Redirect "youtube_dashboard")
    /\ youtube_dashboard w' req' (callback_db (youtube_callback w req db))
       <> Ok (Plain (Redirect "youtube_login"))
    /\ forall template context,
        youtube_dashboard w' req' (callback_db (youtube_callback w req db))
        = Ok (RenderPage template context) ->
        In ("youtube_account", CAccount a) context.
Proof.
  intros Hc Hlogin Hu.
  unfold youtube_callback in *.
  destruct (negb (str_empty _)); [discriminate Hlogin | ].
  destruct (str_empty _); [discriminate Hlogin | ].
  destruct (paso2 w) as [r|t]; [discriminate Hlogin | ].
  destruct (paso3_canal w) as [r|c]; [discriminate Hlogin | ].
  destruct (paso4 w req t (paso3_email w) c db) as [[a|e] db'] eqn:H4;
    [ | discriminate Hlogin].
  cbn [callback_login callback_db callback_session_account] in *.
  destruct (user req); [discriminate Hlogin | ]. injection Hlogin as Hlogin.
  pose proof (paso4_in _ _ _ _ _ _ _ _ H4) as Hin.
  pose proof (paso4_consistent w req t (paso3_email w) c db Hc) as Hc'.
  rewrite H4 in Hc'. cbn [snd] in Hc'.
  destruct Hc' as (_ & _ & Hid & _ & Hus).
  assert (Hg : Db.get (account_of_user u') (Db.youtube_accounts db') = Db.Found a).
  { pose proof (get_one_to_one YouTubeAccount.user (User.id u') _ Hus) as Hone.
    change (fun r => YouTubeAccount.user r =? User.id u') with (account_of_user u')
      in Hone.
    assert (Hf : In a (List.filter (account_of_user u') (Db.youtube_accounts db'))).
    { apply filter_In. split; [exact Hin | ]. unfold account_of_user. now apply Z.eqb_eq. }
    unfold Db.get in *.
    destruct (List.filter _ _) as [|x [|y l]]; [destruct Hf | | congruence].
    now destruct Hf as [-> | []]. }
  exists a. split; [exact Hg | ]. split; [reflexivity | ].
  unfold inicio, youtube_dashboard. rewrite Hu, Hg. split; [reflexivity | ].
  destruct (if YouTubeAccount.esta_autenticado (dashboard_now2 w') a
            then dashboard_search w'
            else (PList [], PStr "Token expirado. Reconecta con YouTube."))
    as [videos api_error].
  destruct (slice5 videos) as [shown|]; cbn [bind]; [ | split; discriminate].
  destruct (len videos) as [total|]; cbn [bind]; [ | split; discriminate].
  split; [discriminate | ].
  intros template context H. inversion H; subst. cbn. tauto.
Qed.

Lemma callback_then_dashboard_witness :
  exists a,
    Db.get (account_of_user Ejemplos.usuario)
           (Db.youtube_accounts
              (callback_db (youtube_callback Ejemplos.mundo_canal_ok
                                             Ejemplos.peticion_callback Ejemplos.base)))
    = Db.Found a
    /\ callback_session_account
         (youtube_callback Ejemplos.mundo_canal_ok Ejemplos.peticion_callback Ejemplos.base)
       = Some (YouTubeAccount.id a)
    /\ inicio Ejemplos.peticion_refresh
         (callback_db (youtube_callback Ejemplos.mundo_canal_ok
                                        Ejemplos.peticion_callback Ejemplos.base))
       = Ok (Redirect "youtube_dashboard").
Proof.
  destruct (callback_then_dashboard Ejemplos.mundo_canal_ok Ejemplos.peticion_callback
              Ejemplos.base Ejemplos.mundo_dashboard Ejemplos.peticion_refresh
              Ejemplos.usuario consistent_base eq_refl eq_refl)
    as (a & H1 & H2 & H3 & _).
  exists a. split; [exact H1 | ]. split; [exact H2 | exact H3].
Defined.

(** *** The failure handler *)

(** X27.  A failed upload is recorded with its cause.  When the [try]
    block of the background upload raises and the [save()] of the handler
    works, the run itself raises nothing, and the stored row is [failed],
    carries the text of the exception as [mensaje_error] and has its end
    time set. *)
Theorem subir_video_records_failure
        (w : upload_world) (access_token : string) (j : VideoSubido.t) (db : Db.t)
        (e : exn) :
  Spec.caught w j db = Some e ->
  save_fallo w = None ->
  fst (run_upload w access_token j db) = Ok tt
  /\ VideoSubido.estado (video_subido (snd (run_upload w access_token j db))) = "failed"
  /\ VideoSubido.mensaje_error (video_subido (snd (run_upload w access_token j db)))
     = exn_msg e
  /\ VideoSubido.fin_subida (video_subido (snd (run_upload w access_token j db)))
     = Some (now_fallo w)
  /\ In (video_subido (snd (run_upload w access_token j db)))
        (Db.videos_subidos (upload_db (snd (run_upload w access_token j db)))).
Proof.
  unfold Spec.caught, run_upload, _subir_video_youtube, try_except.
  intros Hc Hs.
  destruct (subir_try w (mkUploadState j db [] [])) as [[[]|e0] st]; [discriminate Hc | ].
  injection Hc as ->.
  unfold subir_except, seq, assign_estado, modify, save. rewrite Hs.
  cbn [fst snd video_subido upload_db].
  repeat split. apply in_save_video.
Qed.

Lemma subir_video_records_failure_witness :
  VideoSubido.estado
    (video_subido (snd (run_upload Ejemplos.mundo_subida_rota "tok"
                                   Ejemplos.video_pendiente Ejemplos.base_completa)))
  = "failed"
  /\ VideoSubido.mensaje_error
       (video_subido (snd (run_upload Ejemplos.mundo_subida_rota "tok"
                                      Ejemplos.video_pendiente Ejemplos.base_completa)))
     = "quotaExceeded".
Proof.
  destruct (subir_video_records_failure Ejemplos.mundo_subida_rota "tok"
              Ejemplos.video_pendiente Ejemplos.base_completa
              (mkExn OtherError "quotaExceeded") eq_refl eq_refl) as (_ & H2 & H3 & _).
  split; [exact H2 | exact H3].
Defined.
